(** * Dormant-account compliance dashboards: classification and filtering rules

    A shallow embedding of the rule code of the dashboard scripts
    (3yearsinactivityad.py, dormantacctransfer.py, freezeaccount.py,
    investment_inactivity.py, inactive_account.py, safe_depositbox.py,
    fdinactivity.py) and the properties their specification states about
    them.

    Modelling conventions.
    - A CSV cell read by [pd.read_csv] into an object column is a string, or
      missing (NaN): [cell := option string].
    - Python [float] quantities (elapsed years, thresholds, balances) are
      rationals [Q], compared and rounded exactly; the integral quantities
      (nanosecond timestamps, day counts) are [Z].
    - [pd.NaT] / [None] for an unknown date is [None] at an option type.
    - A Python exception that escapes a function is [Raised e]; messages
      shown on the page ([st.error], [st.warning]) are not modelled. *)

From Stdlib Require Import ZArith QArith Qround Bool List String Ascii Lia.
From Stdlib Require Import Sorting.Sorted Sorting.Permutation.
From Stdlib Require Import Lqa.
Import ListNotations.

Local Open Scope string_scope.
Local Open Scope Z_scope.

(** ** Values shared by the scripts *)

Definition cell := option string.

Inductive exn := ValueError | TypeError | AttributeError.

Inductive outcome (A : Type) :=
| Returned (a : A)
| Raised (e : exn).
Arguments Returned {A} a.
Arguments Raised {A} e.

(** [x == 'lit'] on a cell: a missing value (NaN) is never equal to a string. *)
Definition cell_eqb (c : cell) (lit : string) : bool :=
  match c with
  | Some s => String.eqb s lit
  | None => false
  end.

(** [Series.isin(values)] for one cell and a list of selected strings. *)
Definition isin (c : cell) (values : list string) : bool :=
  match c with
  | Some s => existsb (String.eqb s) values
  | None => false
  end.

(** Python truthiness of a list: empty is false. *)
Definition truthy {A} (l : list A) : bool :=
  match l with
  | [] => false
  | _ :: _ => true
  end.

(** Truthiness of a value that is a list or [None]. *)
Definition truthy_opt {A} (l : option (list A)) : bool :=
  match l with
  | Some l => truthy l
  | None => false
  end.

Definition selected {A} (l : option (list A)) : list A :=
  match l with
  | Some l => l
  | None => []
  end.

(** Float comparison [x > y]. *)
Definition Qgtb (x y : Q) : bool := negb (Qle_bool x y).

(** [numpy.rint]: round to the nearest integer, ties to the even one. *)
Definition rint (q : Q) : Z :=
  let f := Qfloor q in
  match Qcompare (q - inject_Z f) (1 # 2)%Q with
  | Lt => f
  | Gt => f + 1
  | Eq => if Z.even f then f else f + 1
  end.

(** [Series.round(2)]: [rint (x * 100) / 100]. *)
Definition round2 (q : Q) : Q := inject_Z (rint (q * 100)) / 100.

(** ** Inactivity tiers (3yearsinactivityad.py, [categorize_by_inactivity]) *)

Module Tier.

(** The nested [determine_category]; the thresholds are the enclosing
    method's parameters. *)
Definition determine_category (low_years medium_years high_years : Q)
    (years_inactive : Q) : string :=
  if Qgtb years_inactive high_years then "HIGH"
  else if Qgtb years_inactive medium_years then "MEDIUM"
  else if Qgtb years_inactive low_years then "LOW"
  else "MONITOR".

(** The nested [determine_amount]. *)
Definition determine_amount (balance : Q) : string :=
  if Qgtb balance 300000 then "HIGH"
  else if Qgtb balance 100000 then "MEDIUM"
  else "LOW".

(** Severity order of the tier labels: MONITOR < LOW < MEDIUM < HIGH. *)
Definition tier_rank (label : string) : option nat :=
  if String.eqb label "MONITOR" then Some 0%nat
  else if String.eqb label "LOW" then Some 1%nat
  else if String.eqb label "MEDIUM" then Some 2%nat
  else if String.eqb label "HIGH" then Some 3%nat
  else None.

Definition tier_le (a b : string) : Prop :=
  match tier_rank a, tier_rank b with
  | Some x, Some y => (x <= y)%nat
  | _, _ => False
  end.

Definition tiers : list string := ["MONITOR"; "LOW"; "MEDIUM"; "HIGH"].

End Tier.

(** ** The account table *)

(** One row of the uploaded CSV. [D] is the type of the
    'Last Transaction Date' column: [cell] as read by [pd.read_csv],
    [option Z] (nanoseconds since the epoch, [None] for NaT) once converted
    by [pd.to_datetime]. *)
Record row (D : Type) := mkRow {
  Account_ID : cell;
  Account_Type : cell;
  Branch : cell;
  Customer_Type : cell;
  Account_Status : cell;
  Account_Balance : Q;
  Last_Transaction_Date : D;
  KYC_Status : cell;
  Email_Contact_Attempt : cell;
  SMS_Contact_Attempt : cell;
  Phone_Call_Attempt : cell
}.
Arguments mkRow {D}.
Arguments Account_ID {D}.
Arguments Account_Type {D}.
Arguments Branch {D}.
Arguments Customer_Type {D}.
Arguments Account_Status {D}.
Arguments Account_Balance {D}.
Arguments Last_Transaction_Date {D}.
Arguments KYC_Status {D}.
Arguments Email_Contact_Attempt {D}.
Arguments SMS_Contact_Attempt {D}.
Arguments Phone_Call_Attempt {D}.

Definition raw_row := row cell.
Definition timestamp := Z.
Definition dated_row := row (option timestamp).

Definition set_date {D E} (r : row D) (d : E) : row E :=
  mkRow (Account_ID r) (Account_Type r) (Branch r) (Customer_Type r)
        (Account_Status r) (Account_Balance r) d (KYC_Status r)
        (Email_Contact_Attempt r) (SMS_Contact_Attempt r)
        (Phone_Call_Attempt r).

Definition ns_per_day : Z := 86400 * 1000000000.

(** [datetime.timedelta(days=d)] for a float [d], in nanoseconds: the
    constructor rounds to a whole number of microseconds, ties to even. *)
Definition timedelta_days (d : Q) : Z := 1000 * rint (d * 86400000000).

(** [series < cutoff] on a datetime column: NaT compares false. *)
Definition date_ltb (d : option timestamp) (cutoff : timestamp) : bool :=
  match d with
  | Some t => t <? cutoff
  | None => false
  end.

(** [(now - series).dt.days]: whole days, rounded down; NaN for NaT. *)
Definition dt_days (now : timestamp) (d : option timestamp) : option Z :=
  match d with
  | Some t => Some ((now - t) / ns_per_day)
  | None => None
  end.

(** ** Date conversion with [pd.to_datetime] *)

Section ToDatetime.

(** The scalar date parser of pandas: [None] when the text is not a date. *)
Variable parse : string -> option timestamp.

(** [pd.to_datetime(column, errors='coerce')]: a missing cell and an
    unparseable one both become NaT. *)
Definition to_datetime_coerce (rows : list raw_row) : list dated_row :=
  map (fun r => set_date r (match Last_Transaction_Date r with
                            | Some s => parse s
                            | None => None
                            end)) rows.

(** [pd.to_datetime(column)], i.e. [errors='raise']: a missing cell becomes
    NaT, the first unparseable one raises for the whole column. *)
Fixpoint to_datetime_raise (rows : list raw_row) : outcome (list dated_row) :=
  match rows with
  | [] => Returned []
  | r :: rest =>
      match Last_Transaction_Date r with
      | None =>
          match to_datetime_raise rest with
          | Returned out => Returned (set_date r None :: out)
          | Raised e => Raised e
          end
      | Some s =>
          match parse s with
          | None => Raised ValueError
          | Some t =>
              match to_datetime_raise rest with
              | Returned out => Returned (set_date r (Some t) :: out)
              | Raised e => Raised e
              end
          end
      end
  end.

End ToDatetime.

(** ** Account Inactivity Checker (3yearsinactivityad.py) *)

Module AccountInactivity.

(** A row of [inactive_accounts]: the account plus the two derived columns.
    Both are NaN ([None]) when the date is NaT. *)
Record inactive_row := mkInactive {
  account : dated_row;
  days_inactive : option Z;
  years_inactive : option Q
}.

(** A row of the categorised table. *)
Record categorized_row := mkCategorized {
  inactive : inactive_row;
  inactivity_category : string;
  contact_status : string;
  amount_category : string
}.

(** The table held in [accounts_df]: as read, its date column still text,
    or with the date column converted. *)
Inductive frame :=
| Unconverted (rows : list raw_row)
| Converted (rows : list dated_row).

(** The fields of [AccountInactivityChecker]. *)
Record checker := mkChecker {
  accounts_df : option frame;
  inactive_accounts : option (list inactive_row);
  today : timestamp
}.

(** [__init__]; the argument stands for [datetime.now()]. *)
Definition init (now : timestamp) : checker := mkChecker None None now.

Section Load.

Variable parse : string -> option timestamp.

(** [load_account_data]. [file] is the table [pd.read_csv] produced; it
    is stored before the date column is converted. Any exception of the
    conversion is caught, reported, and turned into the result [False]. *)
Definition load_account_data (self : checker) (file : list raw_row)
    : bool * checker :=
  let self :=
    mkChecker (Some (Unconverted file)) (inactive_accounts self)
              (today self) in
  match to_datetime_raise parse file with
  | Returned df =>
      (true,
       mkChecker (Some (Converted df)) (inactive_accounts self) (today self))
  | Raised _ => (false, self)
  end.

End Load.

(** Lines 54-56: [days_inactive], then [years_inactive] as days / 365
    rounded to two decimals. *)
Definition add_inactivity (now : timestamp) (r : dated_row) : inactive_row :=
  let days := dt_days now (Last_Transaction_Date r) in
  mkInactive r days
    (match days with
     | Some d => Some (round2 (inject_Z d / 365))
     | None => None
     end).

(** Order used by [sort_values('days_inactive', ascending=False)]: larger
    first, NaN last. *)
Definition days_geb (a b : option Z) : bool :=
  match a, b with
  | Some x, Some y => y <=? x
  | Some _, None => true
  | None, Some _ => false
  | None, None => true
  end.

Definition days_ge (a b : inactive_row) : Prop :=
  days_geb (days_inactive a) (days_inactive b) = true.

(** Both day counts are known and the first is at least the second. *)
Definition known_days_desc (a b : inactive_row) : Prop :=
  exists x y,
    days_inactive a = Some x /\ days_inactive b = Some y /\ y <= x.

Fixpoint insert_desc (r : inactive_row) (l : list inactive_row)
    : list inactive_row :=
  match l with
  | [] => [r]
  | x :: rest =>
      if days_geb (days_inactive r) (days_inactive x) then r :: l
      else x :: insert_desc r rest
  end.

(** [sort_values('days_inactive', ascending=False)]. pandas leaves the order
    of rows with equal keys unspecified; this sort keeps them in table
    order. *)
Definition sort_values_desc (l : list inactive_row) : list inactive_row :=
  fold_right insert_desc [] l.

Definition cutoff_date (now : timestamp) (inactivity_years : Q) : timestamp :=
  now - timedelta_days (inactivity_years * 365).

(** [identify_inactive_accounts]: the returned table ([None], after an
    error message, when no data is loaded) and the updated checker. On a
    table whose date column is still text the comparison with the cutoff
    raises. *)
Definition identify_inactive_accounts (self : checker)
    (inactivity_years : Q) (account_types : list string)
    : outcome (option (list inactive_row) * checker) :=
  match accounts_df self with
  | None => Returned (None, self)
  | Some (Unconverted _) => Raised TypeError
  | Some (Converted df) =>
      let cutoff := cutoff_date (today self) inactivity_years in
      let selected :=
        filter (fun r => isin (Account_Type r) account_types
                         && date_ltb (Last_Transaction_Date r) cutoff) df in
      let result :=
        sort_values_desc (map (add_inactivity (today self)) selected) in
      Returned
        (Some result,
         mkChecker (accounts_df self) (Some result) (today self))
  end.

(** [determine_category] applied through [Series.apply]: a NaN argument
    fails every comparison and reaches the final [else]. *)
Definition apply_determine_category (low_years medium_years high_years : Q)
    (years : option Q) : string :=
  match years with
  | Some y => Tier.determine_category low_years medium_years high_years y
  | None => "MONITOR"
  end.

(** The nested [determine_contact_status]. *)
Definition determine_contact_status {D} (r : row D) : string :=
  let attempts := 0 in
  let attempts :=
    if cell_eqb (Email_Contact_Attempt r) "Yes" then attempts + 1
    else attempts in
  let attempts :=
    if cell_eqb (SMS_Contact_Attempt r) "Yes" then attempts + 1
    else attempts in
  let attempts :=
    if cell_eqb (Phone_Call_Attempt r) "Yes" then attempts + 1
    else attempts in
  if attempts =? 0 then "No Contact"
  else if attempts <? 3 then "Partial Contact"
  else "Full Contact".

Definition categorize_row (low_years medium_years high_years : Q)
    (r : inactive_row) : categorized_row :=
  mkCategorized r
    (apply_determine_category low_years medium_years high_years
       (years_inactive r))
    (determine_contact_status (account r))
    (Tier.determine_amount (Account_Balance (account r))).

(** [categorize_by_inactivity]: [None] (after a warning) when there is
    nothing to categorise, otherwise every row labelled. *)
Definition categorize_by_inactivity (self : checker)
    (low_years medium_years high_years : Q) : option (list categorized_row) :=
  match inactive_accounts self with
  | None => None
  | Some [] => None
  | Some rows =>
      Some (map (categorize_row low_years medium_years high_years) rows)
  end.

(** The 'Run Analysis' branch of [main]: identify, then categorise when
    there are results. The rows of the model hold numeric balances and
    unbounded timestamps: a balance column read as text, on which the
    comparisons of [determine_amount] raise, and a date more than a pandas
    Timedelta (about 292 years) before today are outside the model. *)
Definition run_analysis (self : checker) (inactivity_years : Q)
    (account_types : list string) (low_years medium_years high_years : Q)
    : outcome (option (list categorized_row)) :=
  match identify_inactive_accounts self inactivity_years account_types with
  | Raised e => Raised e
  | Returned (Some (_ :: _), self') =>
      Returned
        (categorize_by_inactivity self' low_years medium_years high_years)
  | Returned _ => Returned None
  end.

Section Upload.

Variable parse : string -> option timestamp.

(** [main] from the upload to the categorised table: the analysis runs only
    when the load returned [True]. *)
Definition upload_and_analyse (self : checker) (file : list raw_row)
    (inactivity_years : Q) (account_types : list string)
    (low_years medium_years high_years : Q)
    : outcome (option (list categorized_row)) :=
  let (loaded, self') := load_account_data parse self file in
  if loaded
  then run_analysis self' inactivity_years account_types
                    low_years medium_years high_years
  else Returned None.

End Upload.

(** The 'Apply filters' block of the data-table tab of [main]
    (lines 384-395). The two optional filters are [None] when their column
    is absent. *)
Definition apply_filters (categorized_results : list categorized_row)
    (account_type_filter branch_filter customer_type_filter : list string)
    (category_filter amount_filter : option (list string))
    : list categorized_row :=
  let filtered_df :=
    filter (fun r =>
              isin (Account_Type (account (inactive r))) account_type_filter
              && isin (Branch (account (inactive r))) branch_filter
              && isin (Customer_Type (account (inactive r)))
                      customer_type_filter)
           categorized_results in
  let filtered_df :=
    if truthy_opt category_filter
    then filter (fun r => isin (Some (inactivity_category r))
                               (selected category_filter)) filtered_df
    else filtered_df in
  let filtered_df :=
    if truthy_opt amount_filter
    then filter (fun r => isin (Some (amount_category r))
                               (selected amount_filter)) filtered_df
    else filtered_df in
  filtered_df.

End AccountInactivity.

(** ** Python text helpers *)

Definition is_digit (c : ascii) : bool :=
  let n := N_of_ascii c in (48 <=? n)%N && (n <=? 57)%N.

Definition digit_val (c : ascii) : Z := Z.of_N (N_of_ascii c) - 48.

Definition digit_between (lo hi : Z) (c : ascii) : bool :=
  is_digit c && (lo <=? digit_val c) && (digit_val c <=? hi).

(** [str.lower] on the ASCII letters. *)
Definition ascii_lower (c : ascii) : ascii :=
  let n := N_of_ascii c in
  if (65 <=? n)%N && (n <=? 90)%N then ascii_of_N (n + 32) else c.

Fixpoint str_lower (s : string) : string :=
  match s with
  | EmptyString => EmptyString
  | String c rest => String (ascii_lower c) (str_lower rest)
  end.

(** [pat in s]. *)
Fixpoint contains (pat s : string) : bool :=
  String.prefix pat s ||
  match s with
  | EmptyString => false
  | String _ rest => contains pat rest
  end.

(** [s.split("T")[0]]: the text before the first 'T'. *)
Fixpoint before_T (s : string) : string :=
  match s with
  | EmptyString => EmptyString
  | String c rest =>
      if Ascii.eqb c "T" then EmptyString else String c (before_T rest)
  end.

(** ** Dormant Account Transfer Agent (dormantacctransfer.py) *)

Module TransferAgent.

(** A naive [datetime.datetime]. *)
Record datetime := mkDatetime {
  year : Z; month : Z; day : Z;
  hour : Z; minute : Z; second : Z; microsecond : Z
}.

Definition lex (c1 c2 : comparison) : comparison :=
  match c1 with
  | Eq => c2
  | _ => c1
  end.

(** Naive datetimes compare field by field, most significant first. *)
Definition datetime_compare (a b : datetime) : comparison :=
  lex (year a ?= year b)
 (lex (month a ?= month b)
 (lex (day a ?= day b)
 (lex (hour a ?= hour b)
 (lex (minute a ?= minute b)
 (lex (second a ?= second b)
      (microsecond a ?= microsecond b)))))).

Definition datetime_leb (a b : datetime) : bool :=
  match datetime_compare a b with
  | Gt => false
  | _ => true
  end.

(** *** [datetime.strptime(s, "%Y-%m-%d")]

    The format compiles to the regular expression
    [(\d\d\d\d)-(1[0-2]|0[1-9]|[1-9])-(3[01]|[12]\d|0[1-9]|[1-9]| [1-9])],
    matched at the start of the text with backtracking. A matcher returns
    its successes in the order the backtracking engine tries them. *)

Definition matcher (A : Type) := string -> list (A * string).

Definition one_char (p : ascii -> bool) : matcher ascii :=
  fun s =>
    match s with
    | String c rest => if p c then [(c, rest)] else []
    | EmptyString => []
    end.

Definition seq {A B} (m : matcher A) (k : A -> matcher B) : matcher B :=
  fun s => flat_map (fun '(a, rest) => k a rest) (m s).

Definition ret {A} (a : A) : matcher A := fun s => [(a, s)].

Definition alt {A} (m1 m2 : matcher A) : matcher A :=
  fun s => (m1 s ++ m2 s)%list.

Definition two_digits (p1 p2 : ascii -> bool) : matcher Z :=
  seq (one_char p1) (fun a =>
  seq (one_char p2) (fun b => ret (10 * digit_val a + digit_val b))).

Definition one_digit (p : ascii -> bool) : matcher Z :=
  seq (one_char p) (fun a => ret (digit_val a)).

Definition re_Y : matcher Z :=
  seq (one_char is_digit) (fun a =>
  seq (one_char is_digit) (fun b =>
  seq (one_char is_digit) (fun c =>
  seq (one_char is_digit) (fun d =>
  ret (1000 * digit_val a + 100 * digit_val b
       + 10 * digit_val c + digit_val d))))).

Definition re_m : matcher Z :=
  alt (two_digits (digit_between 1 1) (digit_between 0 2))
 (alt (two_digits (digit_between 0 0) (digit_between 1 9))
      (one_digit (digit_between 1 9))).

Definition re_d : matcher Z :=
  alt (two_digits (digit_between 3 3) (digit_between 0 1))
 (alt (two_digits (digit_between 1 2) is_digit)
 (alt (two_digits (digit_between 0 0) (digit_between 1 9))
 (alt (one_digit (digit_between 1 9))
      (seq (one_char (Ascii.eqb " ")) (fun _ =>
       one_digit (digit_between 1 9)))))).

Definition dash : matcher ascii := one_char (Ascii.eqb "-").

Definition re_ymd : matcher (Z * Z * Z) :=
  seq re_Y (fun y =>
  seq dash (fun _ =>
  seq re_m (fun m =>
  seq dash (fun _ =>
  seq re_d (fun d => ret (y, m, d)))))).

Definition is_leap (y : Z) : bool :=
  (y mod 4 =? 0) && (negb (y mod 100 =? 0) || (y mod 400 =? 0)).

Definition days_in_month (y m : Z) : Z :=
  if m =? 2 then (if is_leap y then 29 else 28)
  else if (m =? 4) || (m =? 6) || (m =? 9) || (m =? 11) then 30
  else 31.

(** [None] stands for the [ValueError] of a failed parse: no match, text
    left over after the match, or a day that the month does not have. *)
Definition strptime_ymd (s : string) : option datetime :=
  match re_ymd s with
  | (y, m, d, EmptyString) :: _ =>
      if (1 <=? y) && (1 <=? m) && (m <=? 12)
         && (1 <=? d) && (d <=? days_in_month y m)
      then Some (mkDatetime y m d 0 0 0 0)
      else None
  | _ => None
  end.

(** [clean_date]: only [ValueError] is caught; a missing cell is a float
    and has no [split]. *)
Definition clean_date (date_string : cell) : outcome (option datetime) :=
  match date_string with
  | None => Raised AttributeError
  | Some s => Returned (strptime_ymd (before_T s))
  end.

Definition cutoff_date : datetime := mkDatetime 2020 4 24 0 0 0 0.

(** [check_transfer_eligibility]: a datetime is always truthy, [None] is
    not; a NaT, which pandas may store in place of [None], compares false,
    so the unknown date gets the same answer either way. *)
Definition check_transfer_eligibility (last_transaction_date : option datetime)
    : string :=
  match last_transaction_date with
  | Some d =>
      if datetime_leb d cutoff_date then "Eligible for Transfer"
      else "Not Eligible"
  | None => "Not Eligible"
  end.

(** The two [apply] calls of the script: the cleaned date column, then the
    'Transfer Status' column. An exception in [clean_date] ends the run. *)
Fixpoint apply_clean_date (rows : list raw_row)
    : outcome (list (row (option datetime))) :=
  match rows with
  | [] => Returned []
  | r :: rest =>
      match clean_date (Last_Transaction_Date r) with
      | Raised e => Raised e
      | Returned d =>
          match apply_clean_date rest with
          | Raised e => Raised e
          | Returned out => Returned (set_date r d :: out)
          end
      end
  end.

Definition transfer_status (rows : list (row (option datetime)))
    : list string :=
  map (fun r => check_transfer_eligibility (Last_Transaction_Date r)) rows.

End TransferAgent.

(** ** Freeze Account Agent (freezeaccount.py) *)

Module FreezeAgent.

(** [freeze_account]. The date column is not converted: the comparison is
    between texts, and a missing date (a float) cannot be compared with a
    text. [and] stops at the first false operand. *)
Definition freeze_account (account_status transaction_date kyc_status : cell)
    : outcome string :=
  if cell_eqb account_status "Dormant" then
    match transaction_date with
    | None => Raised TypeError
    | Some d =>
        if String.ltb d "2022-01-01" then
          if cell_eqb kyc_status "Expired" then Returned "Frozen"
          else Returned "Active"
        else Returned "Active"
    end
  else Returned "Active".

End FreezeAgent.

(** ** The three-year violation bots
    (investment_inactivity.py, inactive_account.py, safe_depositbox.py) *)

Module ViolationBots.

(** [datetime.now() - timedelta(days=3 * 365)]. *)
Definition threshold_date (now : timestamp) : timestamp :=
  now - 3 * 365 * ns_per_day.

(** [column.str.contains(pat, case=False)] for a pattern without regular
    expression operators; NaN for a missing cell. *)
Definition str_contains_nocase (pat : string) (c : cell) : option bool :=
  match c with
  | Some s => Some (contains (str_lower pat) (str_lower s))
  | None => None
  end.

(** [column.str.lower() == lit]: a missing cell stays NaN and is unequal. *)
Definition lower_eqb (c : cell) (lit : string) : bool :=
  match c with
  | Some s => String.eqb (str_lower s) lit
  | None => false
  end.

(** The [.str] accessor of a column. [pd.read_csv] reads a column in which
    no cell holds text as float64 when the table has rows, and the accessor
    then raises; in a table without rows the columns are text columns. *)
Definition has_text (col : list cell) : bool :=
  existsb (fun c => match c with Some _ => true | None => false end) col.

Definition str_accessor (col : list cell) : outcome unit :=
  match col with
  | [] => Returned tt
  | _ :: _ => if has_text col then Returned tt else Raised AttributeError
  end.

(** [df[mask]] with a mask that may hold NaN, which pandas 2 refuses with
    a ValueError. *)
Fixpoint boolean_index {A} (df : list A) (mask : list (option bool))
    : outcome (list A) :=
  match df, mask with
  | r :: rest, Some b :: mrest =>
      match boolean_index rest mrest with
      | Returned out => Returned (if b then r :: out else out)
      | Raised e => Raised e
      end
  | _ :: _, None :: _ => Raised ValueError
  | _, _ => Returned []
  end.

(** The mask of the second selection: older than the threshold and no
    contact attempt on any of the three channels. *)
Definition violation_mask (now : timestamp) (r : dated_row) : bool :=
  date_ltb (Last_Transaction_Date r) (threshold_date now)
  && lower_eqb (Email_Contact_Attempt r) "no"
  && lower_eqb (SMS_Contact_Attempt r) "no"
  && lower_eqb (Phone_Call_Attempt r) "no".

(** The filtering block common to the three scripts; [kind] is the text
    searched in the account type. The account-type column is read through
    [.str] and masks the table; then the three contact columns of the
    masked table, which keep the types they have in the whole table, are
    read through [.str]. *)
Definition dormant_violations (kind : string) (now : timestamp)
    (df : list dated_row) : outcome (list dated_row) :=
  match str_accessor (map (fun r => Account_Type r) df) with
  | Raised e => Raised e
  | Returned _ =>
      match boolean_index df
              (map (fun r => str_contains_nocase kind (Account_Type r)) df)
      with
      | Raised e => Raised e
      | Returned typed_df =>
          match str_accessor (map (fun r => Email_Contact_Attempt r) df) with
          | Raised e => Raised e
          | Returned _ =>
              match str_accessor (map (fun r => SMS_Contact_Attempt r) df)
              with
              | Raised e => Raised e
              | Returned _ =>
                  match str_accessor
                          (map (fun r => Phone_Call_Attempt r) df) with
                  | Raised e => Raised e
                  | Returned _ =>
                      Returned (filter (violation_mask now) typed_df)
                  end
              end
          end
      end
  end.

(** investment_inactivity.py, [violations]. *)
Definition violations := dormant_violations "Investment".

(** inactive_account.py, [inactive_investments]. *)
Definition inactive_investments := dormant_violations "Investment".

(** safe_depositbox.py, [violations]. *)
Definition safe_deposit_violations := dormant_violations "Safe Deposit".

Section Ingest.

Variable parse : string -> option timestamp.

(** Each script from the uploaded table on: coerce the dates, then select. *)
Definition investment_bot (now : timestamp) (file : list raw_row)
    : outcome (list dated_row) :=
  violations now (to_datetime_coerce parse file).

Definition inactive_account_bot (now : timestamp) (file : list raw_row)
    : outcome (list dated_row) :=
  inactive_investments now (to_datetime_coerce parse file).

End Ingest.

End ViolationBots.

(** ** Fixed Deposit Inactivity Tracker (fdinactivity.py) *)

Module FDTracker.

Record fd_row := mkFd {
  base : dated_row;
  Days_Since_Last_Transaction : option Z;
  Years_Since_Last_Transaction : option Q;
  Inactive_Flag : bool;
  Maturity_Status : string
}.

(** A float comparison on a possibly-NaN value: NaN compares false. *)
Definition nan_test (p : Q -> bool) (x : option Q) : bool :=
  match x with
  | Some q => p q
  | None => false
  end.

Definition Qltb (x y : Q) : bool := Qgtb y x.
Definition Qgeb (x y : Q) : bool := Qle_bool y x.

(** [np.select(conditions, choices, default='Unknown')]. *)
Definition maturity_status (years : option Q) : string :=
  if nan_test (fun y => Qltb y 1) years then "Active"
  else if nan_test (fun y => Qgeb y 1 && Qltb y 2) years
       then "Approaching Inactivity"
  else if nan_test (fun y => Qgeb y 2 && Qltb y 3) years then "High Risk"
  else if nan_test (fun y => Qgeb y 3) years then "Inactive"
  else "Unknown".

Definition derive (current_date : timestamp) (r : dated_row) : fd_row :=
  let days := dt_days current_date (Last_Transaction_Date r) in
  let years :=
    match days with
    | Some d => Some (inject_Z d / (36525 # 100))%Q
    | None => None
    end in
  mkFd r days years (nan_test (fun y => Qgeb y 3) years)
       (maturity_status years).

Section Load.

Variable parse : string -> option timestamp.

(** [calculate_maturity_status]; the date conversion may raise. *)
Definition calculate_maturity_status (current_date : timestamp)
    (df : list raw_row) : outcome (list fd_row) :=
  match to_datetime_raise parse df with
  | Raised e => Raised e
  | Returned rows => Returned (map (derive current_date) rows)
  end.

End Load.

(** The filters of the 'Account Details' tab (lines 239-245). *)
Definition account_details (df : list fd_row)
    (status_filter branch_filter : list string) : list fd_row :=
  let fd_accounts :=
    filter (fun r => cell_eqb (Account_Type (base r)) "Fixed Deposit") df in
  let fd_accounts :=
    if truthy status_filter
    then filter (fun r => isin (Some (Maturity_Status r)) status_filter)
                fd_accounts
    else fd_accounts in
  let fd_accounts :=
    if truthy branch_filter
    then filter (fun r => isin (Branch (base r)) branch_filter) fd_accounts
    else fd_accounts in
  fd_accounts.

End FDTracker.

(** ** Table helpers of pandas *)

(** The distinct texts of a column in order of first appearance, as
    [column.unique()] lists them. A missing value, which [unique] would
    list as NaN, is not a text and is left out. *)
Fixpoint unique (col : list cell) : list string :=
  match col with
  | [] => []
  | None :: rest => unique rest
  | Some s :: rest =>
      s :: filter (fun x => negb (String.eqb x s)) (unique rest)
  end.

(** One more occurrence of [s] in a tally kept in order of first
    appearance. *)
Fixpoint count_into (s : string) (acc : list (string * nat))
    : list (string * nat) :=
  match acc with
  | [] => [(s, 1%nat)]
  | (k, n) :: rest =>
      if String.eqb k s then (k, S n) :: rest
      else (k, n) :: count_into s rest
  end.

Definition tally (col : list cell) : list (string * nat) :=
  fold_left (fun acc c =>
               match c with
               | Some s => count_into s acc
               | None => acc
               end) col [].

Fixpoint insert_by_count (e : string * nat) (l : list (string * nat))
    : list (string * nat) :=
  match l with
  | [] => [e]
  | x :: rest =>
      if (snd x <=? snd e)%nat then e :: l
      else x :: insert_by_count e rest
  end.

(** [column.value_counts().to_dict()]: the number of rows per text, missing
    cells dropped, most frequent first. pandas leaves the order of equal
    counts unspecified; here they stay in order of first appearance. *)
Definition value_counts (col : list cell) : list (string * nat) :=
  fold_right insert_by_count [] (tally col).

(** [dict.get(key, 0)] on such a dictionary. *)
Fixpoint count_of (key : string) (d : list (string * nat)) : nat :=
  match d with
  | [] => 0%nat
  | (k, n) :: rest => if String.eqb k key then n else count_of key rest
  end.

(** Rows of a column holding the text [k]; rows holding any text; the sum
    of the counts of a dictionary. *)
Definition occurrences (k : string) (col : list cell) : nat :=
  List.length (filter (fun c => cell_eqb c k) col).

Definition present (col : list cell) : nat :=
  List.length (filter (fun c => match c with Some _ => true | None => false
                                end) col).

Definition total_count (d : list (string * nat)) : nat :=
  list_sum (map snd d).

(** Every entry of a dictionary of counts is positive; the order "most
    frequent first". *)
Definition positive_counts (d : list (string * nat)) : Prop :=
  Forall (fun e => (0 < snd e)%nat) d.

Definition count_desc (x y : string * nat) : Prop := (snd y <= snd x)%nat.

(** A sum or mean of a float column. pandas adds in binary64, rounding
    as it goes and in an order of its own (a grouped sum is compensated),
    so the model records which values are reduced, in table order, and
    gives the result no value. *)
Inductive reduction :=
| column_sum (values : list Q)
| column_mean (values : list Q)
| group_sum (values : list Q).

(** [column.max()] and [column.min()] on a column whose first value is
    [x]. *)
Definition Qmax_list (x : Q) (l : list Q) : Q :=
  fold_left (fun m y => if Qgtb y m then y else m) l x.

Definition Qmin_list (x : Q) (l : list Q) : Q :=
  fold_left (fun m y => if Qgtb m y then y else m) l x.

(** ** Summary and reports of the Account Inactivity Checker *)

Module Summary.

(** The dictionary [get_summary_stats] returns. It is computed from
    [self.inactive_accounts], which never has the three category columns
    (they are added to a copy), so the three optional count entries are
    never present. *)
Record summary := mkSummary {
  type_counts : list (string * nat);
  branch_counts : list (string * nat);
  customer_type_counts : list (string * nat);
  avg_balance : reduction;
  total_balance : reduction;
  max_balance : Q;
  min_balance : Q
}.

Definition balances (rows : list AccountInactivity.inactive_row) : list Q :=
  map (fun r => Account_Balance (AccountInactivity.account r)) rows.

(** [get_summary_stats]. The balances are numbers, none missing; the
    maximum and the minimum of such a column are exact. *)
Definition get_summary_stats (self : AccountInactivity.checker)
    : option summary :=
  match AccountInactivity.inactive_accounts self with
  | None => None
  | Some [] => None
  | Some (r :: rest) =>
      let rows := r :: rest in
      let col f := map (fun x => f (AccountInactivity.account x)) rows in
      let b := Account_Balance (AccountInactivity.account r) in
      Some (mkSummary
              (value_counts (col Account_Type))
              (value_counts (col Branch))
              (value_counts (col Customer_Type))
              (column_mean (balances rows))
              (column_sum (balances rows))
              (Qmax_list b (balances rest))
              (Qmin_list b (balances rest)))
  end.

(** The default selections of the five filters of the data-table tab: every
    value present in the column. *)
Definition default_account_types (t : list AccountInactivity.categorized_row)
    : list string :=
  unique (map (fun r => Account_Type
                          (AccountInactivity.account
                             (AccountInactivity.inactive r))) t).

Definition default_branches (t : list AccountInactivity.categorized_row)
    : list string :=
  unique (map (fun r => Branch
                          (AccountInactivity.account
                             (AccountInactivity.inactive r))) t).

Definition default_customer_types
    (t : list AccountInactivity.categorized_row) : list string :=
  unique (map (fun r => Customer_Type
                          (AccountInactivity.account
                             (AccountInactivity.inactive r))) t).

Definition default_categories (t : list AccountInactivity.categorized_row)
    : list string :=
  unique (map (fun r => Some (AccountInactivity.inactivity_category r)) t).

Definition default_amounts (t : list AccountInactivity.categorized_row)
    : list string :=
  unique (map (fun r => Some (AccountInactivity.amount_category r)) t).

(** The category-based reports of the export tab (lines 608-626): one
    download per category present, holding the rows of that category;
    an empty report is skipped. *)
Definition category_reports (t : list AccountInactivity.categorized_row)
    : list (string * list AccountInactivity.categorized_row) :=
  filter (fun report => truthy (snd report))
    (map (fun category =>
            (category,
             filter (fun r =>
                       String.eqb (AccountInactivity.inactivity_category r)
                                  category) t))
         (default_categories t)).

End Summary.

(** ** Summaries of the Fixed Deposit Inactivity Tracker *)

Module FDSummary.

Fixpoint insert_text (s : string) (l : list string) : list string :=
  match l with
  | [] => [s]
  | x :: rest => if String.leb s x then s :: l else x :: insert_text s rest
  end.

(** The group keys of [groupby(column)]: the texts present, ascending;
    rows with a missing key belong to no group. *)
Definition group_keys (col : list cell) : list string :=
  fold_right insert_text [] (unique col).

(** [column.count()]: the cells that are not missing. *)
Definition count_present (col : list cell) : nat :=
  List.length (filter (fun c => match c with Some _ => true | None => false
                                end) col).

Definition is_fd (r : FDTracker.fd_row) : bool :=
  cell_eqb (Account_Type (FDTracker.base r)) "Fixed Deposit".

(** One row of [branch_stats]. *)
Record branch_stat := mkBranchStat {
  stat_branch : string;
  account_count : nat;
  stat_total_balance : reduction
}.

Record account_summary := mkAccountSummary {
  total_fd : Z;
  inactive_fd : Z;
  active_fd : Z;
  inactive_value : reduction;
  branch_stats : list branch_stat
}.

Definition balance_of (r : FDTracker.fd_row) : Q :=
  Account_Balance (FDTracker.base r).

(** [generate_account_summary]. *)
Definition generate_account_summary (df : list FDTracker.fd_row)
    : account_summary :=
  let fd_accounts := filter is_fd df in
  let flagged := filter FDTracker.Inactive_Flag fd_accounts in
  let total_fd := Z.of_nat (List.length fd_accounts) in
  let inactive_fd := Z.of_nat (List.length flagged) in
  mkAccountSummary total_fd inactive_fd (total_fd - inactive_fd)
    (column_sum (map balance_of flagged))
    (map (fun b =>
            let group :=
              filter (fun r => cell_eqb (Branch (FDTracker.base r)) b)
                     flagged in
            mkBranchStat b
              (count_present
                 (map (fun r => Account_ID (FDTracker.base r)) group))
              (group_sum (map balance_of group)))
         (group_keys (map (fun r => Branch (FDTracker.base r)) flagged))).

Record contact_summary := mkContactSummary {
  email_attempts : nat;
  sms_attempts : nat;
  phone_attempts : nat;
  no_contact : nat;
  total : nat
}.

(** [get_contact_summary]. *)
Definition get_contact_summary (df : list FDTracker.fd_row)
    : contact_summary :=
  let inactive_fd :=
    filter (fun r => is_fd r && FDTracker.Inactive_Flag r) df in
  let count p := List.length (filter p inactive_fd) in
  mkContactSummary
    (count (fun r =>
              cell_eqb (Email_Contact_Attempt (FDTracker.base r)) "Yes"))
    (count (fun r =>
              cell_eqb (SMS_Contact_Attempt (FDTracker.base r)) "Yes"))
    (count (fun r =>
              cell_eqb (Phone_Call_Attempt (FDTracker.base r)) "Yes"))
    (count (fun r =>
              cell_eqb (Email_Contact_Attempt (FDTracker.base r)) "No"
              && cell_eqb (SMS_Contact_Attempt (FDTracker.base r)) "No"
              && cell_eqb (Phone_Call_Attempt (FDTracker.base r)) "No"))
    (List.length inactive_fd).

End FDSummary.

(** ** Unreachable customers (inactive_account.py, lines 37-47) *)

Module Unreachable.

(** Lines 39-41: the three contact columns are replaced by their
    lower-cased text; a missing cell stays missing. *)
Definition lower_flags {D} (r : row D) : row D :=
  mkRow (Account_ID r) (Account_Type r) (Branch r) (Customer_Type r)
        (Account_Status r) (Account_Balance r) (Last_Transaction_Date r)
        (KYC_Status r)
        (option_map str_lower (Email_Contact_Attempt r))
        (option_map str_lower (SMS_Contact_Attempt r))
        (option_map str_lower (Phone_Call_Attempt r)).

Definition unreachable (df : list dated_row) : list dated_row :=
  filter (fun r => cell_eqb (Email_Contact_Attempt r) "no"
                   && cell_eqb (SMS_Contact_Attempt r) "no"
                   && cell_eqb (Phone_Call_Attempt r) "no")
         (map lower_flags df).

Definition unreachable_dormant (df : list dated_row) : list dated_row :=
  filter (fun r => ViolationBots.lower_eqb (Account_Status r) "dormant")
         (unreachable df).

End Unreachable.

(** ** The freeze and ledger scripts over a table *)

Module Scripts.



(** A cell of the balance column as a row function receives it: a number,
    NaN for an empty cell, or text when the column holds something that is
    not a number. *)
Inductive balance_cell :=
| Amount (q : Q)
| NoAmount
| TextAmount (s : string).

(** [balance > k] and [balance <= k]: both false for NaN, a TypeError
    between text and a number. *)
Definition amount_gtb (b : balance_cell) (k : Q) : outcome bool :=
  match b with
  | Amount q => Returned (Qgtb q k)
  | NoAmount => Returned false
  | TextAmount _ => Raised TypeError
  end.

Definition amount_leb (b : balance_cell) (k : Q) : outcome bool :=
  match b with
  | Amount q => Returned (Qle_bool q k)
  | NoAmount => Returned false
  | TextAmount _ => Raised TypeError
  end.

(** [date < lit] on the unconverted date cell: text is compared as text,
    NaN against text raises a TypeError. *)
Definition text_ltb (c : cell) (lit : string) : outcome bool :=
  match c with
  | Some s => Returned (String.ltb s lit)
  | None => Raised TypeError
  end.

(** [a and b]: [b] is evaluated only when [a] is true. *)
Definition and_then (a b : outcome bool) : outcome bool :=
  match a with
  | Returned true => b
  | Returned false => Returned false
  | Raised e => Raised e
  end.

(** dormantledger.py, [classify_ledger]. The date is the unconverted text.
    A NaN balance fails both balance tests, so the date is not looked
    at. *)
Definition classify_ledger (account_balance : balance_cell)
    (transaction_date : cell) : outcome string :=
  match and_then (amount_gtb account_balance 100000)
                 (text_ltb transaction_date "2021-12-31") with
  | Raised e => Raised e
  | Returned true => Returned "High-Value Dormant Ledger"
  | Returned false =>
      match and_then (amount_leb account_balance 100000)
                     (text_ltb transaction_date "2021-12-31") with
      | Raised e => Raised e
      | Returned true => Returned "Low-Value Dormant Ledger"
      | Returned false => Returned "Standard Dormant Ledger"
      end
  end.

End Scripts.

(** ** Well-formed date text *)

Module Iso.

Definition digit_char (n : Z) : ascii := ascii_of_N (Z.to_N (48 + n)).

Definition fmt2 (n : Z) (rest : string) : string :=
  String (digit_char (n / 10)) (String (digit_char (n mod 10)) rest).

Definition fmt4 (n : Z) (rest : string) : string :=
  String (digit_char (n / 1000))
    (String (digit_char (n / 100 mod 10))
       (String (digit_char (n / 10 mod 10))
          (String (digit_char (n mod 10)) rest))).

(** [YYYY-MM-DD], zero padded, followed by [rest]. *)
Definition iso_format_then (y m d : Z) (rest : string) : string :=
  fmt4 y (String "-" (fmt2 m (String "-" (fmt2 d rest)))).

Definition iso_format (y m d : Z) : string := iso_format_then y m d "".

(** A day that exists in the calendar the [datetime] type covers. *)
Definition valid_date (y m d : Z) : Prop :=
  1 <= y <= 9999 /\ 1 <= m <= 12
  /\ 1 <= d <= TransferAgent.days_in_month y m.

End Iso.

(** ** The rules as the specification words them

    Reference definitions for comparison with the functions above. *)

Module Stated.

(** The contact-coverage mapping: 0, 1-2, 3 attempted channels. *)
Definition coverage_of_count (n : nat) : string :=
  match n with
  | O => "No Contact"
  | 1%nat | 2%nat => "Partial Contact"
  | _ => "Full Contact"
  end.

Definition contact_flags {D} (r : row D) : list cell :=
  [Email_Contact_Attempt r; SMS_Contact_Attempt r; Phone_Call_Attempt r].

(** Number of the three flags that [is_yes] accepts. *)
Definition flag_count {D} (is_yes : cell -> bool) (r : row D) : nat :=
  List.length (filter is_yes (contact_flags r)).

(** "Yes", compared exactly. *)
Definition exactly_yes (c : cell) : bool := cell_eqb c "Yes".

(** "Yes", compared case-insensitively. *)
Definition yes_ignoring_case (c : cell) : bool :=
  match c with
  | Some s => String.eqb (str_lower s) "yes"
  | None => false
  end.

(** The contact tier of the specification: flags count when they equal
    "Yes" case-insensitively. *)
Definition contact_tier_case_insensitive {D} (r : row D) : string :=
  coverage_of_count (flag_count yes_ignoring_case r).

(** "The thresholds are not strictly ordered": low >= medium or
    medium >= high. *)
Definition misordered (low medium high : Q) : bool :=
  Qle_bool medium low || Qle_bool high medium.

(** The freeze rule of the specification: status "Dormant", date on or
    before the cutoff, KYC "Expired". *)
Definition freeze_inclusive (cutoff : string)
    (account_status : cell) (transaction_date : string) (kyc_status : cell)
    : string :=
  if cell_eqb account_status "Dormant"
     && String.leb transaction_date cutoff
     && cell_eqb kyc_status "Expired"
  then "Frozen" else "Active".

(** Calendar order of (year, month, day) against a fixed day. *)
Definition on_or_before (y m d Y M D : Z) : Prop :=
  y < Y \/ (y = Y /\ (m < M \/ (m = M /\ d <= D))).

(** A file row whose date text the parser rejects. *)
Definition bad_date (parse : string -> option timestamp) (r : raw_row)
    : Prop :=
  exists s, Last_Transaction_Date r = Some s /\ parse s = None.

(** A file row whose date is missing or parses. *)
Definition good_date (parse : string -> option timestamp) (r : raw_row)
    : Prop :=
  forall s, Last_Transaction_Date r = Some s -> parse s <> None.

(** The date of a row after coercion. *)
Definition coerced_date (parse : string -> option timestamp) (r : raw_row)
    : option timestamp :=
  match Last_Transaction_Date r with
  | Some s => parse s
  | None => None
  end.

End Stated.

(** ** A sample upload

    A small table in the documented CSV layout and a reference clock, used to
    run the scripts on concrete input. *)

Module Sample.

(** Days from 1970-01-01 to a civil date of the proleptic Gregorian
    calendar. *)
Definition days_from_civil (y m d : Z) : Z :=
  let y' := if m <=? 2 then y - 1 else y in
  let era := y' / 400 in
  let yoe := y' - era * 400 in
  let doy := (153 * (if m <=? 2 then m + 9 else m - 3) + 2) / 5 + d - 1 in
  let doe := yoe * 365 + yoe / 4 - yoe / 100 + doy in
  era * 146097 + doe - 719468.

(** A date parser for [pd.to_datetime] that reads the documented
    [YYYY-MM-DD] layout (a time part after 'T' is dropped) and nothing
    else. *)
Definition iso_parse (s : string) : option timestamp :=
  match TransferAgent.strptime_ymd (before_T s) with
  | Some d =>
      Some (days_from_civil (TransferAgent.year d) (TransferAgent.month d)
                            (TransferAgent.day d) * ns_per_day)
  | None => None
  end.

(** 2025-11-03 15:42:10.123456. *)
Definition now : timestamp :=
  days_from_civil 2025 11 3 * ns_per_day + 56530123456000.

Definition acct (id type branch : string) (balance : Q) (date : cell)
    (status kyc email sms phone : string) : raw_row :=
  mkRow (Some id) (Some type) (Some branch) (Some "Individual")
        (Some status) balance date (Some kyc)
        (Some email) (Some sms) (Some phone).

(** Last transaction exactly 1461 days before the reference day. *)
Definition A1 : raw_row :=
  acct "ACC0001" "Savings/Call/Current" "Main Branch" 350000
       (Some "2021-11-03") "Dormant" "Expired" "Yes" "No" "No".

Definition A2 : raw_row :=
  acct "ACC0002" "Savings/Call/Current" "Downtown" 75000
       (Some "2019-05-14") "Dormant" "Valid" "yes" "YES" "Yes".

Definition A3 : raw_row :=
  acct "ACC0003" "Fixed Deposit" "Main Branch" 120000
       (Some "2022-07-01") "Dormant" "Valid" "No" "No" "No".

(** No date in the file. *)
Definition A4 : raw_row :=
  acct "ACC0004" "Savings/Call/Current" "Marina" 5000
       None "Dormant" "Expired" "No" "No" "No".

Definition A5 : raw_row :=
  acct "ACC0005" "Savings/Call/Current" "Marina" 900
       (Some "2025-07-26") "Active" "Valid" "Yes" "Yes" "Yes".

Definition A6 : raw_row :=
  acct "ACC0006" "Investment" "Downtown" 410000
       (Some "2021-09-24") "Dormant" "Valid" "no" "NO" "No".

(** A date that is not one. *)
Definition A7 : raw_row :=
  acct "ACC0007" "Investment" "Marina" 64000
       (Some "not-a-date") "Dormant" "Expired" "No" "No" "No".


(** An investment account without a date. *)
Definition A8 : raw_row :=
  acct "ACC0008" "Investment" "Main Branch" 18000
       None "Dormant" "Valid" "No" "No" "No".

Definition clean_file : list raw_row := [A1; A2; A3; A4; A5; A6].
Definition dirty_file : list raw_row := [A1; A2; A3; A4; A5; A6; A7; A8].

(** The checker after a successful load of [clean_file]. *)
Definition loaded : AccountInactivity.checker :=
  snd (AccountInactivity.load_account_data iso_parse
         (AccountInactivity.init now) clean_file).

(** The categorised table of the sample run with the default settings. *)
Definition categorized : list AccountInactivity.categorized_row :=
  match AccountInactivity.run_analysis
          loaded 3 ["Savings/Call/Current"] 3 4 5 with
  | Returned (Some rows) => rows
  | _ => []
  end.

(** The fixed-deposit tracker's table for the sample. *)
Definition fd_table : list FDTracker.fd_row :=
  match FDTracker.calculate_maturity_status iso_parse now clean_file with
  | Returned rows => rows
  | Raised _ => []
  end.

End Sample.

(** The sample checker after the identification step with the default
    settings. *)
Module SampleRun.

Definition analysed : AccountInactivity.checker :=
  match AccountInactivity.identify_inactive_accounts
          Sample.loaded 3 ["Savings/Call/Current"] with
  | Returned (_, self') => self'
  | Raised _ => Sample.loaded
  end.

End SampleRun.

(** * Properties *)

(** ** Comparison and rounding facts *)

Lemma Qgtb_true (x y : Q) : Qgtb x y = true <-> (y < x)%Q.
Proof.
  unfold Qgtb. rewrite negb_true_iff. split.
  - intros H. apply Qnot_le_lt. intros Hle.
    apply Qle_bool_iff in Hle. congruence.
  - intros H. destruct (Qle_bool x y) eqn:E; [|reflexivity].
    apply Qle_bool_iff in E. exfalso. exact (Qlt_not_le _ _ H E).
Qed.

Lemma Qgtb_false (x y : Q) : Qgtb x y = false <-> (x <= y)%Q.
Proof.
  unfold Qgtb. rewrite negb_false_iff. apply Qle_bool_iff.
Qed.

Lemma Qgtb_mono (x1 x2 y : Q) :
  (x1 <= x2)%Q -> Qgtb x1 y = true -> Qgtb x2 y = true.
Proof.
  rewrite !Qgtb_true. intros Hle Hlt. eapply Qlt_le_trans; eassumption.
Qed.

Lemma rint_integral (q : Q) (k : Z) : (q == inject_Z k)%Q -> rint q = k.
Proof.
  intros H. unfold rint. rewrite (Qfloor_comp _ _ H), Qfloor_Z.
  assert (H0 : (q - inject_Z k == 0)%Q) by (rewrite H; ring).
  rewrite (Qcompare_comp _ _ H0 (1 # 2)%Q (1 # 2)%Q (Qeq_refl _)).
  reflexivity.
Qed.

(** For the slider's half-year steps the cutoff interval is exact:
    [n] half-years are [n * 182.5] days. *)
Lemma timedelta_days_half_years (n : Z) :
  timedelta_days (inject_Z n / 2 * 365) = n * (365 * ns_per_day / 2).
Proof.
  unfold timedelta_days.
  rewrite (rint_integral _ (n * 15768000000000)).
  - unfold ns_per_day.
    change (365 * (86400 * 1000000000) / 2) with 15768000000000000. lia.
  - rewrite inject_Z_mult. field.
Qed.

(** ** The tier cascade *)

Section TierFacts.

Import Tier.

Variables low medium high : Q.

Lemma determine_category_high (E : Q) :
  determine_category low medium high E = "HIGH" <-> (high < E)%Q.
Proof.
  unfold determine_category. rewrite <- Qgtb_true.
  destruct (Qgtb E high), (Qgtb E medium), (Qgtb E low);
    split; intros H; try reflexivity; discriminate.
Qed.

Lemma determine_category_medium (E : Q) :
  determine_category low medium high E = "MEDIUM"
  <-> (E <= high)%Q /\ (medium < E)%Q.
Proof.
  unfold determine_category. rewrite <- Qgtb_true, <- Qgtb_false.
  destruct (Qgtb E high), (Qgtb E medium), (Qgtb E low);
    split; try (intros [? ?]); try intros ?; try split;
    try reflexivity; discriminate.
Qed.

Lemma determine_category_low (E : Q) :
  determine_category low medium high E = "LOW"
  <-> (E <= high)%Q /\ (E <= medium)%Q /\ (low < E)%Q.
Proof.
  unfold determine_category. rewrite <- Qgtb_true, <- !Qgtb_false.
  destruct (Qgtb E high), (Qgtb E medium), (Qgtb E low);
    split; try (intros (? & ? & ?)); try intros ?; repeat split;
    try reflexivity; discriminate.
Qed.

Lemma determine_category_monitor (E : Q) :
  determine_category low medium high E = "MONITOR"
  <-> (E <= high)%Q /\ (E <= medium)%Q /\ (E <= low)%Q.
Proof.
  unfold determine_category. rewrite <- !Qgtb_false.
  destruct (Qgtb E high), (Qgtb E medium), (Qgtb E low);
    split; try (intros (? & ? & ?)); try intros ?; repeat split;
    try reflexivity; discriminate.
Qed.

Lemma determine_category_in_tiers (E : Q) :
  In (determine_category low medium high E) tiers.
Proof.
  unfold determine_category, tiers.
  destruct (Qgtb E high), (Qgtb E medium), (Qgtb E low); simpl; tauto.
Qed.

(** The cascade tests the thresholds from the most severe tier down, so a
    larger value can only stop at an earlier test. *)
Lemma determine_category_mono (E1 E2 : Q) :
  (E1 <= E2)%Q ->
  tier_le (determine_category low medium high E1)
          (determine_category low medium high E2).
Proof.
  intros Hle. unfold determine_category.
  pose proof (Qgtb_mono E1 E2 high Hle) as Hh.
  pose proof (Qgtb_mono E1 E2 medium Hle) as Hm.
  pose proof (Qgtb_mono E1 E2 low Hle) as Hl.
  destruct (Qgtb E1 high), (Qgtb E1 medium), (Qgtb E1 low);
    try rewrite (Hh eq_refl); try rewrite (Hm eq_refl);
    try rewrite (Hl eq_refl);
    destruct (Qgtb E2 high), (Qgtb E2 medium), (Qgtb E2 low);
    unfold tier_le; simpl; lia.
Qed.

End TierFacts.

(** C9: for ascending thresholds the tier of any elapsed-years value is one
    of MONITOR, LOW, MEDIUM, HIGH, and a larger elapsed-years value never
    gets a less severe tier. *)
Theorem determine_category_total_monotone (low medium high E1 E2 : Q) :
  (low < medium)%Q -> (medium < high)%Q -> (E1 <= E2)%Q ->
  In (Tier.determine_category low medium high E1) Tier.tiers
  /\ In (Tier.determine_category low medium high E2) Tier.tiers
  /\ Tier.tier_le (Tier.determine_category low medium high E1)
                  (Tier.determine_category low medium high E2).
Proof.
  intros _ _ Hle. split; [|split].
  - apply determine_category_in_tiers.
  - apply determine_category_in_tiers.
  - apply determine_category_mono. exact Hle.
Qed.

Lemma determine_category_total_monotone_witness :
  ((3 < 4)%Q /\ (4 < 5)%Q /\ (4 <= 41 # 10)%Q)
  /\ In (Tier.determine_category 3 4 5 4) Tier.tiers
  /\ In (Tier.determine_category 3 4 5 (41 # 10)) Tier.tiers
  /\ Tier.tier_le (Tier.determine_category 3 4 5 4)
                  (Tier.determine_category 3 4 5 (41 # 10)).
Proof.
  split.
  - repeat split; unfold Qlt, Qle; simpl; lia.
  - apply (determine_category_total_monotone 3 4 5 4 (41 # 10));
      unfold Qlt, Qle; simpl; lia.
Defined.

(** ** Selection and ordering of the inactive accounts *)

Lemma isin_spec (c : cell) (values : list string) :
  isin c values = true <-> exists s, c = Some s /\ In s values.
Proof.
  destruct c as [s|]; simpl.
  - rewrite existsb_exists. split.
    + intros (x & Hin & Heq). apply String.eqb_eq in Heq. subst x.
      exists s. auto.
    + intros (x & Heq & Hin). injection Heq as <-.
      exists s. split; [exact Hin | apply String.eqb_refl].
  - split; [discriminate | intros (s & Heq & _); discriminate].
Qed.

Lemma isin_nil (c : cell) : isin c [] = false.
Proof. destruct c; reflexivity. Qed.

Lemma date_ltb_spec (d : option timestamp) (cutoff : timestamp) :
  date_ltb d cutoff = true <-> exists t, d = Some t /\ t < cutoff.
Proof.
  destruct d as [t|]; simpl.
  - rewrite Z.ltb_lt. split.
    + intros H. exists t. auto.
    + intros (t' & Heq & H). injection Heq as <-. exact H.
  - split; [discriminate | intros (t & Heq & _); discriminate].
Qed.

Section SortFacts.

Import AccountInactivity.

Lemma days_geb_total (a b : option Z) :
  days_geb a b = false -> days_geb b a = true.
Proof.
  destruct a, b; simpl; try discriminate; try reflexivity.
  rewrite Z.leb_gt, Z.leb_le. lia.
Qed.

Lemma days_geb_trans (a b c : option Z) :
  days_geb a b = true -> days_geb b c = true -> days_geb a c = true.
Proof.
  destruct a, b, c; simpl; try discriminate; try reflexivity.
  rewrite !Z.leb_le. lia.
Qed.

Lemma insert_desc_perm (r : inactive_row) (l : list inactive_row) :
  Permutation (insert_desc r l) (r :: l).
Proof.
  induction l as [|x rest IH]; simpl.
  - apply Permutation_refl.
  - destruct (days_geb (days_inactive r) (days_inactive x)).
    + apply Permutation_refl.
    + eapply perm_trans; [apply perm_skip, IH | apply perm_swap].
Qed.

Lemma sort_values_desc_perm (l : list inactive_row) :
  Permutation (sort_values_desc l) l.
Proof.
  induction l as [|x rest IH]; simpl.
  - constructor.
  - eapply perm_trans; [apply insert_desc_perm | apply perm_skip, IH].
Qed.

Lemma insert_desc_sorted (r : inactive_row) (l : list inactive_row) :
  Sorted days_ge l -> Sorted days_ge (insert_desc r l).
Proof.
  induction l as [|x rest IH]; simpl; intros Hs.
  - repeat constructor.
  - destruct (days_geb (days_inactive r) (days_inactive x)) eqn:E.
    + constructor; [exact Hs | constructor; exact E].
    + inversion Hs as [|? ? Hrest Hhd]; subst.
      constructor; [apply IH; exact Hrest|].
      destruct rest as [|y rest']; simpl.
      * constructor. apply days_geb_total. exact E.
      * destruct (days_geb (days_inactive r) (days_inactive y)).
        -- constructor. apply days_geb_total. exact E.
        -- inversion Hhd; subst. constructor. assumption.
Qed.

Lemma sort_values_desc_sorted (l : list inactive_row) :
  StronglySorted days_ge (sort_values_desc l).
Proof.
  apply Sorted_StronglySorted.
  - intros a b c. apply days_geb_trans.
  - induction l as [|x rest IH]; simpl.
    + constructor.
    + apply insert_desc_sorted. exact IH.
Qed.

Lemma sort_values_desc_In (l : list inactive_row) (r : inactive_row) :
  In r (sort_values_desc l) <-> In r l.
Proof.
  split; apply Permutation_in;
    [|apply Permutation_sym]; apply sort_values_desc_perm.
Qed.

End SortFacts.

Section IdentifyFacts.

Import AccountInactivity.

Lemma StronglySorted_refine {A} (R R' : A -> A -> Prop) (P : A -> Prop)
    (l : list A) :
  (forall a b, P a -> P b -> R a b -> R' a b) ->
  Forall P l -> StronglySorted R l -> StronglySorted R' l.
Proof.
  intros Hrel HP Hs. induction Hs as [|a l Hs IH Hall].
  - constructor.
  - inversion HP as [|? ? Pa Pl]; subst. constructor.
    + apply IH. exact Pl.
    + rewrite Forall_forall in *. intros b Hb.
      apply Hrel; auto.
Qed.

(** Every returned row is a selected account with its derived columns. *)
Lemma identify_rows (self self' : checker) (inactivity_years : Q)
    (account_types : list string) (rows : list inactive_row) :
  identify_inactive_accounts self inactivity_years account_types
    = Returned (Some rows, self') ->
  self' = mkChecker (accounts_df self) (Some rows) (today self)
  /\ forall r, In r rows ->
       exists a t,
         r = add_inactivity (today self) a
         /\ Last_Transaction_Date a = Some t
         /\ isin (Account_Type a) account_types = true
         /\ t < cutoff_date (today self) inactivity_years.
Proof.
  unfold identify_inactive_accounts.
  destruct (accounts_df self) as [[raw|df]|] eqn:Edf; try discriminate.
  intros H. injection H as Hrows Hself. subst rows. split.
  - symmetry. exact Hself.
  - intros r Hin. apply (proj1 (sort_values_desc_In _ _)) in Hin.
    apply in_map_iff in Hin. destruct Hin as (a & Ha & Hin).
    apply filter_In in Hin. destruct Hin as [_ Hsel].
    apply andb_true_iff in Hsel. destruct Hsel as [Hty Hdate].
    apply date_ltb_spec in Hdate. destruct Hdate as (t & Ht & Hlt).
    exists a, t. auto.
Qed.

Lemma identify_sorted (self self' : checker) (inactivity_years : Q)
    (account_types : list string) (rows : list inactive_row) :
  identify_inactive_accounts self inactivity_years account_types
    = Returned (Some rows, self') ->
  StronglySorted days_ge rows.
Proof.
  unfold identify_inactive_accounts.
  destruct (accounts_df self) as [[raw|df]|]; try discriminate.
  intros H. injection H as Hrows _. subst rows.
  apply sort_values_desc_sorted.
Qed.

End IdentifyFacts.

Section IdentifyComplete.

Import AccountInactivity.

(** Nothing selected is lost by the sort. *)
Lemma identify_complete (self self' : checker) (inactivity_years : Q)
    (account_types : list string) (df : list dated_row)
    (rows : list inactive_row) :
  accounts_df self = Some (Converted df) ->
  identify_inactive_accounts self inactivity_years account_types
    = Returned (Some rows, self') ->
  Permutation rows
    (map (add_inactivity (today self))
       (filter (fun r =>
                  isin (Account_Type r) account_types
                  && date_ltb (Last_Transaction_Date r)
                       (cutoff_date (today self) inactivity_years))
               df)).
Proof.
  unfold identify_inactive_accounts. intros ->.
  intros H. injection H as <- _. apply sort_values_desc_perm.
Qed.

End IdentifyComplete.

(** C10: every row returned by the identification step has an account type
    among the requested ones and a last-transaction date strictly before the
    reference date minus [inactivity_years * 365] days, and the rows come
    with the largest [days_inactive] first. *)
Theorem identify_inactive_accounts_sound
    (self self' : AccountInactivity.checker) (inactivity_years : Q)
    (account_types : list string)
    (rows : list AccountInactivity.inactive_row) :
  AccountInactivity.identify_inactive_accounts
    self inactivity_years account_types = Returned (Some rows, self') ->
  Forall (fun r =>
            (exists s, Account_Type (AccountInactivity.account r) = Some s
                       /\ In s account_types)
            /\ exists t,
                 Last_Transaction_Date (AccountInactivity.account r) = Some t
                 /\ t < AccountInactivity.today self
                        - timedelta_days (inactivity_years * 365)
                 /\ AccountInactivity.days_inactive r
                    = Some ((AccountInactivity.today self - t) / ns_per_day))
         rows
  /\ StronglySorted AccountInactivity.known_days_desc rows.
Proof.
  intros H.
  pose proof (identify_rows _ _ _ _ _ H) as [_ Hrows].
  assert (Hall : Forall (fun r =>
            (exists s, Account_Type (AccountInactivity.account r) = Some s
                       /\ In s account_types)
            /\ exists t,
                 Last_Transaction_Date (AccountInactivity.account r) = Some t
                 /\ t < AccountInactivity.today self
                        - timedelta_days (inactivity_years * 365)
                 /\ AccountInactivity.days_inactive r
                    = Some ((AccountInactivity.today self - t) / ns_per_day))
         rows).
  { apply Forall_forall. intros r Hin.
    destruct (Hrows r Hin) as (a & t & -> & Ht & Hty & Hlt).
    split.
    - apply isin_spec. exact Hty.
    - exists t. simpl. rewrite Ht. simpl. auto. }
  split; [exact Hall|].
  eapply StronglySorted_refine;
    [| exact Hall | eapply identify_sorted; exact H].
  intros a b (_ & ta & _ & _ & Ha) (_ & tb & _ & _ & Hb) Hge.
  unfold AccountInactivity.days_ge in Hge. rewrite Ha, Hb in Hge.
  simpl in Hge. apply Z.leb_le in Hge.
  unfold AccountInactivity.known_days_desc. rewrite Ha, Hb. eauto.
Qed.

Lemma identify_inactive_accounts_sound_witness :
  exists rows self',
    AccountInactivity.identify_inactive_accounts
      Sample.loaded 3 ["Savings/Call/Current"] = Returned (Some rows, self')
    /\ List.length rows = 2%nat
    /\ Forall (fun r =>
                 (exists s,
                     Account_Type (AccountInactivity.account r) = Some s
                     /\ In s ["Savings/Call/Current"])
                 /\ exists t,
                      Last_Transaction_Date (AccountInactivity.account r)
                      = Some t
                      /\ t < AccountInactivity.today Sample.loaded
                             - timedelta_days (3 * 365)
                      /\ AccountInactivity.days_inactive r
                         = Some ((AccountInactivity.today Sample.loaded - t)
                                 / ns_per_day))
              rows
    /\ StronglySorted AccountInactivity.known_days_desc rows.
Proof.
  eexists _, _. split; [vm_compute; reflexivity|].
  split; [reflexivity|].
  eapply (identify_inactive_accounts_sound Sample.loaded).
  vm_compute. reflexivity.
Defined.

(** On the sample the step returns two rows, 2365 days first, then 1461. *)
Example identify_sample_days :
  match AccountInactivity.identify_inactive_accounts
          Sample.loaded 3 ["Savings/Call/Current"] with
  | Returned (Some rows, _) => map AccountInactivity.days_inactive rows
  | _ => []
  end = [Some 2365; Some 1461].
Proof. vm_compute. reflexivity. Qed.

(** ** What the classifier is fed *)

Section PipelineFacts.

Import AccountInactivity.

Lemma run_analysis_rows (self : checker) (inactivity_years : Q)
    (account_types : list string) (low medium high : Q)
    (rows : list categorized_row) :
  run_analysis self inactivity_years account_types low medium high
    = Returned (Some rows) ->
  exists irows self',
    identify_inactive_accounts self inactivity_years account_types
      = Returned (Some irows, self')
    /\ irows <> []
    /\ rows = map (categorize_row low medium high) irows.
Proof.
  unfold run_analysis.
  destruct (identify_inactive_accounts self inactivity_years account_types)
    as [[[irows|] self']|e] eqn:Eid; try discriminate.
  destruct irows as [|r rest]; [discriminate|].
  destruct (identify_rows _ _ _ _ _ Eid) as [-> _].
  unfold categorize_by_inactivity. simpl. intros H. injection H as <-.
  eexists _, _. split; [reflexivity|]. split; [discriminate | reflexivity].
Qed.

Lemma run_analysis_category (self : checker) (inactivity_years : Q)
    (account_types : list string) (low medium high : Q)
    (rows : list categorized_row) :
  run_analysis self inactivity_years account_types low medium high
    = Returned (Some rows) ->
  Forall (fun r =>
            exists d,
              days_inactive (inactive r) = Some d
              /\ years_inactive (inactive r)
                 = Some (round2 (inject_Z d / 365))
              /\ inactivity_category r
                 = Tier.determine_category low medium high
                     (round2 (inject_Z d / 365)))
         rows.
Proof.
  intros H. destruct (run_analysis_rows _ _ _ _ _ _ _ H)
    as (irows & self' & Hid & _ & ->).
  destruct (identify_rows _ _ _ _ _ Hid) as [_ Hrows].
  apply Forall_forall. intros c Hc.
  apply in_map_iff in Hc. destruct Hc as (r & <- & Hr).
  destruct (Hrows r Hr) as (a & t & -> & Ht & _ & _).
  exists ((today self - t) / ns_per_day). simpl.
  unfold add_inactivity, apply_determine_category. rewrite Ht. simpl.
  auto.
Qed.

End PipelineFacts.

(** C1: a value exactly equal to a threshold falls in the lower tier.
    Whatever value [E] the classifier is given, the label is HIGH exactly
    when [E > high], otherwise MEDIUM exactly when [E > medium], otherwise
    LOW exactly when [E > low], otherwise MONITOR; for ascending thresholds
    the tiers are the intervals between them; with thresholds (3,4,5) the
    value 4.0 is LOW and 4.0001 is MEDIUM. The same holds in the pipeline,
    where the value fed to the classifier is the [years_inactive] of the
    row (lines 54-56): every row of the categorised table is labelled by
    the strict cascade on its own [years_inactive]. *)
Theorem tier_boundary_strict_on_classifier_input :
  (forall low medium high E : Q,
      (Tier.determine_category low medium high E = "HIGH" <-> (high < E)%Q)
      /\ (Tier.determine_category low medium high E = "MEDIUM"
          <-> (E <= high)%Q /\ (medium < E)%Q)
      /\ (Tier.determine_category low medium high E = "LOW"
          <-> (E <= high)%Q /\ (E <= medium)%Q /\ (low < E)%Q)
      /\ (Tier.determine_category low medium high E = "MONITOR"
          <-> (E <= high)%Q /\ (E <= medium)%Q /\ (E <= low)%Q))
  /\ (forall low medium high E : Q,
         (low < medium)%Q -> (medium < high)%Q ->
         (Tier.determine_category low medium high E = "MEDIUM"
          <-> (medium < E)%Q /\ (E <= high)%Q)
         /\ (Tier.determine_category low medium high E = "LOW"
             <-> (low < E)%Q /\ (E <= medium)%Q)
         /\ (Tier.determine_category low medium high E = "MONITOR"
             <-> (E <= low)%Q))
  /\ Tier.determine_category 3 4 5 4 = "LOW"
  /\ Tier.determine_category 3 4 5 (40001 # 10000) = "MEDIUM"
  /\ (forall self inactivity_years account_types low medium high,
         match AccountInactivity.run_analysis
                 self inactivity_years account_types low medium high with
         | Returned (Some rows) =>
             Forall (fun r =>
                       exists E,
                         AccountInactivity.years_inactive
                           (AccountInactivity.inactive r) = Some E
                         /\ (AccountInactivity.inactivity_category r = "HIGH"
                             <-> (high < E)%Q)
                         /\ (AccountInactivity.inactivity_category r
                             = "MEDIUM"
                             <-> (E <= high)%Q /\ (medium < E)%Q)
                         /\ (AccountInactivity.inactivity_category r = "LOW"
                             <-> (E <= high)%Q /\ (E <= medium)%Q
                                 /\ (low < E)%Q)
                         /\ (AccountInactivity.inactivity_category r
                             = "MONITOR"
                             <-> (E <= high)%Q /\ (E <= medium)%Q
                                 /\ (E <= low)%Q))
                    rows
         | _ => True
         end)
  /\ (exists first second,
         AccountInactivity.run_analysis
           Sample.loaded 3 ["Savings/Call/Current"] 3 4 5
         = Returned (Some [first; second])
         /\ (exists E,
                AccountInactivity.years_inactive
                  (AccountInactivity.inactive second) = Some E
                /\ (E == 4)%Q)
         /\ AccountInactivity.inactivity_category second = "LOW").
Proof.
  split; [|split; [|split; [|split; [|split]]]].
  - intros low medium high E.
    split; [apply determine_category_high|].
    split; [apply determine_category_medium|].
    split; [apply determine_category_low | apply determine_category_monitor].
  - intros low medium high E Hlm Hmh.
    rewrite determine_category_medium, determine_category_low,
      determine_category_monitor.
    split; [|split]; split; intros H; repeat split; intuition lra.
  - reflexivity.
  - reflexivity.
  - intros self iy types low medium high.
    destruct (AccountInactivity.run_analysis self iy types low medium high)
      as [[rows|]|e] eqn:E; try exact I.
    eapply Forall_impl; [|eapply run_analysis_category; exact E].
    intros r (d & _ & Hy & Hc). exists (round2 (inject_Z d / 365)).
    split; [exact Hy|]. rewrite Hc.
    split; [apply determine_category_high|].
    split; [apply determine_category_medium|].
    split; [apply determine_category_low | apply determine_category_monitor].
  - eexists _, _. split; [vm_compute; reflexivity|].
    split; [|reflexivity].
    eexists. split; [reflexivity|]. vm_compute. reflexivity.
Qed.

(** The sample run: the day counts and the labels of the two rows. The
    second account is 1461 days inactive; its [years_inactive] is 4.00. *)
Example rounded_boundary_sample :
  map (fun r =>
         (AccountInactivity.days_inactive (AccountInactivity.inactive r),
          AccountInactivity.inactivity_category r))
      Sample.categorized
  = [(Some 2365, "HIGH"); (Some 1461, "LOW")]
  /\ (round2 (inject_Z 1461 / 365) == 4)%Q.
Proof. vm_compute. repeat split; reflexivity. Qed.

(** ** Categorisation *)

Section CategorizeFacts.

Import AccountInactivity.

Lemma categorize_by_inactivity_none (self : checker) (low medium high : Q) :
  categorize_by_inactivity self low medium high = None
  <-> inactive_accounts self = None \/ inactive_accounts self = Some [].
Proof.
  unfold categorize_by_inactivity.
  destruct (inactive_accounts self) as [[|r rest]|]; split; intros H;
    auto; try discriminate; destruct H; discriminate.
Qed.

Lemma categorize_by_inactivity_some (self : checker) (low medium high : Q)
    (rows : list inactive_row) :
  inactive_accounts self = Some rows -> rows <> [] ->
  exists out,
    categorize_by_inactivity self low medium high = Some out
    /\ Forall2 (fun r c =>
                  inactive c = r
                  /\ inactivity_category c
                     = apply_determine_category low medium high
                         (years_inactive r)
                  /\ contact_status c = determine_contact_status (account r)
                  /\ amount_category c
                     = Tier.determine_amount (Account_Balance (account r)))
               rows out.
Proof.
  intros Hrows Hne. unfold categorize_by_inactivity. rewrite Hrows.
  destruct rows as [|r rest]; [congruence|].
  eexists. split; [reflexivity|].
  clear. generalize (r :: rest). intros l.
  induction l as [|x l IH]; simpl; constructor; auto.
Qed.

End CategorizeFacts.

(** C2 (as the code has it): the categorisation step never looks at the
    order of the three thresholds. It declines only when there are no
    inactive accounts; otherwise it labels every row with the strict
    cascade, also when low >= medium or medium >= high. *)
Theorem categorize_by_inactivity_no_order_check
    (self : AccountInactivity.checker) (low medium high : Q) :
  (AccountInactivity.categorize_by_inactivity self low medium high = None
   <-> AccountInactivity.inactive_accounts self = None
       \/ AccountInactivity.inactive_accounts self = Some [])
  /\ (forall rows,
         AccountInactivity.inactive_accounts self = Some rows ->
         rows <> [] ->
         exists out,
           AccountInactivity.categorize_by_inactivity self low medium high
             = Some out
           /\ Forall2 (fun r c =>
                         AccountInactivity.inactive c = r
                         /\ AccountInactivity.inactivity_category c
                            = AccountInactivity.apply_determine_category
                                low medium high
                                (AccountInactivity.years_inactive r))
                      rows out).
Proof.
  split.
  - apply categorize_by_inactivity_none.
  - intros rows Hrows Hne.
    destruct (categorize_by_inactivity_some self low medium high rows
                Hrows Hne) as (out & Hout & Hall).
    exists out. split; [exact Hout|].
    eapply Forall2_impl; [|exact Hall]. simpl. intros r c (? & ? & _). auto.
Qed.

(** C2 fails: with the misordered thresholds low = 5, medium = 4, high = 3
    the sample run is not rejected; the classifier runs and both accounts
    are labelled HIGH. *)
Lemma misordered_thresholds_not_rejected :
  ~ (forall self inactivity_years account_types low medium high,
        Stated.misordered low medium high = true ->
        AccountInactivity.run_analysis
          self inactivity_years account_types low medium high
        = Returned None).
Proof.
  intros H.
  specialize (H Sample.loaded 3%Q ["Savings/Call/Current"] 5%Q 4%Q 3%Q
                eq_refl).
  vm_compute in H. discriminate.
Qed.

Example misordered_thresholds_labels :
  match AccountInactivity.run_analysis
          Sample.loaded 3 ["Savings/Call/Current"] 5 4 3 with
  | Returned (Some rows) => map AccountInactivity.inactivity_category rows
  | _ => []
  end = ["HIGH"; "HIGH"].
Proof. vm_compute. reflexivity. Qed.

(** ** Contact coverage *)

Lemma determine_contact_status_count {D} (r : row D) :
  AccountInactivity.determine_contact_status r
  = Stated.coverage_of_count (Stated.flag_count Stated.exactly_yes r).
Proof.
  unfold AccountInactivity.determine_contact_status, Stated.flag_count,
    Stated.contact_flags, Stated.exactly_yes. simpl.
  destruct (cell_eqb (Email_Contact_Attempt r) "Yes"),
           (cell_eqb (SMS_Contact_Attempt r) "Yes"),
           (cell_eqb (Phone_Call_Attempt r) "Yes"); reflexivity.
Qed.

(** C3 (as the code has it): the contact tier is the mapping of the number
    of the three flags that equal "Yes" exactly -- 0 gives "No Contact",
    1 or 2 "Partial Contact", 3 "Full Contact" -- and a flag "yes" or "YES"
    is not counted. *)
Theorem determine_contact_status_exact_yes :
  (forall (D : Type) (r : row D),
      AccountInactivity.determine_contact_status r
      = Stated.coverage_of_count (Stated.flag_count Stated.exactly_yes r))
  /\ Stated.exactly_yes (Some "Yes") = true
  /\ Stated.exactly_yes (Some "yes") = false
  /\ Stated.exactly_yes (Some "YES") = false
  /\ AccountInactivity.determine_contact_status Sample.A3 = "No Contact"
  /\ AccountInactivity.determine_contact_status Sample.A1
     = "Partial Contact"
  /\ AccountInactivity.determine_contact_status Sample.A5 = "Full Contact".
Proof.
  split; [intros D r; apply determine_contact_status_count|].
  repeat split; reflexivity.
Qed.

(** C3 fails: the sample account whose flags are "yes", "YES", "Yes" has
    three attempts by the case-insensitive count, but the code reports
    "Partial Contact". *)
Lemma contact_status_is_case_sensitive :
  ~ (forall r : raw_row,
        AccountInactivity.determine_contact_status r
        = Stated.contact_tier_case_insensitive r).
Proof.
  intros H. specialize (H Sample.A2). vm_compute in H. discriminate.
Qed.

(** ** Transfer eligibility *)

Lemma cell_eqb_true (c : cell) (lit : string) :
  cell_eqb c lit = true <-> c = Some lit.
Proof.
  destruct c as [s|]; simpl.
  - rewrite String.eqb_eq. split; intros H; congruence.
  - split; discriminate.
Qed.

Section TransferFacts.

Import TransferAgent.

Lemma strptime_ymd_midnight (s : string) (dt : datetime) :
  strptime_ymd s = Some dt ->
  hour dt = 0 /\ minute dt = 0 /\ second dt = 0 /\ microsecond dt = 0.
Proof.
  unfold strptime_ymd.
  destruct (re_ymd s) as [|[[[y m] d] rest] others]; [discriminate|].
  destruct rest; [|discriminate].
  destruct (_ && _); [|discriminate].
  intros H. injection H as <-. simpl. auto.
Qed.

Lemma datetime_leb_cutoff_midnight (dt : datetime) :
  hour dt = 0 -> minute dt = 0 -> second dt = 0 -> microsecond dt = 0 ->
  (datetime_leb dt cutoff_date = true
   <-> Stated.on_or_before (year dt) (month dt) (day dt) 2020 4 24).
Proof.
  destruct dt as [y m d h mi se us]. simpl. intros -> -> -> ->.
  unfold datetime_leb, datetime_compare, Stated.on_or_before, cutoff_date.
  simpl.
  destruct (Z.compare_spec y 2020), (Z.compare_spec m 4),
    (Z.compare_spec d 24); simpl; split; intros Hle;
    try reflexivity; try discriminate; lia.
Qed.

Lemma check_transfer_eligibility_eligible (d : option datetime) :
  check_transfer_eligibility d = "Eligible for Transfer"
  <-> exists dt, d = Some dt /\ datetime_leb dt cutoff_date = true.
Proof.
  unfold check_transfer_eligibility. destruct d as [dt|].
  - destruct (datetime_leb dt cutoff_date) eqn:E; split.
    + intros _. exists dt. auto.
    + reflexivity.
    + discriminate.
    + intros (dt' & Heq & Hle). injection Heq as <-. congruence.
  - split; [discriminate | intros (dt & Heq & _); discriminate].
Qed.

Lemma check_transfer_eligibility_cases (d : option datetime) :
  check_transfer_eligibility d = "Eligible for Transfer"
  \/ check_transfer_eligibility d = "Not Eligible".
Proof.
  unfold check_transfer_eligibility. destruct d as [dt|]; auto.
  destruct (datetime_leb dt cutoff_date); auto.
Qed.

End TransferFacts.

(** C4: the transfer check answers "Eligible for Transfer" exactly when the
    date is known and not after the cutoff 2020-04-24, and "Not Eligible"
    otherwise; 2020-04-24 itself is eligible, 2020-04-25 is not, and an
    unparseable date, which the cleaning step turned into an unknown one, is
    not. *)
Theorem check_transfer_eligibility_inclusive_cutoff :
  (forall d,
      TransferAgent.check_transfer_eligibility d = "Eligible for Transfer"
      <-> exists dt,
            d = Some dt
            /\ TransferAgent.datetime_leb dt TransferAgent.cutoff_date
               = true)
  /\ (forall d,
         TransferAgent.check_transfer_eligibility d
           = "Eligible for Transfer"
         \/ TransferAgent.check_transfer_eligibility d = "Not Eligible")
  /\ (forall s dt,
         TransferAgent.strptime_ymd s = Some dt ->
         (TransferAgent.check_transfer_eligibility (Some dt)
            = "Eligible for Transfer"
          <-> Stated.on_or_before
                (TransferAgent.year dt) (TransferAgent.month dt)
                (TransferAgent.day dt) 2020 4 24))
  /\ TransferAgent.strptime_ymd "2020-04-24"
     = Some TransferAgent.cutoff_date
  /\ TransferAgent.check_transfer_eligibility
       (TransferAgent.strptime_ymd "2020-04-24") = "Eligible for Transfer"
  /\ TransferAgent.check_transfer_eligibility
       (TransferAgent.strptime_ymd "2020-04-25") = "Not Eligible"
  /\ TransferAgent.clean_date (Some "24 April 2020") = Returned None
  /\ TransferAgent.check_transfer_eligibility None = "Not Eligible".
Proof.
  split; [exact check_transfer_eligibility_eligible|].
  split; [exact check_transfer_eligibility_cases|].
  split; [|repeat split; reflexivity].
  intros s dt Hs.
  destruct (strptime_ymd_midnight s dt Hs) as (Hh & Hm & Hsec & Hus).
  rewrite check_transfer_eligibility_eligible.
  rewrite <- (datetime_leb_cutoff_midnight dt Hh Hm Hsec Hus).
  split.
  - intros (dt' & Heq & Hle). injection Heq as <-. exact Hle.
  - intros Hle. exists dt. auto.
Qed.

(** The script on three uploaded dates, one with a time part. *)
Example transfer_status_sample :
  match TransferAgent.apply_clean_date
          [set_date Sample.A1 (Some "2020-04-24T18:30:00");
           set_date Sample.A2 (Some "2020-04-25");
           set_date Sample.A3 (Some "2020/04/24")] with
  | Returned rows => TransferAgent.transfer_status rows
  | Raised _ => []
  end
  = ["Eligible for Transfer"; "Not Eligible"; "Not Eligible"].
Proof. vm_compute. reflexivity. Qed.

(** ** Freezing *)

Lemma freeze_account_frozen (account_status kyc_status : cell) (d : string) :
  FreezeAgent.freeze_account account_status (Some d) kyc_status
    = Returned "Frozen"
  <-> account_status = Some "Dormant"
      /\ String.ltb d "2022-01-01" = true
      /\ kyc_status = Some "Expired".
Proof.
  unfold FreezeAgent.freeze_account.
  rewrite <- !cell_eqb_true.
  destruct (cell_eqb account_status "Dormant"),
    (String.ltb d "2022-01-01"), (cell_eqb kyc_status "Expired");
    split; try (intros (? & ? & ?)); try intros ?; repeat split;
    try reflexivity; discriminate.
Qed.

(** C7 (as the code has it): with a date present, the freeze check returns
    "Frozen" exactly when the status is "Dormant", the date text sorts
    strictly before "2022-01-01", and the KYC status is "Expired", and
    "Active" otherwise; a date equal to the cutoff is "Active". *)
Theorem freeze_account_strict_conjunction :
  (forall account_status kyc_status d,
      (FreezeAgent.freeze_account account_status (Some d) kyc_status
         = Returned "Frozen"
       <-> account_status = Some "Dormant"
           /\ String.ltb d "2022-01-01" = true
           /\ kyc_status = Some "Expired")
      /\ (FreezeAgent.freeze_account account_status (Some d) kyc_status
            = Returned "Frozen"
          \/ FreezeAgent.freeze_account account_status (Some d) kyc_status
             = Returned "Active"))
  /\ FreezeAgent.freeze_account
       (Some "Dormant") (Some "2022-01-01") (Some "Expired")
     = Returned "Active"
  /\ FreezeAgent.freeze_account
       (Some "Dormant") (Some "2021-12-31") (Some "Expired")
     = Returned "Frozen".
Proof.
  split; [|split; reflexivity].
  intros st k d. split; [apply freeze_account_frozen|].
  unfold FreezeAgent.freeze_account.
  destruct (cell_eqb st "Dormant"), (String.ltb d "2022-01-01"),
    (cell_eqb k "Expired"); auto.
Qed.

(** C7 fails: a dormant account with expired KYC whose date equals the
    cutoff is "Active", where the inclusive rule says "Frozen". *)
Lemma freeze_account_excludes_cutoff :
  ~ (forall account_status kyc_status d,
        FreezeAgent.freeze_account account_status (Some d) kyc_status
        = Returned (Stated.freeze_inclusive "2022-01-01"
                      account_status d kyc_status)).
Proof.
  intros H.
  specialize (H (Some "Dormant") (Some "Expired") "2022-01-01").
  vm_compute in H. discriminate.
Qed.

(** A dormant account without a date stops the script. *)
Example freeze_account_missing_date :
  FreezeAgent.freeze_account (Some "Dormant") None (Some "Expired")
  = Raised TypeError.
Proof. reflexivity. Qed.

(** ** Unknown dates and the elapsed-time filters *)

Section ViolationFacts.

Import ViolationBots.

Lemma boolean_index_In {A} (df : list A) (mask : list (option bool))
    (out : list A) :
  boolean_index df mask = Returned out -> forall r, In r out -> In r df.
Proof.
  revert mask out. induction df as [|x df IH]; intros mask out.
  - destruct mask as [|[b|] mask]; simpl; intros H; injection H as <-;
      intros r [].
  - destruct mask as [|[b|] mask]; simpl.
    + intros H. injection H as <-. intros r [].
    + destruct (boolean_index df mask) as [out'|e] eqn:E; [|discriminate].
      intros H. injection H as <-. intros r Hr.
      destruct b; [destruct Hr as [<-|Hr]|]; eauto.
    + discriminate.
Qed.

Lemma violation_mask_known (now : timestamp) (r : dated_row) :
  violation_mask now r = true ->
  exists t, Last_Transaction_Date r = Some t /\ t < threshold_date now.
Proof.
  unfold violation_mask. rewrite !andb_true_iff.
  intros [[[Hd _] _] _]. apply date_ltb_spec. exact Hd.
Qed.

(** A returned selection went through the two masks. *)
Lemma dormant_violations_returned (kind : string) (now : timestamp)
    (df rows : list dated_row) :
  dormant_violations kind now df = Returned rows ->
  exists typed,
    boolean_index df
      (map (fun r => str_contains_nocase kind (Account_Type r)) df)
    = Returned typed
    /\ rows = filter (violation_mask now) typed.
Proof.
  unfold dormant_violations.
  destruct (str_accessor _); [|discriminate].
  destruct (boolean_index df _) as [typed|e]; [|discriminate].
  do 3 (destruct (str_accessor _); [|discriminate]).
  intros H. injection H as <-. exists typed. split; reflexivity.
Qed.

Lemma dormant_violations_known (kind : string) (now : timestamp)
    (df rows : list dated_row) :
  dormant_violations kind now df = Returned rows ->
  Forall (fun r =>
            In r df
            /\ exists t,
                 Last_Transaction_Date r = Some t /\ t < threshold_date now)
         rows.
Proof.
  intros H. apply dormant_violations_returned in H.
  destruct H as (typed & E & ->). apply Forall_forall. intros r Hr.
  apply filter_In in Hr. destruct Hr as [Hin Hmask]. split.
  - eapply boolean_index_In; eassumption.
  - apply violation_mask_known. exact Hmask.
Qed.

Lemma to_datetime_coerce_In (parse : string -> option timestamp)
    (file : list raw_row) (r : dated_row) (t : timestamp) :
  In r (to_datetime_coerce parse file) ->
  Last_Transaction_Date r = Some t ->
  exists raw s,
    In raw file /\ Last_Transaction_Date raw = Some s
    /\ parse s = Some t /\ r = set_date raw (Some t).
Proof.
  unfold to_datetime_coerce. intros Hin Ht.
  apply in_map_iff in Hin. destruct Hin as (raw & <- & Hraw).
  simpl in Ht. destruct (Last_Transaction_Date raw) as [s|] eqn:Es;
    [|discriminate].
  exists raw, s. rewrite Ht. auto.
Qed.

End ViolationFacts.

(** C5: a row whose last-activity date is unknown never appears in an
    elapsed-time selection. Every row of the investment violations and of
    the inactive investments has a known date before the three-year
    threshold, and comes from a file row whose date text parsed; likewise
    every row the account checker identifies has a known date, and the
    fixed-deposit inactivity flag is off for an unknown date. *)
Theorem unknown_dates_never_selected :
  (forall now df rows,
      ViolationBots.violations now df = Returned rows
      \/ ViolationBots.inactive_investments now df = Returned rows ->
      Forall (fun r =>
                In r df
                /\ exists t,
                     Last_Transaction_Date r = Some t
                     /\ t < ViolationBots.threshold_date now)
             rows)
  /\ (forall parse now file rows,
         ViolationBots.investment_bot parse now file = Returned rows
         \/ ViolationBots.inactive_account_bot parse now file
            = Returned rows ->
         Forall (fun r =>
                   exists raw s t,
                     In raw file
                     /\ Last_Transaction_Date raw = Some s
                     /\ parse s = Some t
                     /\ r = set_date raw (Some t))
                rows)
  /\ (forall self inactivity_years account_types rows self',
         AccountInactivity.identify_inactive_accounts
           self inactivity_years account_types
         = Returned (Some rows, self') ->
         Forall (fun r =>
                   Last_Transaction_Date (AccountInactivity.account r)
                   <> None)
                rows)
  /\ (forall current_date r,
         Last_Transaction_Date r = None ->
         FDTracker.Inactive_Flag (FDTracker.derive current_date r) = false).
Proof.
  split; [|split; [|split]].
  - intros now df rows [H|H];
      exact (dormant_violations_known "Investment" now df rows H).
  - intros parse now file rows H.
    assert (Hk : Forall (fun r =>
                In r (to_datetime_coerce parse file)
                /\ exists t,
                     Last_Transaction_Date r = Some t
                     /\ t < ViolationBots.threshold_date now) rows).
    { destruct H as [H|H];
        exact (dormant_violations_known "Investment" now _ rows H). }
    eapply Forall_impl; [|exact Hk]. simpl.
    intros r (Hin & t & Ht & _).
    destruct (to_datetime_coerce_In parse file r t Hin Ht)
      as (raw & s & ? & ? & ? & ?).
    exists raw, s, t. auto.
  - intros self iy types rows self' H.
    destruct (identify_rows _ _ _ _ _ H) as [_ Hrows].
    apply Forall_forall. intros r Hr.
    destruct (Hrows r Hr) as (a & t & -> & Ht & _). simpl. congruence.
  - intros current r Hr. unfold FDTracker.derive, dt_days.
    rewrite Hr. reflexivity.
Qed.

(** On the sample, the investment account with the unparseable date and the
    one without a date are left out; one violation remains. *)
Example investment_bot_sample :
  match ViolationBots.investment_bot Sample.iso_parse Sample.now
          Sample.dirty_file with
  | Returned rows => map Account_ID rows
  | Raised _ => []
  end = [Some "ACC0006"].
Proof. vm_compute. reflexivity. Qed.

(** ** Multi-select filters *)

Section FilterFacts.

Lemma filter_none {A} (f : A -> bool) (l : list A) :
  (forall x, f x = false) -> filter f l = [].
Proof.
  intros Hf. induction l as [|x l IH]; simpl; [reflexivity|].
  rewrite Hf. exact IH.
Qed.

Lemma truthy_false {A} (l : list A) : truthy l = false <-> l = [].
Proof. destruct l; simpl; split; intros H; congruence. Qed.

(** A guarded filter step: skipped for an empty selection. *)
Lemma guarded_filter_In {A} (key : A -> cell) (values : list string)
    (l : list A) (r : A) :
  In r (if truthy values then filter (fun x => isin (key x) values) l else l)
  <-> In r l /\ (values = [] \/ isin (key r) values = true).
Proof.
  destruct values as [|v vs]; simpl truthy; cbv iota.
  - split; [intros H; auto | intros [H _]; exact H].
  - rewrite filter_In. split; intros [Hin H]; split; auto.
    destruct H as [H|H]; [discriminate | exact H].
Qed.

Import AccountInactivity.

Lemma apply_filters_In (rows : list categorized_row)
    (account_type_filter branch_filter customer_type_filter : list string)
    (category_filter amount_filter : option (list string))
    (r : categorized_row) :
  In r (apply_filters rows account_type_filter branch_filter
          customer_type_filter category_filter amount_filter)
  <-> In r rows
      /\ isin (Account_Type (account (inactive r))) account_type_filter
         = true
      /\ isin (Branch (account (inactive r))) branch_filter = true
      /\ isin (Customer_Type (account (inactive r))) customer_type_filter
         = true
      /\ (selected category_filter = []
          \/ isin (Some (inactivity_category r)) (selected category_filter)
             = true)
      /\ (selected amount_filter = []
          \/ isin (Some (amount_category r)) (selected amount_filter)
             = true).
Proof.
  unfold apply_filters.
  assert (Ht : forall o : option (list string),
             truthy_opt o = truthy (selected o)) by (intros [l|]; reflexivity).
  rewrite !Ht.
  rewrite (guarded_filter_In (fun x => Some (amount_category x))).
  rewrite (guarded_filter_In (fun x => Some (inactivity_category x))).
  rewrite filter_In, !andb_true_iff. tauto.
Qed.

Lemma account_details_In (df : list FDTracker.fd_row)
    (status_filter branch_filter : list string) (r : FDTracker.fd_row) :
  In r (FDTracker.account_details df status_filter branch_filter)
  <-> In r df
      /\ Account_Type (FDTracker.base r) = Some "Fixed Deposit"
      /\ (status_filter = []
          \/ isin (Some (FDTracker.Maturity_Status r)) status_filter = true)
      /\ (branch_filter = []
          \/ isin (Branch (FDTracker.base r)) branch_filter = true).
Proof.
  unfold FDTracker.account_details.
  rewrite (guarded_filter_In (fun x => Branch (FDTracker.base x))).
  rewrite (guarded_filter_In (fun x => Some (FDTracker.Maturity_Status x))).
  rewrite filter_In, cell_eqb_true. tauto.
Qed.

End FilterFacts.

(** C6 (as the code has it): in the inactive-accounts table an empty
    account type, branch or customer type selection yields the empty row
    set. The inactivity category and amount category filters there, and the
    maturity status and branch filters of the fixed-deposit table, are
    applied only when their selection is not empty: an empty selection puts
    no restriction on that column. *)
Theorem multiselect_empty_selection :
  (forall rows branches customers categories amounts,
      AccountInactivity.apply_filters
        rows [] branches customers categories amounts = [])
  /\ (forall rows types customers categories amounts,
         AccountInactivity.apply_filters
           rows types [] customers categories amounts = [])
  /\ (forall rows types branches categories amounts,
         AccountInactivity.apply_filters
           rows types branches [] categories amounts = [])
  /\ (forall rows types branches customers categories amounts r,
         In r (AccountInactivity.apply_filters
                 rows types branches customers categories amounts)
         <-> In r rows
             /\ isin (Account_Type (AccountInactivity.account
                                      (AccountInactivity.inactive r)))
                     types = true
             /\ isin (Branch (AccountInactivity.account
                                (AccountInactivity.inactive r)))
                     branches = true
             /\ isin (Customer_Type (AccountInactivity.account
                                       (AccountInactivity.inactive r)))
                     customers = true
             /\ (selected categories = []
                 \/ isin (Some (AccountInactivity.inactivity_category r))
                         (selected categories) = true)
             /\ (selected amounts = []
                 \/ isin (Some (AccountInactivity.amount_category r))
                         (selected amounts) = true))
  /\ (forall df statuses branches r,
         In r (FDTracker.account_details df statuses branches)
         <-> In r df
             /\ Account_Type (FDTracker.base r) = Some "Fixed Deposit"
             /\ (statuses = []
                 \/ isin (Some (FDTracker.Maturity_Status r)) statuses
                    = true)
             /\ (branches = []
                 \/ isin (Branch (FDTracker.base r)) branches = true)).
Proof.
  split; [|split; [|split; [|split]]].
  - intros. unfold AccountInactivity.apply_filters.
    rewrite (filter_none _ rows).
    + destruct (truthy_opt categories), (truthy_opt amounts); reflexivity.
    + intros x. rewrite isin_nil. reflexivity.
  - intros. unfold AccountInactivity.apply_filters.
    rewrite (filter_none _ rows).
    + destruct (truthy_opt categories), (truthy_opt amounts); reflexivity.
    + intros x. rewrite isin_nil, andb_false_r. reflexivity.
  - intros. unfold AccountInactivity.apply_filters.
    rewrite (filter_none _ rows).
    + destruct (truthy_opt categories), (truthy_opt amounts); reflexivity.
    + intros x. rewrite isin_nil, andb_false_r. reflexivity.
  - intros. apply apply_filters_In.
  - intros. apply account_details_In.
Qed.

(** C6 fails for the guarded filters: with no maturity status selected the
    fixed-deposit table of the sample still shows the Main Branch deposit. *)
Lemma empty_status_selection_keeps_rows :
  ~ (forall df branches, FDTracker.account_details df [] branches = []).
Proof.
  intros H. specialize (H Sample.fd_table ["Main Branch"]).
  vm_compute in H. discriminate.
Qed.

(** The same for the inactivity category of the inactive-accounts table. *)
Example empty_category_selection_keeps_rows :
  map AccountInactivity.inactivity_category
    (AccountInactivity.apply_filters Sample.categorized
       ["Savings/Call/Current"] ["Main Branch"; "Downtown"] ["Individual"]
       (Some []) (Some ["HIGH"; "LOW"]))
  = ["HIGH"; "LOW"].
Proof. vm_compute. reflexivity. Qed.

(** ** Ingestion of the date column *)

Section IngestFacts.

Variable parse : string -> option timestamp.

Lemma to_datetime_raise_good (file : list raw_row) :
  Forall (Stated.good_date parse) file ->
  to_datetime_raise parse file = Returned (to_datetime_coerce parse file).
Proof.
  induction 1 as [|r file Hr _ IH]; simpl; [reflexivity|].
  rewrite IH. unfold Stated.good_date in Hr.
  destruct r as [id ty br cu st bal [s|] kyc em sms ph]; simpl in *;
    [|reflexivity].
  specialize (Hr s eq_refl).
  destruct (parse s) as [t|]; [reflexivity | congruence].
Qed.

Lemma to_datetime_raise_bad (file : list raw_row) :
  Exists (Stated.bad_date parse) file ->
  to_datetime_raise parse file = Raised ValueError.
Proof.
  induction 1 as [r file (s & Hs & Hp)|r file _ IH]; simpl.
  - rewrite Hs, Hp. reflexivity.
  - rewrite IH.
    destruct r as [id ty br cu st bal [s|] kyc em sms ph]; simpl;
      [|reflexivity].
    destruct (parse s); reflexivity.
Qed.

Lemma to_datetime_coerce_rows (file : list raw_row) :
  Forall2 (fun raw r => r = set_date raw (Stated.coerced_date parse raw))
          file (to_datetime_coerce parse file).
Proof.
  induction file as [|raw file IH]; simpl; constructor; auto.
Qed.

Lemma apply_clean_date_text (rows : list raw_row) :
  Forall (fun r => Last_Transaction_Date r <> None) rows ->
  exists out,
    TransferAgent.apply_clean_date rows = Returned out
    /\ Forall2 (fun raw r =>
                  exists s,
                    Last_Transaction_Date raw = Some s
                    /\ r = set_date raw
                             (TransferAgent.strptime_ymd (before_T s)))
               rows out.
Proof.
  induction 1 as [|r rows Hr _ (out & Hout & Hall)]; simpl.
  - exists []. split; [reflexivity | constructor].
  - rewrite Hout.
    destruct r as [id ty br cu st bal [s|] kyc em sms ph]; simpl in *;
      [|congruence].
    eexists. split; [reflexivity|].
    constructor; [|exact Hall]. exists s. auto.
Qed.

End IngestFacts.

(** C8 (as the code has it): a date text that does not parse becomes an
    unknown date, without an exception and with every row kept, in the
    transfer script ([clean_date]) and in the scripts that convert with
    [errors='coerce']. In [load_account_data] one date text that does not
    parse fails the load of the whole file: the result is [False], the
    table stays unconverted and the analysis does not run; the load
    succeeds, keeping every row, when no date text is rejected. *)
Theorem bad_date_ingestion :
  (forall rows,
      Forall (fun r => Last_Transaction_Date r <> None) rows ->
      exists out,
        TransferAgent.apply_clean_date rows = Returned out
        /\ Forall2 (fun raw r =>
                      exists s,
                        Last_Transaction_Date raw = Some s
                        /\ r = set_date raw
                                 (TransferAgent.strptime_ymd (before_T s)))
                   rows out)
  /\ (forall parse file,
         Forall2 (fun raw r =>
                    r = set_date raw (Stated.coerced_date parse raw))
                 file (to_datetime_coerce parse file))
  /\ (forall parse self file,
         Exists (Stated.bad_date parse) file ->
         AccountInactivity.load_account_data parse self file
         = (false,
            AccountInactivity.mkChecker
              (Some (AccountInactivity.Unconverted file))
              (AccountInactivity.inactive_accounts self)
              (AccountInactivity.today self))
         /\ forall inactivity_years account_types low medium high,
              AccountInactivity.upload_and_analyse
                parse self file inactivity_years account_types
                low medium high
              = Returned None)
  /\ (forall parse self file,
         Forall (Stated.good_date parse) file ->
         AccountInactivity.load_account_data parse self file
         = (true,
            AccountInactivity.mkChecker
              (Some (AccountInactivity.Converted
                       (to_datetime_coerce parse file)))
              (AccountInactivity.inactive_accounts self)
              (AccountInactivity.today self))).
Proof.
  split; [exact apply_clean_date_text|].
  split; [exact to_datetime_coerce_rows|].
  split.
  - intros parse self file Hbad.
    assert (Hload : AccountInactivity.load_account_data parse self file
                    = (false,
                       AccountInactivity.mkChecker
                         (Some (AccountInactivity.Unconverted file))
                         (AccountInactivity.inactive_accounts self)
                         (AccountInactivity.today self))).
    { unfold AccountInactivity.load_account_data.
      rewrite (to_datetime_raise_bad parse file Hbad). reflexivity. }
    split; [exact Hload|].
    intros. unfold AccountInactivity.upload_and_analyse.
    rewrite Hload. reflexivity.
  - intros parse self file Hgood.
    unfold AccountInactivity.load_account_data.
    rewrite (to_datetime_raise_good parse file Hgood). reflexivity.
Qed.

(** C8 fails for [load_account_data]: the sample file with one date that is
    not a date is not loaded with that date unknown and the other rows
    kept; the load returns [False]. *)
Lemma load_account_data_aborts_on_bad_date :
  ~ (forall parse self file,
        AccountInactivity.load_account_data parse self file
        = (true,
           AccountInactivity.mkChecker
             (Some (AccountInactivity.Converted
                      (to_datetime_coerce parse file)))
             (AccountInactivity.inactive_accounts self)
             (AccountInactivity.today self))).
Proof.
  intros H.
  specialize (H Sample.iso_parse (AccountInactivity.init Sample.now)
                Sample.dirty_file).
  apply (f_equal fst) in H. vm_compute in H. discriminate.
Qed.

Example load_account_data_sample :
  fst (AccountInactivity.load_account_data Sample.iso_parse
         (AccountInactivity.init Sample.now) Sample.dirty_file) = false
  /\ fst (AccountInactivity.load_account_data Sample.iso_parse
            (AccountInactivity.init Sample.now) Sample.clean_file) = true
  /\ List.length (to_datetime_coerce Sample.iso_parse Sample.dirty_file)
     = 8%nat.
Proof. vm_compute. auto. Qed.

(** Nothing is analysed after the failed load. *)
Example upload_and_analyse_sample :
  AccountInactivity.upload_and_analyse Sample.iso_parse
    (AccountInactivity.init Sample.now) Sample.dirty_file
    3 ["Savings/Call/Current"] 3 4 5 = Returned None.
Proof. vm_compute. reflexivity. Qed.

(** The fixed-deposit tracker converts the same way and stops likewise. *)
Example calculate_maturity_status_sample :
  FDTracker.calculate_maturity_status Sample.iso_parse Sample.now
    Sample.dirty_file = Raised ValueError.
Proof. vm_compute. reflexivity. Qed.

(** [clean_date] on a missing cell: the exception is not the one caught. *)
Example clean_date_missing_cell :
  TransferAgent.clean_date None = Raised AttributeError.
Proof. reflexivity. Qed.

(** * Further properties of the scripts *)

(** ** Balance bands *)

(** X1: the amount category is HIGH exactly above 300000, MEDIUM exactly
    above 100000 up to 300000, LOW otherwise (a balance equal to a
    breakpoint falls in the lower band), and a larger balance never gets a
    lower band. *)
Theorem determine_amount_bands :
  (forall b : Q,
      (Tier.determine_amount b = "HIGH" <-> (300000 < b)%Q)
      /\ (Tier.determine_amount b = "MEDIUM"
          <-> (100000 < b)%Q /\ (b <= 300000)%Q)
      /\ (Tier.determine_amount b = "LOW" <-> (b <= 100000)%Q))
  /\ (forall b1 b2 : Q,
         (b1 <= b2)%Q ->
         Tier.tier_le (Tier.determine_amount b1) (Tier.determine_amount b2)).
Proof.
  split.
  - intros b. unfold Tier.determine_amount.
    rewrite <- !Qgtb_true, <- !Qgtb_false.
    destruct (Qgtb b 300000) eqn:E3, (Qgtb b 100000) eqn:E1;
      repeat split; try (intros [? ?]); try intros ?;
      try reflexivity; try discriminate.
    apply Qgtb_true in E3. apply Qgtb_false in E1. lra.
  - intros b1 b2 Hle. unfold Tier.determine_amount.
    pose proof (Qgtb_mono b1 b2 300000 Hle) as H3.
    pose proof (Qgtb_mono b1 b2 100000 Hle) as H1.
    destruct (Qgtb b1 300000), (Qgtb b1 100000);
      try rewrite (H3 eq_refl); try rewrite (H1 eq_refl);
      destruct (Qgtb b2 300000), (Qgtb b2 100000);
      unfold Tier.tier_le; simpl; lia.
Qed.

(** ** Rounding is monotone *)

Lemma rint_mono (q1 q2 : Q) : (q1 <= q2)%Q -> rint q1 <= rint q2.
Proof.
  intros Hle. unfold rint.
  pose proof (Qfloor_resp_le _ _ Hle) as Hf.
  pose proof (Qfloor_le q1) as L1. pose proof (Qlt_floor q1) as U1.
  pose proof (Qfloor_le q2) as L2. pose proof (Qlt_floor q2) as U2.
  set (f1 := Qfloor q1) in *. set (f2 := Qfloor q2) in *.
  destruct (Z.eq_dec f1 f2) as [E|NE].
  - rewrite <- E in *. clear E.
    destruct (Qcompare_spec (q1 - inject_Z f1) (1 # 2)) as [E1|E1|E1];
    destruct (Qcompare_spec (q2 - inject_Z f1) (1 # 2)) as [E2|E2|E2];
    destruct (Z.even f1); try lia; exfalso; lra.
  - assert (f1 + 1 <= f2) by lia.
    destruct (Qcompare (q1 - inject_Z f1) (1 # 2));
    destruct (Qcompare (q2 - inject_Z f2) (1 # 2));
    destruct (Z.even f1); destruct (Z.even f2); lia.
Qed.

Lemma timedelta_days_mono (d1 d2 : Q) :
  (d1 <= d2)%Q -> timedelta_days d1 <= timedelta_days d2.
Proof.
  intros H. unfold timedelta_days.
  apply Z.mul_le_mono_nonneg_l; [lia|]. apply rint_mono. lra.
Qed.

(** ** The identification step as a whole *)

Section IdentifyMore.

Import AccountInactivity.

(** The selection test of [identify_inactive_accounts]. *)
Lemma identify_converted (self : checker) (inactivity_years : Q)
    (account_types : list string) (df : list dated_row) :
  accounts_df self = Some (Converted df) ->
  identify_inactive_accounts self inactivity_years account_types
  = Returned
      (Some (sort_values_desc
               (map (add_inactivity (today self))
                  (filter (fun r =>
                             isin (Account_Type r) account_types
                             && date_ltb (Last_Transaction_Date r)
                                  (cutoff_date (today self)
                                     inactivity_years))
                          df))),
       mkChecker (accounts_df self)
         (Some (sort_values_desc
                  (map (add_inactivity (today self))
                     (filter (fun r =>
                                isin (Account_Type r) account_types
                                && date_ltb (Last_Transaction_Date r)
                                     (cutoff_date (today self)
                                        inactivity_years))
                             df))))
         (today self)).
Proof.
  intros H. unfold identify_inactive_accounts. rewrite H. reflexivity.
Qed.

Lemma identify_some_converted (self self' : checker) (inactivity_years : Q)
    (account_types : list string) (rows : list inactive_row) :
  identify_inactive_accounts self inactivity_years account_types
    = Returned (Some rows, self') ->
  exists df, accounts_df self = Some (Converted df).
Proof.
  unfold identify_inactive_accounts.
  destruct (accounts_df self) as [[raw|df]|]; try discriminate.
  intros _. exists df. reflexivity.
Qed.


End IdentifyMore.

(** X2: the identification step returns every loaded account of a requested
    type whose date is before the cutoff, each exactly once with its derived
    columns: the result is a rearrangement of the selected rows. *)
Theorem identify_returns_all_selected
    (self self' : AccountInactivity.checker) (inactivity_years : Q)
    (account_types : list string) (df : list dated_row)
    (rows : list AccountInactivity.inactive_row) :
  AccountInactivity.accounts_df self
    = Some (AccountInactivity.Converted df) ->
  AccountInactivity.identify_inactive_accounts
    self inactivity_years account_types = Returned (Some rows, self') ->
  Permutation rows
    (map (AccountInactivity.add_inactivity (AccountInactivity.today self))
       (filter (fun r =>
                  isin (Account_Type r) account_types
                  && date_ltb (Last_Transaction_Date r)
                       (AccountInactivity.today self
                        - timedelta_days (inactivity_years * 365)))
               df)).
Proof.
  intros Hdf H. rewrite (identify_converted _ _ _ _ Hdf) in H.
  injection H as <- _. apply sort_values_desc_perm.
Qed.

Lemma identify_returns_all_selected_witness :
  exists df rows self',
    AccountInactivity.accounts_df Sample.loaded
      = Some (AccountInactivity.Converted df)
    /\ AccountInactivity.identify_inactive_accounts
         Sample.loaded 3 ["Savings/Call/Current"]
       = Returned (Some rows, self')
    /\ List.length rows = 2%nat
    /\ Permutation rows
         (map (AccountInactivity.add_inactivity
                 (AccountInactivity.today Sample.loaded))
            (filter (fun r =>
                       isin (Account_Type r) ["Savings/Call/Current"]
                       && date_ltb (Last_Transaction_Date r)
                            (AccountInactivity.today Sample.loaded
                             - timedelta_days (3 * 365)))
                    df)).
Proof.
  eexists _, _, _. split; [vm_compute; reflexivity|].
  split; [vm_compute; reflexivity|]. split; [reflexivity|].
  eapply (identify_returns_all_selected Sample.loaded);
    vm_compute; reflexivity.
Defined.

(** X3: running the identification again with the same settings on the
    checker it returned gives the same table and leaves the checker as it
    is. *)
Theorem identify_is_idempotent
    (self self' : AccountInactivity.checker) (inactivity_years : Q)
    (account_types : list string)
    (rows : list AccountInactivity.inactive_row) :
  AccountInactivity.identify_inactive_accounts
    self inactivity_years account_types = Returned (Some rows, self') ->
  AccountInactivity.identify_inactive_accounts
    self' inactivity_years account_types = Returned (Some rows, self').
Proof.
  intros H.
  destruct (identify_some_converted _ _ _ _ _ H) as (df & Hdf).
  rewrite (identify_converted _ _ _ _ Hdf) in H.
  injection H as Hrows Hself. subst self'.
  rewrite (identify_converted _ inactivity_years account_types df);
    [|simpl; exact Hdf].
  simpl. rewrite Hrows. reflexivity.
Qed.

Lemma identify_is_idempotent_witness :
  exists rows self',
    AccountInactivity.identify_inactive_accounts
      Sample.loaded 3 ["Savings/Call/Current"] = Returned (Some rows, self')
    /\ List.length rows = 2%nat
    /\ AccountInactivity.identify_inactive_accounts
         self' 3 ["Savings/Call/Current"] = Returned (Some rows, self').
Proof.
  eexists _, _. split; [vm_compute; reflexivity|].
  split; [reflexivity|].
  apply (identify_is_idempotent Sample.loaded).
  vm_compute. reflexivity.
Defined.

(** X4: a longer inactivity period never adds accounts: every account
    identified with the longer period is identified with the shorter one. *)
Theorem identify_longer_period_selects_fewer
    (self self1 self2 : AccountInactivity.checker) (years1 years2 : Q)
    (account_types : list string)
    (rows1 rows2 : list AccountInactivity.inactive_row) :
  (years1 <= years2)%Q ->
  AccountInactivity.identify_inactive_accounts self years1 account_types
    = Returned (Some rows1, self1) ->
  AccountInactivity.identify_inactive_accounts self years2 account_types
    = Returned (Some rows2, self2) ->
  forall r, In r rows2 -> In r rows1.
Proof.
  intros Hle H1 H2 r Hr.
  destruct (identify_some_converted _ _ _ _ _ H1) as (df & Hdf).
  rewrite (identify_converted _ _ _ _ Hdf) in H1.
  rewrite (identify_converted _ _ _ _ Hdf) in H2.
  injection H1 as <- _. injection H2 as <- _.
  apply (proj1 (sort_values_desc_In _ _)) in Hr.
  apply sort_values_desc_In.
  apply in_map_iff in Hr. destruct Hr as (a & <- & Ha).
  apply in_map. apply filter_In in Ha. destruct Ha as [Hin Hsel].
  apply filter_In. split; [exact Hin|].
  apply andb_true_iff in Hsel. destruct Hsel as [Hty Hd].
  apply andb_true_iff. split; [exact Hty|].
  apply date_ltb_spec in Hd. destruct Hd as (t & Ht & Hlt).
  apply date_ltb_spec. exists t. split; [exact Ht|].
  unfold AccountInactivity.cutoff_date in *.
  assert (timedelta_days (years1 * 365) <= timedelta_days (years2 * 365))
    by (apply timedelta_days_mono; lra).
  lia.
Qed.

Lemma identify_longer_period_selects_fewer_witness :
  exists rows1 rows2 self1 self2,
    (3 <= 5)%Q
    /\ AccountInactivity.identify_inactive_accounts
         Sample.loaded 3 ["Savings/Call/Current"]
       = Returned (Some rows1, self1)
    /\ AccountInactivity.identify_inactive_accounts
         Sample.loaded 5 ["Savings/Call/Current"]
       = Returned (Some rows2, self2)
    /\ List.length rows2 = 1%nat
    /\ forall r, In r rows2 -> In r rows1.
Proof.
  eexists _, _, _, _. split; [unfold Qle; simpl; lia|].
  split; [vm_compute; reflexivity|]. split; [vm_compute; reflexivity|].
  split; [reflexivity|].
  eapply (identify_longer_period_selects_fewer Sample.loaded _ _ 3 5
            ["Savings/Call/Current"]).
  - unfold Qle. simpl. lia.
  - vm_compute. reflexivity.
  - vm_compute. reflexivity.
Defined.



(** X6: with an inactivity period of [n] half-years (the slider's steps),
    every identified account has been inactive for at least
    [floor (n * 365 / 2)] whole days. *)
Theorem identify_days_lower_bound
    (self self' : AccountInactivity.checker) (n : Z)
    (account_types : list string)
    (rows : list AccountInactivity.inactive_row) :
  AccountInactivity.identify_inactive_accounts
    self (inject_Z n / 2) account_types = Returned (Some rows, self') ->
  Forall (fun r =>
            exists d,
              AccountInactivity.days_inactive r = Some d
              /\ n * 365 / 2 <= d)
         rows.
Proof.
  intros H. destruct (identify_rows _ _ _ _ _ H) as [_ Hrows].
  apply Forall_forall. intros r Hr.
  destruct (Hrows r Hr) as (a & t & -> & Ht & _ & Hlt).
  exists ((AccountInactivity.today self - t) / ns_per_day). split.
  - unfold AccountInactivity.add_inactivity, dt_days. rewrite Ht.
    reflexivity.
  - unfold AccountInactivity.cutoff_date in Hlt.
    rewrite timedelta_days_half_years in Hlt.
    unfold ns_per_day in *.
    change (365 * (86400 * 1000000000) / 2) with 15768000000000000 in Hlt.
    change (86400 * 1000000000) with 86400000000000.
    transitivity ((n * 15768000000000000) / 86400000000000).
    + replace (n * 15768000000000000)
        with ((n * 365) * 43200000000000) by lia.
      change 86400000000000 with (2 * 43200000000000).
      rewrite Z.div_mul_cancel_r by lia. lia.
    + apply Z.div_le_mono; lia.
Qed.

Lemma identify_days_lower_bound_witness :
  exists rows self',
    AccountInactivity.identify_inactive_accounts
      Sample.loaded (inject_Z 6 / 2) ["Savings/Call/Current"]
    = Returned (Some rows, self')
    /\ List.length rows = 2%nat
    /\ Forall (fun r =>
                 exists d,
                   AccountInactivity.days_inactive r = Some d
                   /\ 6 * 365 / 2 <= d)
              rows.
Proof.
  eexists _, _. split; [vm_compute; reflexivity|].
  split; [reflexivity|].
  eapply (identify_days_lower_bound Sample.loaded _ 6
            ["Savings/Call/Current"]).
  vm_compute. reflexivity.
Defined.

(** ** Categorisation keeps the table *)

(** X7: the categorised table has exactly the identified rows, in the same
    order and unchanged, each with an inactivity category among MONITOR,
    LOW, MEDIUM, HIGH, a contact status among the three coverage labels and
    an amount category among HIGH, MEDIUM, LOW. *)
Theorem run_analysis_keeps_identified_rows
    (self : AccountInactivity.checker) (inactivity_years : Q)
    (account_types : list string) (low medium high : Q)
    (rows : list AccountInactivity.categorized_row) :
  AccountInactivity.run_analysis
    self inactivity_years account_types low medium high
  = Returned (Some rows) ->
  (exists self',
      AccountInactivity.identify_inactive_accounts
        self inactivity_years account_types
      = Returned (Some (map AccountInactivity.inactive rows), self'))
  /\ Forall (fun r =>
               In (AccountInactivity.inactivity_category r) Tier.tiers
               /\ In (AccountInactivity.contact_status r)
                     ["No Contact"; "Partial Contact"; "Full Contact"]
               /\ In (AccountInactivity.amount_category r)
                     ["HIGH"; "MEDIUM"; "LOW"])
            rows.
Proof.
  intros H.
  destruct (run_analysis_rows _ _ _ _ _ _ _ H)
    as (irows & self' & Hid & _ & ->).
  split.
  - exists self'. rewrite map_map. simpl. rewrite map_id. exact Hid.
  - apply Forall_forall. intros c Hc.
    apply in_map_iff in Hc. destruct Hc as (r & <- & _). simpl.
    split; [|split].
    + unfold AccountInactivity.apply_determine_category.
      destruct (AccountInactivity.years_inactive r);
        [apply determine_category_in_tiers | simpl; tauto].
    + rewrite determine_contact_status_count.
      destruct (Stated.flag_count Stated.exactly_yes
                  (AccountInactivity.account r)) as [|[|[|n]]];
        simpl; tauto.
    + unfold Tier.determine_amount.
      destruct (Qgtb (Account_Balance (AccountInactivity.account r)) 300000),
        (Qgtb (Account_Balance (AccountInactivity.account r)) 100000);
        simpl; tauto.
Qed.

Lemma run_analysis_keeps_identified_rows_witness :
  exists rows,
    AccountInactivity.run_analysis
      Sample.loaded 3 ["Savings/Call/Current"] 3 4 5
    = Returned (Some rows)
    /\ List.length rows = 2%nat
    /\ exists self',
         AccountInactivity.identify_inactive_accounts
           Sample.loaded 3 ["Savings/Call/Current"]
         = Returned (Some (map AccountInactivity.inactive rows), self').
Proof.
  eexists. split; [vm_compute; reflexivity|]. split; [reflexivity|].
  refine (proj1 (run_analysis_keeps_identified_rows
                   Sample.loaded 3 ["Savings/Call/Current"] 3 4 5 _ _)).
  vm_compute. reflexivity.
Defined.

(** ** Value counts *)

Section ValueCounts.

Lemma count_of_count_into (s k : string) (acc : list (string * nat)) :
  count_of k (count_into s acc)
  = if String.eqb s k then S (count_of k acc) else count_of k acc.
Proof.
  induction acc as [|[k' n] rest IH]; simpl; [reflexivity|].
  destruct (String.eqb_spec k' s) as [->|Hne]; simpl.
  - destruct (String.eqb s k); reflexivity.
  - rewrite IH. destruct (String.eqb_spec k' k) as [->|Hne'].
    + destruct (String.eqb_spec s k); [congruence | reflexivity].
    + reflexivity.
Qed.

Lemma keys_count_into (s k : string) (acc : list (string * nat)) :
  In k (map fst (count_into s acc)) <-> k = s \/ In k (map fst acc).
Proof.
  induction acc as [|[k' n] rest IH]; simpl.
  - intuition.
  - destruct (String.eqb_spec k' s) as [->|Hne]; simpl.
    + intuition.
    + rewrite IH. intuition.
Qed.

Lemma NoDup_count_into (s : string) (acc : list (string * nat)) :
  NoDup (map fst acc) -> NoDup (map fst (count_into s acc)).
Proof.
  induction acc as [|[k' n] rest IH]; simpl; intros Hnd.
  - constructor; [intros [] | constructor].
  - inversion Hnd as [|? ? Hnotin Hrest]; subst.
    destruct (String.eqb_spec k' s) as [->|Hne]; simpl.
    + constructor; assumption.
    + constructor; [|apply IH; exact Hrest].
      rewrite keys_count_into. intros [->|Hin]; [congruence | auto].
Qed.

Lemma total_count_count_into (s : string) (acc : list (string * nat)) :
  total_count (count_into s acc) = S (total_count acc).
Proof.
  unfold total_count.
  induction acc as [|[k' n] rest IH]; simpl; [reflexivity|].
  destruct (String.eqb k' s); simpl; [reflexivity|].
  rewrite IH. lia.
Qed.

Lemma positive_count_into (s : string) (acc : list (string * nat)) :
  positive_counts acc -> positive_counts (count_into s acc).
Proof.
  unfold positive_counts.
  induction acc as [|[k' n] rest IH]; simpl; intros Hpos.
  - repeat constructor.
  - inversion Hpos; subst. destruct (String.eqb k' s).
    + constructor; [simpl; lia | assumption].
    + constructor; [assumption | apply IH; assumption].
Qed.

(** The tally after more rows, from any starting tally. *)
Lemma tally_from (col : list cell) :
  forall acc,
    NoDup (map fst acc) -> positive_counts acc ->
    let res := fold_left (fun acc c =>
                            match c with
                            | Some s => count_into s acc
                            | None => acc
                            end) col acc in
    NoDup (map fst res)
    /\ positive_counts res
    /\ (forall k, count_of k res
                  = (count_of k acc + occurrences k col)%nat)
    /\ total_count res = (total_count acc + present col)%nat.
Proof.
  induction col as [|c col IH]; intros acc Hnd Hpos; simpl.
  - repeat split; auto.
  - destruct c as [s|].
    + destruct (IH (count_into s acc) (NoDup_count_into s acc Hnd)
                  (positive_count_into s acc Hpos))
        as (H1 & H2 & H3 & H4).
      repeat split; auto.
      * intros k. rewrite H3, count_of_count_into.
        unfold occurrences. simpl.
        destruct (String.eqb s k); simpl; lia.
      * rewrite H4, total_count_count_into. unfold present. simpl. lia.
    + destruct (IH acc Hnd Hpos) as (H1 & H2 & H3 & H4).
      repeat split; auto.
Qed.

Lemma insert_by_count_perm (e : string * nat) (l : list (string * nat)) :
  Permutation (insert_by_count e l) (e :: l).
Proof.
  induction l as [|x rest IH]; simpl.
  - apply Permutation_refl.
  - destruct (snd x <=? snd e)%nat.
    + apply Permutation_refl.
    + eapply perm_trans; [apply perm_skip, IH | apply perm_swap].
Qed.

Lemma value_counts_perm (col : list cell) :
  Permutation (value_counts col) (tally col).
Proof.
  unfold value_counts. induction (tally col) as [|x rest IH]; simpl.
  - constructor.
  - eapply perm_trans; [apply insert_by_count_perm | apply perm_skip, IH].
Qed.

Lemma insert_by_count_sorted (e : string * nat) (l : list (string * nat)) :
  Sorted count_desc l -> Sorted count_desc (insert_by_count e l).
Proof.
  induction l as [|x rest IH]; simpl; intros Hs.
  - repeat constructor.
  - destruct (snd x <=? snd e)%nat eqn:E.
    + constructor; [exact Hs|]. constructor.
      apply Nat.leb_le in E. exact E.
    + apply Nat.leb_gt in E.
      inversion Hs as [|? ? Hrest Hhd]; subst.
      constructor; [apply IH; exact Hrest|].
      destruct rest as [|y rest']; simpl.
      * constructor. unfold count_desc. lia.
      * destruct (snd y <=? snd e)%nat.
        -- constructor. unfold count_desc. lia.
        -- inversion Hhd; subst. constructor. assumption.
Qed.

Lemma count_of_perm (l l' : list (string * nat)) :
  Permutation l l' -> NoDup (map fst l) ->
  forall k, count_of k l = count_of k l'.
Proof.
  induction 1 as [|[k1 n1] l l' Hp IH|[k1 n1] [k2 n2] l|l l' l'' H1 IH1 H2 IH2];
    intros Hnd k; simpl.
  - reflexivity.
  - inversion Hnd; subst. rewrite IH by assumption. reflexivity.
  - destruct (String.eqb_spec k1 k) as [->|]; [|reflexivity].
    destruct (String.eqb_spec k2 k) as [->|]; [|reflexivity].
    simpl in Hnd. inversion Hnd as [|? ? Hnotin _]; subst.
    exfalso. apply Hnotin. left. reflexivity.
  - rewrite IH1 by assumption. apply IH2.
    eapply Permutation_NoDup; [apply Permutation_map; exact H1 | exact Hnd].
Qed.

Lemma list_sum_perm (l l' : list nat) :
  Permutation l l' -> list_sum l = list_sum l'.
Proof.
  induction 1; simpl; lia.
Qed.

Lemma count_of_positive (k : string) (d : list (string * nat)) :
  positive_counts d -> ((0 < count_of k d)%nat <-> In k (map fst d)).
Proof.
  unfold positive_counts.
  induction d as [|[k' n] rest IH]; simpl; intros Hpos.
  - split; [lia | intros []].
  - inversion Hpos as [|? ? Hn Hrest]; subst. simpl in Hn.
    destruct (String.eqb_spec k' k) as [->|Hne].
    + split; [auto | intros _; exact Hn].
    + rewrite (IH Hrest). split; [auto | intros [?|?]; [congruence | auto]].
Qed.

End ValueCounts.

Lemma value_counts_sorted (col : list cell) :
  StronglySorted count_desc (value_counts col).
Proof.
  apply Sorted_StronglySorted.
  - intros x y z. unfold count_desc. lia.
  - unfold value_counts. induction (tally col) as [|x rest IH]; simpl.
    + constructor.
    + apply insert_by_count_sorted. exact IH.
Qed.

Lemma value_counts_facts (col : list cell) :
  NoDup (map fst (value_counts col))
  /\ (forall k, count_of k (value_counts col) = occurrences k col)
  /\ (forall k, In k (map fst (value_counts col))
                <-> (0 < occurrences k col)%nat)
  /\ total_count (value_counts col) = present col.
Proof.
  pose proof (value_counts_perm col) as Hp.
  destruct (tally_from col [] (NoDup_nil _) (Forall_nil _))
    as (Hnd & Hpos & Hcount & Htotal).
  fold (tally col) in Hnd, Hpos, Hcount, Htotal.
  assert (Hnd' : NoDup (map fst (value_counts col))).
  { eapply Permutation_NoDup; [|exact Hnd].
    apply Permutation_map, Permutation_sym, Hp. }
  assert (Hc : forall k, count_of k (value_counts col) = occurrences k col).
  { intros k. rewrite (count_of_perm _ _ Hp Hnd' k). apply Hcount. }
  split; [exact Hnd'|]. split; [exact Hc|]. split.
  - intros k. rewrite <- Hc. symmetry. apply count_of_positive.
    unfold positive_counts in *. rewrite Forall_forall in *.
    intros e He. apply Hpos. eapply Permutation_in; eassumption.
  - unfold total_count in *.
    rewrite (list_sum_perm _ _ (Permutation_map snd Hp)). exact Htotal.
Qed.

Lemma present_le_length (col : list cell) :
  (present col <= List.length col)%nat.
Proof. unfold present. apply filter_length_le. Qed.

(** X8: the dictionary of value counts has one entry per text present in
    the column, each with the number of rows holding that text (so a lookup
    with default 0 gives the number of such rows for every text), most
    frequent first; missing cells are not counted, so the counts add up to
    the number of rows whose cell is present. *)
Theorem value_counts_spec (col : list cell) :
  NoDup (map fst (value_counts col))
  /\ (forall k, count_of k (value_counts col) = occurrences k col)
  /\ (forall k, In k (map fst (value_counts col))
                <-> (0 < occurrences k col)%nat)
  /\ total_count (value_counts col) = present col
  /\ (present col <= List.length col)%nat
  /\ StronglySorted count_desc (value_counts col).
Proof.
  destruct (value_counts_facts col) as (H1 & H2 & H3 & H4).
  repeat split; try assumption; try apply H3.
  - apply present_le_length.
  - apply value_counts_sorted.
Qed.

(** ** Summary statistics *)

Section BalanceStats.

Lemma Qmax_list_spec (l : list Q) :
  forall x,
    (x <= Qmax_list x l)%Q
    /\ Forall (fun y => (y <= Qmax_list x l)%Q) l
    /\ In (Qmax_list x l) (x :: l).
Proof.
  unfold Qmax_list.
  induction l as [|y l IH]; intros x; simpl.
  - split; [lra|]. split; [constructor | auto].
  - destruct (Qgtb y x) eqn:E.
    + apply Qgtb_true in E. destruct (IH y) as (H1 & H2 & H3).
      split; [lra|]. split; [constructor; assumption|].
      destruct H3 as [H3|H3]; auto.
    + apply Qgtb_false in E. destruct (IH x) as (H1 & H2 & H3).
      split; [exact H1|]. split; [constructor; [lra | assumption]|].
      destruct H3 as [H3|H3]; auto.
Qed.

Lemma Qmin_list_spec (l : list Q) :
  forall x,
    (Qmin_list x l <= x)%Q
    /\ Forall (fun y => (Qmin_list x l <= y)%Q) l
    /\ In (Qmin_list x l) (x :: l).
Proof.
  unfold Qmin_list.
  induction l as [|y l IH]; intros x; simpl.
  - split; [lra|]. split; [constructor | auto].
  - destruct (Qgtb x y) eqn:E.
    + apply Qgtb_true in E. destruct (IH y) as (H1 & H2 & H3).
      split; [lra|]. split; [constructor; assumption|].
      destruct H3 as [H3|H3]; auto.
    + apply Qgtb_false in E. destruct (IH x) as (H1 & H2 & H3).
      split; [exact H1|]. split; [constructor; [lra | assumption]|].
      destruct H3 as [H3|H3]; auto.
Qed.

End BalanceStats.

(** X9: [get_summary_stats] returns nothing exactly when there is no
    inactive account (none identified yet, or an empty result). Otherwise,
    for numeric balances, the minimum and the maximum are balances of the
    table and bound every balance; the total and the average are the float
    sum and mean over exactly the balances of the inactive accounts; and
    the three count dictionaries give, for every text, the number of
    accounts with that account type, branch or customer type. *)
Theorem get_summary_stats_extremes_and_counts
    (self : AccountInactivity.checker) :
  match AccountInactivity.inactive_accounts self with
  | None => Summary.get_summary_stats self = None
  | Some [] => Summary.get_summary_stats self = None
  | Some rows =>
      exists s,
        Summary.get_summary_stats self = Some s
        /\ Forall (fun b => (Summary.min_balance s <= b)%Q
                            /\ (b <= Summary.max_balance s)%Q)
                  (Summary.balances rows)
        /\ In (Summary.min_balance s) (Summary.balances rows)
        /\ In (Summary.max_balance s) (Summary.balances rows)
        /\ Summary.total_balance s = column_sum (Summary.balances rows)
        /\ Summary.avg_balance s = column_mean (Summary.balances rows)
        /\ (forall k,
               count_of k (Summary.type_counts s)
               = occurrences k
                   (map (fun r => Account_Type (AccountInactivity.account r))
                        rows))
        /\ (forall k,
               count_of k (Summary.branch_counts s)
               = occurrences k
                   (map (fun r => Branch (AccountInactivity.account r))
                        rows))
        /\ (forall k,
               count_of k (Summary.customer_type_counts s)
               = occurrences k
                   (map (fun r =>
                           Customer_Type (AccountInactivity.account r))
                        rows))
  end.
Proof.
  unfold Summary.get_summary_stats.
  destruct (AccountInactivity.inactive_accounts self) as [[|r rest]|];
    try reflexivity.
  eexists. split; [reflexivity|].
  set (rows := r :: rest).
  set (b := Account_Balance (AccountInactivity.account r)).
  destruct (Qmax_list_spec (Summary.balances rest) b) as (M1 & M2 & M3).
  destruct (Qmin_list_spec (Summary.balances rest) b) as (m1 & m2 & m3).
  lazy beta iota zeta delta
    [Summary.total_balance Summary.avg_balance Summary.min_balance
     Summary.max_balance Summary.type_counts Summary.branch_counts
     Summary.customer_type_counts].
  fold rows. fold b.
  split.
  { unfold rows. simpl. constructor; [split; assumption|].
    rewrite Forall_forall in *. intros y Hy. split; auto. }
  split; [exact m3|]. split; [exact M3|].
  split; [reflexivity|]. split; [reflexivity|].
  split; [|split]; intros k; apply value_counts_facts.
Qed.

(** The sample run has two inactive accounts, with balances 75000 and
    350000. *)
Example get_summary_stats_sample :
  match Summary.get_summary_stats SampleRun.analysed with
  | Some s =>
      (Qeq_bool (Summary.min_balance s) 75000
       && Qeq_bool (Summary.max_balance s) 350000)%bool = true
      /\ Summary.type_counts s = [("Savings/Call/Current", 2%nat)]
      /\ Summary.branch_counts s
         = [("Downtown", 1%nat); ("Main Branch", 1%nat)]
  | None => False
  end.
Proof. vm_compute. repeat split; reflexivity. Qed.

(** ** Default selections and category reports *)

Section UniqueFacts.

Lemma unique_In (col : list cell) (s : string) :
  In s (unique col) <-> In (Some s) col.
Proof.
  induction col as [|[a|] col IH]; simpl.
  - tauto.
  - rewrite filter_In, IH, negb_true_iff, String.eqb_neq.
    destruct (String.eqb_spec a s) as [->|Hne].
    + split; auto.
    + split.
      * intros [H|[H _]]; [congruence | auto].
      * intros [H|H]; [congruence | right; split; auto].
  - rewrite IH. split; [auto | intros [H|H]; [discriminate | exact H]].
Qed.

Lemma unique_NoDup (col : list cell) : NoDup (unique col).
Proof.
  induction col as [|[a|] col IH]; simpl.
  - constructor.
  - constructor.
    + rewrite filter_In, negb_true_iff, String.eqb_neq. intros [_ H].
      congruence.
    + apply NoDup_filter. exact IH.
  - exact IH.
Qed.

Lemma isin_unique (col : list cell) (c : cell) :
  In c col -> c <> None -> isin c (unique col) = true.
Proof.
  intros Hin Hc. destruct c as [s|]; [|congruence].
  apply isin_spec. exists s. split; [reflexivity|].
  apply unique_In. exact Hin.
Qed.

Lemma filter_all {A} (f : A -> bool) (l : list A) :
  (forall x, In x l -> f x = true) -> filter f l = l.
Proof.
  induction l as [|x l IH]; simpl; intros H; [reflexivity|].
  rewrite (H x (or_introl eq_refl)). f_equal. apply IH.
  intros y Hy. apply H. right. exact Hy.
Qed.

Lemma filter_or_perm {A} (p q : A -> bool) (l : list A) :
  (forall x, p x = true -> q x = false) ->
  Permutation (filter p l ++ filter q l) (filter (fun x => p x || q x) l).
Proof.
  intros Hdisj. induction l as [|x l IH]; simpl; [constructor|].
  destruct (p x) eqn:Ep; simpl.
  - rewrite (Hdisj x Ep). apply perm_skip. exact IH.
  - destruct (q x); simpl; [|exact IH].
    eapply perm_trans; [apply Permutation_sym, Permutation_middle|].
    apply perm_skip. exact IH.
Qed.

(** Splitting a table by the values of a key loses and repeats nothing. *)
Lemma groups_perm {A} (key : A -> string) (l : list A) (ks : list string) :
  NoDup ks ->
  Permutation
    (List.concat
       (map (fun k => filter (fun r => String.eqb (key r) k) l) ks))
    (filter (fun r => existsb (String.eqb (key r)) ks) l).
Proof.
  induction 1 as [|k ks Hnotin Hnd IH]; simpl.
  - rewrite filter_none by reflexivity. constructor.
  - eapply perm_trans; [apply Permutation_app_head, IH|].
    apply filter_or_perm. intros x Hx. apply String.eqb_eq in Hx.
    destruct (existsb (String.eqb (key x)) ks) eqn:E; [|reflexivity].
    apply existsb_exists in E. destruct E as (k' & Hk' & Heq).
    apply String.eqb_eq in Heq. congruence.
Qed.

End UniqueFacts.

(** X10: with the default selections of the data-table tab (every value
    present in each column) the filters return the whole categorised table,
    provided no account type, branch or customer type cell is missing. *)
Theorem default_filters_show_whole_table
    (t : list AccountInactivity.categorized_row) :
  Forall (fun r =>
            Account_Type
              (AccountInactivity.account (AccountInactivity.inactive r))
            <> None
            /\ Branch
                 (AccountInactivity.account (AccountInactivity.inactive r))
               <> None
            /\ Customer_Type
                 (AccountInactivity.account (AccountInactivity.inactive r))
               <> None) t ->
  AccountInactivity.apply_filters t
    (Summary.default_account_types t) (Summary.default_branches t)
    (Summary.default_customer_types t)
    (Some (Summary.default_categories t)) (Some (Summary.default_amounts t))
  = t.
Proof.
  intros Hpresent. rewrite Forall_forall in Hpresent.
  unfold AccountInactivity.apply_filters.
  assert (H1 : filter
            (fun r =>
               isin (Account_Type (AccountInactivity.account
                                     (AccountInactivity.inactive r)))
                    (Summary.default_account_types t)
               && isin (Branch (AccountInactivity.account
                                  (AccountInactivity.inactive r)))
                       (Summary.default_branches t)
               && isin (Customer_Type (AccountInactivity.account
                                         (AccountInactivity.inactive r)))
                       (Summary.default_customer_types t)) t = t).
  { apply filter_all. intros r Hr.
    destruct (Hpresent r Hr) as (Ht & Hb & Hc).
    unfold Summary.default_account_types, Summary.default_branches,
      Summary.default_customer_types.
    rewrite !isin_unique; auto;
      apply (in_map (fun x => _ (AccountInactivity.account
                                   (AccountInactivity.inactive x))));
      exact Hr. }
  rewrite H1. simpl truthy_opt. simpl selected.
  assert (H2 : filter
            (fun r => isin (Some (AccountInactivity.inactivity_category r))
                           (Summary.default_categories t)) t = t).
  { apply filter_all. intros r Hr. unfold Summary.default_categories.
    apply isin_unique; [|discriminate].
    apply (in_map (fun x => Some (AccountInactivity.inactivity_category x))).
    exact Hr. }
  assert (H3 : filter
            (fun r => isin (Some (AccountInactivity.amount_category r))
                           (Summary.default_amounts t)) t = t).
  { apply filter_all. intros r Hr. unfold Summary.default_amounts.
    apply isin_unique; [|discriminate].
    apply (in_map (fun x => Some (AccountInactivity.amount_category x))).
    exact Hr. }
  destruct (truthy (Summary.default_categories t));
    [rewrite H2|];
    (destruct (truthy (Summary.default_amounts t)); [exact H3 | reflexivity]).
Qed.

Lemma default_filters_show_whole_table_witness :
  List.length Sample.categorized = 2%nat
  /\ AccountInactivity.apply_filters Sample.categorized
       (Summary.default_account_types Sample.categorized)
       (Summary.default_branches Sample.categorized)
       (Summary.default_customer_types Sample.categorized)
       (Some (Summary.default_categories Sample.categorized))
       (Some (Summary.default_amounts Sample.categorized))
     = Sample.categorized.
Proof.
  split; [reflexivity|].
  apply default_filters_show_whole_table.
  vm_compute. repeat constructor; discriminate.
Defined.

(** X11: the category-based reports of the export tab split the categorised
    table: there is one report per category present, none is empty (the
    emptiness guard never skips one), a report holds only rows of its
    category, and the reports together hold every row exactly once. *)
Theorem category_reports_partition
    (t : list AccountInactivity.categorized_row) :
  map fst (Summary.category_reports t) = Summary.default_categories t
  /\ NoDup (map fst (Summary.category_reports t))
  /\ Forall (fun report =>
               snd report <> []
               /\ Forall (fun r =>
                            AccountInactivity.inactivity_category r
                            = fst report)
                         (snd report))
            (Summary.category_reports t)
  /\ Permutation (List.concat (map snd (Summary.category_reports t))) t.
Proof.
  set (group := fun category =>
         (category,
          filter (fun r =>
                    String.eqb (AccountInactivity.inactivity_category r)
                               category) t)).
  assert (Hkeep : Summary.category_reports t
                  = map group (Summary.default_categories t)).
  { unfold Summary.category_reports. fold group.
    apply filter_all. intros rep Hrep.
    apply in_map_iff in Hrep. destruct Hrep as (c & <- & Hc).
    unfold Summary.default_categories in Hc. apply unique_In in Hc.
    apply in_map_iff in Hc. destruct Hc as (r & Hr & Hin).
    injection Hr as Hr. simpl.
    assert (Hg : In r (filter (fun r0 =>
                   String.eqb (AccountInactivity.inactivity_category r0) c)
                   t)).
    { apply filter_In. split; [exact Hin|]. rewrite Hr.
      apply String.eqb_refl. }
    destruct (filter _ t); [destruct Hg | reflexivity]. }
  rewrite Hkeep.
  assert (Hfst : map fst (map group (Summary.default_categories t))
                 = Summary.default_categories t).
  { rewrite map_map. simpl. apply map_id. }
  split; [exact Hfst|]. split; [|split].
  - rewrite Hfst. apply unique_NoDup.
  - apply Forall_forall. intros rep Hrep.
    apply in_map_iff in Hrep. destruct Hrep as (c & <- & Hc). simpl.
    unfold Summary.default_categories in Hc. apply unique_In in Hc.
    apply in_map_iff in Hc. destruct Hc as (r & Hr & Hin).
    injection Hr as Hr. split.
    + intros Hnil.
      assert (Hg : In r (filter (fun r0 =>
                     String.eqb (AccountInactivity.inactivity_category r0) c)
                     t)).
      { apply filter_In. split; [exact Hin|]. rewrite Hr.
        apply String.eqb_refl. }
      rewrite Hnil in Hg. destruct Hg.
    + apply Forall_forall. intros x Hx. apply filter_In in Hx.
      destruct Hx as [_ Hx]. apply String.eqb_eq in Hx. exact Hx.
  - rewrite map_map. simpl.
    eapply perm_trans.
    + apply (groups_perm AccountInactivity.inactivity_category t
               (Summary.default_categories t)).
      apply unique_NoDup.
    + rewrite filter_all; [apply Permutation_refl|].
      intros r Hr. apply existsb_exists.
      exists (AccountInactivity.inactivity_category r).
      split; [|apply String.eqb_refl].
      unfold Summary.default_categories. apply unique_In.
      apply (in_map (fun x => Some (AccountInactivity.inactivity_category x))).
      exact Hr.
Qed.

(** ** Date text: parsing what was formatted *)

Ltac digit_cases n H :=
  let C := fresh "C" in
  assert (C : In n (map Z.of_nat (seq 0 10))) by (cbn; lia);
  clear H; cbn in C;
  repeat (destruct C as [C|C]; [subst n|]); [..|destruct C].

Section DateText.

Import TransferAgent Iso.

Lemma is_digit_digit_char (n : Z) : 0 <= n <= 9 -> is_digit (digit_char n) = true.
Proof. intros H. digit_cases n H; reflexivity. Qed.

Lemma digit_val_digit_char (n : Z) : 0 <= n <= 9 -> digit_val (digit_char n) = n.
Proof. intros H. digit_cases n H; reflexivity. Qed.

Lemma digit_char_not_T (n : Z) : 0 <= n <= 9 -> Ascii.eqb (digit_char n) "T" = false.
Proof. intros H. digit_cases n H; reflexivity. Qed.

Lemma re_Y_fmt4 (y : Z) (rest : string) :
  0 <= y <= 9999 -> re_Y (fmt4 y rest) = [(y, rest)].
Proof.
  intros Hy. unfold re_Y, fmt4, seq, one_char, ret.
  rewrite !is_digit_digit_char by (Z.to_euclidean_division_equations; lia).
  cbn [flat_map app].
  rewrite !is_digit_digit_char by (Z.to_euclidean_division_equations; lia).
  cbn [flat_map app].
  rewrite !is_digit_digit_char by (Z.to_euclidean_division_equations; lia).
  cbn [flat_map app].
  rewrite !is_digit_digit_char by (Z.to_euclidean_division_equations; lia).
  cbn [flat_map app].
  rewrite !digit_val_digit_char by (Z.to_euclidean_division_equations; lia).
  do 2 f_equal. Z.to_euclidean_division_equations; lia.
Qed.

Lemma re_m_fmt2 (m : Z) (rest : string) :
  1 <= m <= 12 ->
  exists junk,
    re_m (fmt2 m (String "-" rest)) = (m, String "-" rest) :: junk
    /\ Forall (fun x => dash (snd x) = []) junk.
Proof.
  intros H.
  assert (C : m = 1 \/ m = 2 \/ m = 3 \/ m = 4 \/ m = 5 \/ m = 6 \/ m = 7
              \/ m = 8 \/ m = 9 \/ m = 10 \/ m = 11 \/ m = 12) by lia.
  clear H.
  repeat (destruct C as [C|C]; [subst m|]); [..|subst m];
    eexists; (split; [vm_compute; reflexivity | repeat constructor]).
Qed.

Lemma re_d_fmt2 (d : Z) (rest : string) :
  1 <= d <= 31 ->
  exists junk, re_d (fmt2 d rest) = (d, rest) :: junk.
Proof.
  intros H.
  assert (C : d = 1 \/ d = 2 \/ d = 3 \/ d = 4 \/ d = 5 \/ d = 6 \/ d = 7
              \/ d = 8 \/ d = 9 \/ d = 10 \/ d = 11 \/ d = 12 \/ d = 13
              \/ d = 14 \/ d = 15 \/ d = 16 \/ d = 17 \/ d = 18 \/ d = 19
              \/ d = 20 \/ d = 21 \/ d = 22 \/ d = 23 \/ d = 24 \/ d = 25
              \/ d = 26 \/ d = 27 \/ d = 28 \/ d = 29 \/ d = 30 \/ d = 31)
    by lia.
  clear H.
  repeat (destruct C as [C|C]; [subst d|]); [..|subst d];
    eexists; vm_compute; reflexivity.
Qed.

Lemma flat_map_stops {B} (k : Z -> ascii -> matcher B)
    (junk : list (Z * string)) :
  Forall (fun x => dash (snd x) = []) junk ->
  flat_map (fun '(a, r) => seq dash (k a) r) junk = [].
Proof.
  induction 1 as [|[v r] junk Hx _ IH]; simpl; [reflexivity|].
  simpl in Hx. unfold seq at 1. rewrite Hx.
  simpl. exact IH.
Qed.

Lemma seq_cons {A B} (m : matcher A) (k : A -> matcher B) (s : string)
    (a : A) (r : string) (junk : list (A * string)) :
  m s = (a, r) :: junk ->
  seq m k s = (k a r ++ flat_map (fun '(a, rest) => k a rest) junk)%list.
Proof. intros H. unfold seq. rewrite H. reflexivity. Qed.

Lemma seq_single {A B} (m : matcher A) (k : A -> matcher B) (s : string)
    (a : A) (r : string) :
  m s = [(a, r)] -> seq m k s = k a r.
Proof. intros H. rewrite (seq_cons m k s a r [] H). apply app_nil_r. Qed.

Lemma dash_dash (r : string) : dash (String "-" r) = [("-"%char, r)].
Proof. reflexivity. Qed.

Lemma re_ymd_iso (y m d : Z) (rest : string) :
  0 <= y <= 9999 -> 1 <= m <= 12 -> 1 <= d <= 31 ->
  exists junk,
    re_ymd (iso_format_then y m d rest) = ((y, m, d), rest) :: junk.
Proof.
  intros Hy Hm Hd. unfold re_ymd, iso_format_then.
  rewrite (seq_single re_Y _ _ _ _ (re_Y_fmt4 y _ Hy)).
  rewrite (seq_single dash _ _ _ _ (dash_dash _)).
  destruct (re_m_fmt2 m (fmt2 d rest) Hm) as (junk_m & Em & Hjunk).
  rewrite (seq_cons re_m _ _ _ _ _ Em).
  rewrite (flat_map_stops (fun a _ => seq re_d (fun d0 => ret (y, a, d0))) junk_m Hjunk), app_nil_r.
  rewrite (seq_single dash _ _ _ _ (dash_dash _)).
  destruct (re_d_fmt2 d rest Hd) as (junk_d & Ed).
  rewrite (seq_cons re_d _ _ _ _ _ Ed).
  unfold ret at 1. cbn [app]. eexists. reflexivity.
Qed.

Lemma days_in_month_le_31 (y m : Z) : days_in_month y m <= 31.
Proof.
  unfold days_in_month.
  destruct (m =? 2); [destruct (is_leap y); lia|].
  destruct ((m =? 4) || (m =? 6) || (m =? 9) || (m =? 11)); lia.
Qed.

Lemma strptime_ymd_iso (y m d : Z) :
  valid_date y m d ->
  strptime_ymd (iso_format y m d) = Some (mkDatetime y m d 0 0 0 0).
Proof.
  intros (Hy & Hm & Hd).
  pose proof (days_in_month_le_31 y m) as H31.
  destruct (re_ymd_iso y m d "" ltac:(lia) Hm ltac:(lia)) as (junk & E).
  unfold strptime_ymd, iso_format. rewrite E.
  replace ((1 <=? y) && (1 <=? m) && (m <=? 12) && (1 <=? d)
           && (d <=? days_in_month y m)) with true; [reflexivity|].
  symmetry. rewrite !andb_true_iff, !Z.leb_le. lia.
Qed.

Lemma before_T_iso (y m d : Z) (time : string) :
  0 <= y <= 9999 -> 0 <= m <= 99 -> 0 <= d <= 99 ->
  before_T (iso_format_then y m d (String "T" time)) = iso_format y m d.
Proof.
  intros Hy Hm Hd. unfold iso_format, iso_format_then, fmt4, fmt2.
  cbn [before_T].
  rewrite !digit_char_not_T by (Z.to_euclidean_division_equations; lia).
  reflexivity.
Qed.

Lemma before_T_iso_plain (y m d : Z) :
  0 <= y <= 9999 -> 0 <= m <= 99 -> 0 <= d <= 99 ->
  before_T (iso_format y m d) = iso_format y m d.
Proof.
  intros Hy Hm Hd. unfold iso_format, iso_format_then, fmt4, fmt2.
  cbn [before_T].
  rewrite !digit_char_not_T by (Z.to_euclidean_division_equations; lia).
  reflexivity.
Qed.

Lemma digit_val_bounds (c : ascii) :
  is_digit c = true -> 0 <= digit_val c <= 9.
Proof.
  unfold is_digit, digit_val. cbv zeta.
  rewrite andb_true_iff, !N.leb_le. intros [H1 H2]. lia.
Qed.

(** A year the pattern read has four digits. *)
Lemma re_Y_bounds (s : string) (y : Z) (r : string) :
  In (y, r) (re_Y s) -> 0 <= y <= 9999.
Proof.
  unfold re_Y, seq, one_char, ret.
  destruct s as [|a [|b [|c [|d rest]]]];
    repeat match goal with
           | |- context [if is_digit ?x then _ else _] =>
               let E := fresh "E" in destruct (is_digit x) eqn:E
           | _ => progress cbn [flat_map app In]
           end; try tauto.
  intros [H|[]]. apply (f_equal fst) in H. cbn [fst] in H. subst y.
  repeat match goal with
         | H : is_digit _ = true |- _ => apply digit_val_bounds in H
         end.
  lia.
Qed.

Lemma re_ymd_year (s : string) (y m d : Z) (r : string) :
  In ((y, m, d), r) (re_ymd s) -> 0 <= y <= 9999.
Proof.
  unfold re_ymd, seq at 1. rewrite in_flat_map.
  intros ([y0 r0] & Hy & Hin). apply re_Y_bounds in Hy.
  unfold seq in Hin. repeat (rewrite in_flat_map in Hin;
    destruct Hin as ([? ?] & _ & Hin)).
  unfold ret in Hin. destruct Hin as [Hin|[]]. injection Hin as <- _ _ _.
  exact Hy.
Qed.

Lemma strptime_ymd_valid (s : string) (dt : datetime) :
  strptime_ymd s = Some dt ->
  valid_date (year dt) (month dt) (day dt)
  /\ dt = mkDatetime (year dt) (month dt) (day dt) 0 0 0 0.
Proof.
  unfold strptime_ymd.
  destruct (re_ymd s) as [|[[[y m] d] rest] others] eqn:E; [discriminate|].
  destruct rest; [|discriminate].
  destruct (_ && _) eqn:C; [|discriminate].
  intros H. injection H as <-. simpl.
  rewrite !andb_true_iff, !Z.leb_le in C.
  assert (Hy : 0 <= y <= 9999).
  { apply (re_ymd_year s y m d ""). rewrite E. left. reflexivity. }
  unfold valid_date. split; [lia | reflexivity].
Qed.

End DateText.

(** X12: a date of the calendar written as zero-padded YYYY-MM-DD is
    cleaned to exactly that date at midnight, and so is the same text
    followed by 'T' and any time part. *)
Theorem clean_date_reads_formatted_dates (y m d : Z) :
  Iso.valid_date y m d ->
  TransferAgent.clean_date (Some (Iso.iso_format y m d))
  = Returned (Some (TransferAgent.mkDatetime y m d 0 0 0 0))
  /\ forall time,
       TransferAgent.clean_date
         (Some (Iso.iso_format_then y m d (String "T" time)))
       = Returned (Some (TransferAgent.mkDatetime y m d 0 0 0 0)).
Proof.
  intros Hv. pose proof Hv as (Hy & Hm & Hd).
  pose proof (days_in_month_le_31 y m) as H31.
  unfold TransferAgent.clean_date. split.
  - rewrite before_T_iso_plain by lia.
    rewrite (strptime_ymd_iso y m d Hv). reflexivity.
  - intros time. rewrite before_T_iso by lia.
    rewrite (strptime_ymd_iso y m d Hv). reflexivity.
Qed.

Lemma clean_date_reads_formatted_dates_witness :
  Iso.valid_date 2024 2 29
  /\ TransferAgent.clean_date (Some (Iso.iso_format 2024 2 29))
     = Returned (Some (TransferAgent.mkDatetime 2024 2 29 0 0 0 0)).
Proof.
  assert (Hv : Iso.valid_date 2024 2 29)
    by (unfold Iso.valid_date; vm_compute; intuition discriminate).
  split; [exact Hv|].
  exact (proj1 (clean_date_reads_formatted_dates 2024 2 29 Hv)).
Defined.

(** X13: whatever text it is given, a date [clean_date] returns is a day
    that exists in the calendar (year 1 to 9999, the month's real length,
    leap years included) at midnight, and writing it back as YYYY-MM-DD and
    cleaning again gives the same date. *)
Theorem clean_date_returns_calendar_dates
    (s : string) (dt : TransferAgent.datetime) :
  TransferAgent.clean_date (Some s) = Returned (Some dt) ->
  Iso.valid_date (TransferAgent.year dt) (TransferAgent.month dt)
                 (TransferAgent.day dt)
  /\ dt = TransferAgent.mkDatetime
            (TransferAgent.year dt) (TransferAgent.month dt)
            (TransferAgent.day dt) 0 0 0 0
  /\ TransferAgent.clean_date
       (Some (Iso.iso_format (TransferAgent.year dt)
                (TransferAgent.month dt) (TransferAgent.day dt)))
     = Returned (Some dt).
Proof.
  unfold TransferAgent.clean_date at 1. intros H. injection H as H.
  destruct (strptime_ymd_valid _ _ H) as (Hv & Hdt).
  split; [exact Hv|]. split; [exact Hdt|].
  pose proof Hv as (Hy & Hm & Hd).
  pose proof (days_in_month_le_31 (TransferAgent.year dt)
                (TransferAgent.month dt)) as H31.
  unfold TransferAgent.clean_date.
  rewrite before_T_iso_plain by lia.
  rewrite (strptime_ymd_iso _ _ _ Hv). rewrite <- Hdt. reflexivity.
Qed.

Lemma clean_date_returns_calendar_dates_witness :
  TransferAgent.clean_date (Some "2020-2-29T08:15:00")
  = Returned (Some (TransferAgent.mkDatetime 2020 2 29 0 0 0 0))
  /\ TransferAgent.clean_date (Some (Iso.iso_format 2020 2 29))
     = Returned (Some (TransferAgent.mkDatetime 2020 2 29 0 0 0 0)).
Proof.
  split; [reflexivity|].
  exact (proj2 (proj2 (clean_date_returns_calendar_dates
                         "2020-2-29T08:15:00"
                         (TransferAgent.mkDatetime 2020 2 29 0 0 0 0)
                         eq_refl))).
Defined.

(** ** Date text: the order of texts is the order of dates *)

Section TextOrder.

Import TransferAgent Iso.

Lemma ascii_compare_digit (a b : Z) :
  0 <= a <= 9 -> 0 <= b <= 9 ->
  Ascii.compare (digit_char a) (digit_char b) = (a ?= b).
Proof.
  intros Ha Hb. digit_cases a Ha; digit_cases b Hb; reflexivity.
Qed.

Lemma string_compare_cons (c1 c2 : ascii) (s1 s2 : string) :
  String.compare (String c1 s1) (String c2 s2)
  = lex (Ascii.compare c1 c2) (String.compare s1 s2).
Proof. simpl. destruct (Ascii.compare c1 c2); reflexivity. Qed.

Lemma lex_digits (a b a' b' : Z) (R : comparison) :
  0 <= b <= 9 -> 0 <= b' <= 9 ->
  lex (a ?= a') (lex (b ?= b') R) = lex (10 * a + b ?= 10 * a' + b') R.
Proof.
  intros Hb Hb'.
  destruct (Z.compare_spec a a'), (Z.compare_spec b b'),
    (Z.compare_spec (10 * a + b) (10 * a' + b')); simpl; try reflexivity; lia.
Qed.

Lemma compare_fmt2 (n n' : Z) (r r' : string) :
  0 <= n <= 99 -> 0 <= n' <= 99 ->
  String.compare (fmt2 n r) (fmt2 n' r')
  = lex (n ?= n') (String.compare r r').
Proof.
  intros Hn Hn'. unfold fmt2. rewrite !string_compare_cons.
  rewrite !ascii_compare_digit by (Z.to_euclidean_division_equations; lia).
  rewrite lex_digits by (Z.to_euclidean_division_equations; lia).
  f_equal. f_equal; Z.to_euclidean_division_equations; lia.
Qed.

Lemma fmt4_fmt2 (y : Z) (r : string) :
  0 <= y -> fmt4 y r = fmt2 (y / 100) (fmt2 (y mod 100) r).
Proof.
  intros Hy. unfold fmt4, fmt2.
  replace (y / 100 / 10) with (y / 1000)
    by (Z.to_euclidean_division_equations; lia).
  replace (y mod 100 / 10) with (y / 10 mod 10)
    by (Z.to_euclidean_division_equations; lia).
  replace ((y mod 100) mod 10) with (y mod 10)
    by (Z.to_euclidean_division_equations; lia).
  reflexivity.
Qed.

Lemma compare_fmt4 (y y' : Z) (r r' : string) :
  0 <= y <= 9999 -> 0 <= y' <= 9999 ->
  String.compare (fmt4 y r) (fmt4 y' r')
  = lex (y ?= y') (String.compare r r').
Proof.
  intros Hy Hy'. rewrite !fmt4_fmt2 by lia.
  rewrite !compare_fmt2 by (Z.to_euclidean_division_equations; lia).
  destruct (Z.compare_spec (y / 100) (y' / 100)),
    (Z.compare_spec (y mod 100) (y' mod 100)),
    (Z.compare_spec y y'); simpl; try reflexivity;
    Z.to_euclidean_division_equations; lia.
Qed.

Lemma compare_iso (y m d y' m' d' : Z) (r r' : string) :
  0 <= y <= 9999 -> 0 <= m <= 99 -> 0 <= d <= 99 ->
  0 <= y' <= 9999 -> 0 <= m' <= 99 -> 0 <= d' <= 99 ->
  String.compare (iso_format_then y m d r) (iso_format_then y' m' d' r')
  = lex (y ?= y') (lex (m ?= m') (lex (d ?= d') (String.compare r r'))).
Proof.
  intros. unfold iso_format_then.
  rewrite compare_fmt4 by lia. rewrite string_compare_cons.
  change (Ascii.compare "-" "-") with Eq. cbn [lex].
  rewrite compare_fmt2 by lia. rewrite string_compare_cons.
  change (Ascii.compare "-" "-") with Eq. cbn [lex].
  rewrite compare_fmt2 by lia. reflexivity.
Qed.

Lemma compare_with_empty (r : string) : String.compare r "" <> Lt.
Proof. destruct r; discriminate. Qed.

(** A formatted date, whatever follows it, sorts before a formatted
    cutoff exactly when it is an earlier day. *)
Lemma ltb_iso_cutoff (y m d Y M D : Z) (rest : string) :
  0 <= y <= 9999 -> 0 <= m <= 99 -> 0 <= d <= 99 ->
  0 <= Y <= 9999 -> 0 <= M <= 99 -> 0 <= D <= 99 ->
  (String.ltb (iso_format_then y m d rest) (iso_format Y M D) = true
   <-> y < Y \/ (y = Y /\ (m < M \/ (m = M /\ d < D)))).
Proof.
  intros. unfold String.ltb, iso_format.
  rewrite compare_iso by assumption.
  pose proof (compare_with_empty rest) as Hr.
  destruct (Z.compare_spec y Y), (Z.compare_spec m M),
    (Z.compare_spec d D), (String.compare rest ""); simpl;
    split; intros Hx; try reflexivity; try discriminate;
    try congruence; lia.
Qed.

End TextOrder.

(** X14: on a well-formed date text, with or without anything after it,
    the freeze check compares by the calendar: the account is frozen exactly
    when it is dormant, its KYC is expired and its last transaction is
    before the year 2022. *)
Theorem freeze_account_on_well_formed_dates
    (account_status kyc_status : cell) (y m d : Z) (rest : string) :
  Iso.valid_date y m d ->
  (FreezeAgent.freeze_account account_status
     (Some (Iso.iso_format_then y m d rest)) kyc_status
   = Returned "Frozen"
   <-> account_status = Some "Dormant" /\ y < 2022
       /\ kyc_status = Some "Expired").
Proof.
  intros (Hy & Hm & Hd).
  pose proof (days_in_month_le_31 y m) as H31.
  rewrite freeze_account_frozen.
  change "2022-01-01" with (Iso.iso_format 2022 1 1).
  rewrite ltb_iso_cutoff by lia.
  split; intros (H1 & H2 & H3); repeat split; auto; lia.
Qed.

Lemma freeze_account_on_well_formed_dates_witness :
  Iso.valid_date 2021 12 31
  /\ FreezeAgent.freeze_account (Some "Dormant")
       (Some (Iso.iso_format_then 2021 12 31 "T23:59:59")) (Some "Expired")
     = Returned "Frozen".
Proof.
  assert (Hv : Iso.valid_date 2021 12 31)
    by (unfold Iso.valid_date; vm_compute; intuition discriminate).
  split; [exact Hv|].
  apply (freeze_account_on_well_formed_dates _ _ 2021 12 31 _ Hv).
  repeat split.
Defined.

(** X15: the ledger classification. With a numeric balance and a
    well-formed date text, a last transaction before 2021-12-31 gives the
    high-value ledger above a balance of 100000 and the low-value ledger up
    to it; 2021-12-31 itself and any later day give the standard ledger;
    with a numeric balance a row without a date raises. A row without a
    balance gets the standard ledger whatever its date cell, even a missing
    one, and a balance that is text raises. *)
Theorem classify_ledger_on_well_formed_dates
    (y m d : Z) (rest : string) :
  Iso.valid_date y m d ->
  (forall balance : Q,
      let answer :=
        Scripts.classify_ledger (Scripts.Amount balance)
          (Some (Iso.iso_format_then y m d rest)) in
      (answer = Returned "High-Value Dormant Ledger"
       <-> (100000 < balance)%Q /\ Stated.on_or_before y m d 2021 12 30)
      /\ (answer = Returned "Low-Value Dormant Ledger"
          <-> (balance <= 100000)%Q /\ Stated.on_or_before y m d 2021 12 30)
      /\ (answer = Returned "Standard Dormant Ledger"
          <-> ~ Stated.on_or_before y m d 2021 12 30)
      /\ Scripts.classify_ledger (Scripts.Amount balance) None
         = Raised TypeError)
  /\ (forall date : cell,
         Scripts.classify_ledger Scripts.NoAmount date
         = Returned "Standard Dormant Ledger")
  /\ (forall (text : string) (date : cell),
         Scripts.classify_ledger (Scripts.TextAmount text) date
         = Raised TypeError).
Proof.
  intros (Hy & Hm & Hd).
  pose proof (days_in_month_le_31 y m) as H31.
  assert (Hlt : String.ltb (Iso.iso_format_then y m d rest) "2021-12-31"
                = true
                <-> Stated.on_or_before y m d 2021 12 30).
  { change "2021-12-31" with (Iso.iso_format 2021 12 31).
    rewrite ltb_iso_cutoff by lia. unfold Stated.on_or_before. lia. }
  split; [|split; reflexivity].
  intros balance answer. subst answer.
  unfold Scripts.classify_ledger, Scripts.and_then, Scripts.amount_gtb,
    Scripts.amount_leb, Scripts.text_ltb.
  rewrite <- Hlt, <- Qgtb_true, <- Qle_bool_iff.
  assert (Hle : Qle_bool balance 100000 = negb (Qgtb balance 100000)).
  { destruct (Qgtb balance 100000) eqn:E; simpl.
    - apply Qgtb_true in E.
      destruct (Qle_bool balance 100000) eqn:E'; [|reflexivity].
      apply Qle_bool_iff in E'. lra.
    - apply Qgtb_false in E. apply Qle_bool_iff. exact E. }
  rewrite Hle.
  destruct (Qgtb balance 100000),
    (String.ltb (Iso.iso_format_then y m d rest) "2021-12-31"); simpl;
    repeat split; try (intros [? ?]); try intros ?;
    try reflexivity; try discriminate; try congruence.
Qed.

Lemma classify_ledger_on_well_formed_dates_witness :
  Iso.valid_date 2021 12 31
  /\ Scripts.classify_ledger (Scripts.Amount 250000)
       (Some (Iso.iso_format 2021 12 31))
     = Returned "Standard Dormant Ledger"
  /\ Scripts.classify_ledger (Scripts.Amount 250000)
       (Some (Iso.iso_format 2021 12 30))
     = Returned "High-Value Dormant Ledger".
Proof.
  assert (Hv : Iso.valid_date 2021 12 31)
    by (unfold Iso.valid_date; vm_compute; intuition discriminate).
  split; [exact Hv|]. split; [|reflexivity].
  apply (proj1 (proj2 (proj2
           (proj1 (classify_ledger_on_well_formed_dates 2021 12 31 "" Hv)
              250000%Q)))).
  unfold Stated.on_or_before. lia.
Defined.

(** ** The freeze script over a table *)

Section FreezeScript.






End FreezeScript.


(** ** Transfer eligibility follows the order of dates *)

Section DatetimeOrder.

Import TransferAgent.

Lemma lex_le_trans (x y z : Z) (R1 R2 R3 : comparison) :
  (R1 <> Gt -> R2 <> Gt -> R3 <> Gt) ->
  lex (x ?= y) R1 <> Gt -> lex (y ?= z) R2 <> Gt -> lex (x ?= z) R3 <> Gt.
Proof.
  intros HR.
  destruct (Z.compare_spec x y), (Z.compare_spec y z),
    (Z.compare_spec x z); simpl; intros Ha Hb;
    try discriminate; try congruence; try lia; auto.
Qed.

Lemma datetime_leb_not_gt (a b : datetime) :
  datetime_leb a b = true <-> datetime_compare a b <> Gt.
Proof.
  unfold datetime_leb. destruct (datetime_compare a b);
    split; intros H; try reflexivity; try discriminate; congruence.
Qed.

Lemma datetime_leb_trans (a b c : datetime) :
  datetime_leb a b = true -> datetime_leb b c = true ->
  datetime_leb a c = true.
Proof.
  rewrite !datetime_leb_not_gt. unfold datetime_compare.
  repeat apply lex_le_trans.
  destruct (Z.compare_spec (microsecond a) (microsecond b)),
    (Z.compare_spec (microsecond b) (microsecond c)),
    (Z.compare_spec (microsecond a) (microsecond c));
    intros Ha Hb; try discriminate; try congruence; lia.
Qed.

End DatetimeOrder.

(** X17: transfer eligibility is closed under earlier dates: when an
    account is eligible, every account whose last transaction is at the
    same time or earlier is eligible too. *)
Theorem transfer_eligibility_downward_closed
    (earlier later : TransferAgent.datetime) :
  TransferAgent.datetime_leb earlier later = true ->
  TransferAgent.check_transfer_eligibility (Some later)
    = "Eligible for Transfer" ->
  TransferAgent.check_transfer_eligibility (Some earlier)
    = "Eligible for Transfer".
Proof.
  intros Hle Hlater.
  apply check_transfer_eligibility_eligible in Hlater.
  destruct Hlater as (dt & Heq & Hcut). injection Heq as <-.
  apply check_transfer_eligibility_eligible. exists earlier.
  split; [reflexivity|].
  eapply datetime_leb_trans; eassumption.
Qed.

Lemma transfer_eligibility_downward_closed_witness :
  TransferAgent.check_transfer_eligibility
    (Some (TransferAgent.mkDatetime 2019 12 31 0 0 0 0))
  = "Eligible for Transfer".
Proof.
  apply (transfer_eligibility_downward_closed
           (TransferAgent.mkDatetime 2019 12 31 0 0 0 0)
           (TransferAgent.mkDatetime 2020 4 24 0 0 0 0));
    reflexivity.
Defined.

(** ** Fixed-deposit maturity status *)

Section MaturityFacts.

Import FDTracker.

Lemma years_lt (d k : Z) :
  Qltb (inject_Z d / (36525 # 100)) (inject_Z k) = true
  <-> 100 * d < 36525 * k.
Proof.
  unfold Qltb. rewrite Qgtb_true.
  unfold Qlt, Qdiv, Qmult, Qinv, inject_Z. cbn [Qnum Qden Pos.mul]. lia.
Qed.

Lemma years_ge (d k : Z) :
  Qgeb (inject_Z d / (36525 # 100)) (inject_Z k) = true
  <-> 36525 * k <= 100 * d.
Proof.
  unfold Qgeb. rewrite Qle_bool_iff.
  unfold Qle, Qdiv, Qmult, Qinv, inject_Z. cbn [Qnum Qden Pos.mul]. lia.
Qed.

Lemma years_ltb (d k : Z) :
  Qltb (inject_Z d / (36525 # 100)) (inject_Z k) = (100 * d <? 36525 * k).
Proof.
  apply Bool.eq_iff_eq_true. rewrite years_lt, Z.ltb_lt. reflexivity.
Qed.

Lemma years_geb (d k : Z) :
  Qgeb (inject_Z d / (36525 # 100)) (inject_Z k) = (36525 * k <=? 100 * d).
Proof.
  apply Bool.eq_iff_eq_true. rewrite years_ge, Z.leb_le. reflexivity.
Qed.

(** The status of a row with a known date, by whole days. *)
Lemma maturity_status_days (d : Z) :
  maturity_status (Some (inject_Z d / (36525 # 100))%Q)
  = if d <=? 365 then "Active"
    else if d <=? 730 then "Approaching Inactivity"
    else if d <=? 1095 then "High Risk"
    else "Inactive".
Proof.
  unfold maturity_status, nan_test.
  change 1%Q with (inject_Z 1). change 2%Q with (inject_Z 2).
  change 3%Q with (inject_Z 3).
  rewrite !years_ltb, !years_geb.
  destruct (Z.ltb_spec (100 * d) (36525 * 1)),
    (Z.ltb_spec (100 * d) (36525 * 2)),
    (Z.ltb_spec (100 * d) (36525 * 3)),
    (Z.leb_spec (36525 * 1) (100 * d)),
    (Z.leb_spec (36525 * 2) (100 * d)),
    (Z.leb_spec (36525 * 3) (100 * d)),
    (Z.leb_spec d 365), (Z.leb_spec d 730), (Z.leb_spec d 1095);
    simpl; try reflexivity; lia.
Qed.

Lemma inactive_flag_days (d : Z) :
  nan_test (fun y => Qgeb y 3) (Some (inject_Z d / (36525 # 100))%Q)
  = (1096 <=? d).
Proof.
  unfold nan_test. change 3%Q with (inject_Z 3). rewrite years_geb.
  destruct (Z.leb_spec (36525 * 3) (100 * d)), (Z.leb_spec 1096 d);
    try reflexivity; lia.
Qed.

End MaturityFacts.

(** X18: the maturity status of a row follows the whole days since its last
    transaction: up to 365 days "Active", up to 730 "Approaching
    Inactivity", up to 1095 "High Risk", from 1096 days on "Inactive"; the
    inactivity flag is set exactly for the status "Inactive", that is from
    1096 days on; and the status is "Unknown", with the flag off, exactly
    when the date is unknown. *)
Theorem maturity_status_by_days (current_date : timestamp) (r : dated_row) :
  (FDTracker.Inactive_Flag (FDTracker.derive current_date r) = true
   <-> FDTracker.Maturity_Status (FDTracker.derive current_date r)
       = "Inactive")
  /\ (FDTracker.Maturity_Status (FDTracker.derive current_date r)
      = "Unknown"
      <-> Last_Transaction_Date r = None)
  /\ (forall t,
         Last_Transaction_Date r = Some t ->
         FDTracker.Days_Since_Last_Transaction
           (FDTracker.derive current_date r)
         = Some ((current_date - t) / ns_per_day)
         /\ FDTracker.Maturity_Status (FDTracker.derive current_date r)
            = (if (current_date - t) / ns_per_day <=? 365 then "Active"
               else if (current_date - t) / ns_per_day <=? 730
                    then "Approaching Inactivity"
               else if (current_date - t) / ns_per_day <=? 1095
                    then "High Risk"
               else "Inactive")
         /\ FDTracker.Inactive_Flag (FDTracker.derive current_date r)
            = (1096 <=? (current_date - t) / ns_per_day)).
Proof.
  unfold FDTracker.derive, dt_days.
  destruct (Last_Transaction_Date r) as [t|]; simpl.
  - set (d := (current_date - t) / ns_per_day).
    pose proof (maturity_status_days d) as Hs.
    pose proof (inactive_flag_days d) as Hf.
    unfold FDTracker.nan_test in Hf.
    split; [|split].
    + rewrite Hs, Hf.
      destruct (Z.leb_spec 1096 d), (Z.leb_spec d 365),
        (Z.leb_spec d 730), (Z.leb_spec d 1095);
        split; intros Hx; try reflexivity; try discriminate; lia.
    + rewrite Hs.
      destruct (d <=? 365), (d <=? 730), (d <=? 1095);
        split; discriminate.
    + intros t' Ht. injection Ht as <-. fold d.
      split; [reflexivity|]. split; [exact Hs | exact Hf].
  - split; [split; discriminate|]. split; [tauto|]. discriminate.
Qed.

(** ** Fixed-deposit summaries *)

Section FDSummaryFacts.

Import FDSummary.

Lemma filter_filter {A} (p q : A -> bool) (l : list A) :
  filter q (filter p l) = filter (fun x => p x && q x) l.
Proof.
  induction l as [|x l IH]; simpl; [reflexivity|].
  destruct (p x); simpl; [|exact IH].
  destruct (q x); [f_equal|]; exact IH.
Qed.

Lemma filter_split_length {A} (p : A -> bool) (l : list A) :
  (List.length (filter p l)
   + List.length (filter (fun x => negb (p x)) l))%nat
  = List.length l.
Proof.
  induction l as [|x l IH]; simpl; [reflexivity|].
  destruct (p x); simpl; lia.
Qed.

Lemma filter_disjoint_length {A} (p q : A -> bool) (l : list A) :
  (forall x, p x = true -> q x = false) ->
  (List.length (filter p l) + List.length (filter q l)
   <= List.length l)%nat.
Proof.
  intros Hd. induction l as [|x l IH]; simpl; [lia|].
  destruct (p x) eqn:Ep; simpl.
  - rewrite (Hd x Ep). lia.
  - destruct (q x); simpl; lia.
Qed.

Lemma insert_text_perm (s : string) (l : list string) :
  Permutation (insert_text s l) (s :: l).
Proof.
  induction l as [|x l IH]; simpl.
  - apply Permutation_refl.
  - destruct (String.leb s x).
    + apply Permutation_refl.
    + eapply perm_trans; [apply perm_skip, IH | apply perm_swap].
Qed.

Lemma group_keys_perm (col : list cell) :
  Permutation (group_keys col) (unique col).
Proof.
  unfold group_keys. induction (unique col) as [|x l IH]; simpl.
  - constructor.
  - eapply perm_trans; [apply insert_text_perm | apply perm_skip, IH].
Qed.

Lemma insert_text_sorted (s : string) (l : list string) :
  Sorted (fun a b => String.leb a b = true) l ->
  Sorted (fun a b => String.leb a b = true) (insert_text s l).
Proof.
  induction l as [|x l IH]; simpl; intros Hs.
  - repeat constructor.
  - destruct (String.leb s x) eqn:E.
    + constructor; [exact Hs | constructor; exact E].
    + assert (Hx : String.leb x s = true).
      { destruct (String.leb_total s x); congruence. }
      inversion Hs as [|? ? Hrest Hhd]; subst.
      constructor; [apply IH; exact Hrest|].
      destruct l as [|y l']; simpl.
      * constructor. exact Hx.
      * destruct (String.leb s y).
        -- constructor. exact Hx.
        -- inversion Hhd; subst. constructor. assumption.
Qed.

Lemma group_keys_sorted (col : list cell) :
  Sorted (fun a b => String.leb a b = true) (group_keys col).
Proof.
  unfold group_keys. induction (unique col) as [|x l IH]; simpl.
  - constructor.
  - apply insert_text_sorted. exact IH.
Qed.

(** Grouping by a column that may have missing cells. *)
Lemma cell_groups_perm {A} (key : A -> cell) (l : list A)
    (ks : list string) :
  NoDup ks ->
  Permutation
    (List.concat (map (fun k => filter (fun r => cell_eqb (key r) k) l) ks))
    (filter (fun r => isin (key r) ks) l).
Proof.
  induction 1 as [|k ks Hnotin Hnd IH]; simpl.
  - rewrite filter_none; [constructor|]. intros x. apply isin_nil.
  - eapply perm_trans; [apply Permutation_app_head, IH|].
    eapply perm_trans.
    + apply filter_or_perm. intros x Hx. apply cell_eqb_true in Hx.
      rewrite Hx. simpl.
      destruct (existsb (String.eqb k) ks) eqn:E; [|reflexivity].
      apply existsb_exists in E. destruct E as (k' & Hk' & Heq).
      apply String.eqb_eq in Heq. congruence.
    + match goal with
      | |- Permutation (filter ?f l) (filter ?g l) =>
          rewrite (filter_ext f g); [apply Permutation_refl|]
      end.
      intros x. destruct (key x) as [s|]; simpl; reflexivity.
Qed.

Lemma group_keys_In (col : list cell) (b : string) :
  In b (group_keys col) <-> In (Some b) col.
Proof.
  rewrite <- unique_In. split; apply Permutation_in;
    [|apply Permutation_sym]; apply group_keys_perm.
Qed.

Lemma count_present_map {A} (f : A -> cell) (l : list A) :
  count_present (map f l)
  = List.length (filter (fun r => match f r with
                                  | Some _ => true
                                  | None => false
                                  end) l).
Proof.
  unfold count_present. induction l as [|x l IH]; simpl; [reflexivity|].
  destruct (f x); simpl; [f_equal|]; exact IH.
Qed.

Lemma count_present_all (col : list cell) :
  Forall (fun c => c <> None) col ->
  count_present col = List.length col.
Proof.
  unfold count_present. induction 1 as [|c col Hc _ IH]; simpl.
  - reflexivity.
  - destruct c; [simpl; congruence | congruence].
Qed.

End FDSummaryFacts.

(** X19: in the fixed-deposit summary the active and inactive counts add up
    to the total and neither is negative; the active count is the number of
    fixed-deposit rows whose flag is off. The branch table has exactly one
    line for each branch that some inactive deposit has, in ascending order
    of the branch name; a line counts the inactive deposits of its branch
    that have an account id, of which branch there is at least one row, and
    its balance is the grouped float sum over exactly the balances of these
    deposits; rows without a branch are in no line. When no inactive deposit
    lacks a branch or an account id, the counts of the lines add up to the
    inactive count. *)
Theorem generate_account_summary_consistent (df : list FDTracker.fd_row) :
  let s := FDSummary.generate_account_summary df in
  let inactive :=
    filter (fun r => FDSummary.is_fd r && FDTracker.Inactive_Flag r) df in
  let of_branch b :=
    filter (fun r => cell_eqb (Branch (FDTracker.base r)) b) inactive in
  FDSummary.total_fd s = FDSummary.inactive_fd s + FDSummary.active_fd s
  /\ 0 <= FDSummary.inactive_fd s <= FDSummary.total_fd s
  /\ FDSummary.inactive_fd s = Z.of_nat (List.length inactive)
  /\ FDSummary.active_fd s
     = Z.of_nat (List.length
                   (filter (fun r => FDSummary.is_fd r
                                     && negb (FDTracker.Inactive_Flag r))
                           df))
  /\ FDSummary.inactive_value s
     = column_sum (map FDSummary.balance_of inactive)
  /\ NoDup (map FDSummary.stat_branch (FDSummary.branch_stats s))
  /\ Sorted (fun a b => String.leb a b = true)
            (map FDSummary.stat_branch (FDSummary.branch_stats s))
  /\ (forall b,
         In b (map FDSummary.stat_branch (FDSummary.branch_stats s))
         <-> exists r, In r inactive /\ Branch (FDTracker.base r) = Some b)
  /\ Forall (fun line =>
               of_branch (FDSummary.stat_branch line) <> []
               /\ FDSummary.account_count line
                  = List.length
                      (filter (fun r =>
                                 match Account_ID (FDTracker.base r) with
                                 | Some _ => true
                                 | None => false
                                 end)
                              (of_branch (FDSummary.stat_branch line)))
               /\ FDSummary.stat_total_balance line
                  = group_sum (map FDSummary.balance_of
                                   (of_branch (FDSummary.stat_branch line))))
            (FDSummary.branch_stats s)
  /\ (Forall (fun r => Branch (FDTracker.base r) <> None
                       /\ Account_ID (FDTracker.base r) <> None)
             inactive ->
      Z.of_nat (list_sum (map FDSummary.account_count
                            (FDSummary.branch_stats s)))
      = FDSummary.inactive_fd s).
Proof.
  intros s inactive of_branch.
  assert (Hflag : filter FDTracker.Inactive_Flag (filter FDSummary.is_fd df)
                  = inactive) by apply filter_filter.
  assert (Hoff : filter (fun r => negb (FDTracker.Inactive_Flag r))
                        (filter FDSummary.is_fd df)
                 = filter (fun r => FDSummary.is_fd r
                                    && negb (FDTracker.Inactive_Flag r)) df)
    by apply filter_filter.
  pose proof (filter_split_length FDTracker.Inactive_Flag
                (filter FDSummary.is_fd df)) as Hsplit.
  rewrite Hflag, Hoff in Hsplit.
  subst s. unfold FDSummary.generate_account_summary.
  cbn [FDSummary.total_fd FDSummary.inactive_fd FDSummary.active_fd
       FDSummary.inactive_value FDSummary.branch_stats].
  rewrite !Hflag. fold of_branch.
  set (keys := FDSummary.group_keys
                 (map (fun r => Branch (FDTracker.base r)) inactive)).
  set (line := fun b =>
                 FDSummary.mkBranchStat b
                   (FDSummary.count_present
                      (map (fun r => Account_ID (FDTracker.base r))
                           (of_branch b)))
                   (group_sum (map FDSummary.balance_of (of_branch b)))).
  match goal with
  | |- context [map ?f keys] => change f with line
  end.
  assert (Hkeys : map FDSummary.stat_branch (map line keys) = keys).
  { rewrite map_map. simpl. apply map_id. }
  assert (Hnd : NoDup keys).
  { eapply Permutation_NoDup;
      [apply Permutation_sym, group_keys_perm | apply unique_NoDup]. }
  assert (Hin : forall b,
            In b keys
            <-> exists r, In r inactive /\ Branch (FDTracker.base r) = Some b).
  { intros b. unfold keys. rewrite group_keys_In, in_map_iff.
    split; intros (r & H1 & H2); exists r; auto. }
  split; [lia|]. split; [lia|]. split; [reflexivity|].
  split; [lia|]. split; [reflexivity|].
  split; [rewrite Hkeys; exact Hnd|].
  split; [rewrite Hkeys; apply group_keys_sorted|].
  split; [rewrite Hkeys; exact Hin|].
  split.
  { apply Forall_forall. intros l Hl. apply in_map_iff in Hl.
    destruct Hl as (b & <- & Hb). cbn [line FDSummary.stat_branch
      FDSummary.account_count FDSummary.stat_total_balance].
    split; [|split; [apply count_present_map | reflexivity]].
    apply Hin in Hb. destruct Hb as (r & Hr & Hbr).
    intros Hnil.
    assert (Hmem : In r (of_branch b)).
    { unfold of_branch. apply filter_In. split; [exact Hr|].
      rewrite Hbr. simpl. apply String.eqb_refl. }
    rewrite Hnil in Hmem. destruct Hmem. }
  intros Hpresent. rewrite Forall_forall in Hpresent.
  pose proof (cell_groups_perm (fun r => Branch (FDTracker.base r))
                inactive keys Hnd) as Hperm.
  rewrite (filter_all _ inactive) in Hperm.
  2:{ intros r Hr. apply isin_spec.
      destruct (Branch (FDTracker.base r)) as [b|] eqn:Eb;
        [|destruct (Hpresent r Hr) as [Hb _]; congruence].
      exists b. split; [reflexivity|].
      apply Hin. exists r. auto. }
  rewrite map_map. cbn [line FDSummary.account_count].
  rewrite <- (Permutation_length Hperm), length_concat, map_map.
  do 2 f_equal. apply map_ext. intros b.
  rewrite count_present_all; [apply length_map|].
  apply Forall_forall. intros c Hc. apply in_map_iff in Hc.
  destruct Hc as (r & <- & Hr). apply filter_In in Hr.
  apply (Hpresent r (proj1 Hr)).
Qed.

(** On the sample table the one inactive fixed deposit gives one line. *)
Example generate_account_summary_sample :
  let s := FDSummary.generate_account_summary Sample.fd_table in
  (FDSummary.total_fd s, FDSummary.inactive_fd s, FDSummary.active_fd s)
  = (1, 1, 0)
  /\ map (fun line => (FDSummary.stat_branch line,
                       FDSummary.account_count line))
         (FDSummary.branch_stats s)
     = [("Main Branch", 1%nat)].
Proof. vm_compute. split; reflexivity. Qed.

(** X20: in the contact summary of the inactive fixed deposits, the rows
    without any contact attempt and the rows with an attempt on one given
    channel are different rows: for each channel the two counts together do
    not exceed the number of inactive deposits. *)
Theorem get_contact_summary_bounds (df : list FDTracker.fd_row) :
  let c := FDSummary.get_contact_summary df in
  FDSummary.total c
  = List.length
      (filter (fun r => FDSummary.is_fd r && FDTracker.Inactive_Flag r) df)
  /\ (FDSummary.email_attempts c + FDSummary.no_contact c
      <= FDSummary.total c)%nat
  /\ (FDSummary.sms_attempts c + FDSummary.no_contact c
      <= FDSummary.total c)%nat
  /\ (FDSummary.phone_attempts c + FDSummary.no_contact c
      <= FDSummary.total c)%nat.
Proof.
  intros c. subst c. unfold FDSummary.get_contact_summary.
  cbn [FDSummary.total FDSummary.email_attempts FDSummary.sms_attempts
       FDSummary.phone_attempts FDSummary.no_contact].
  split; [reflexivity|].
  assert (Hyn : forall x : cell,
             cell_eqb x "Yes" = true -> cell_eqb x "No" = false).
  { intros x Hx. apply cell_eqb_true in Hx. subst x. reflexivity. }
  split; [|split]; apply filter_disjoint_length; intros r Hr;
    rewrite (Hyn _ Hr); rewrite ?andb_false_r; reflexivity.
Qed.

Section DetailsFacts.

Import FDTracker.

Lemma derive_flag_status (current_date : timestamp) (r : dated_row) :
  Inactive_Flag (derive current_date r)
  = String.eqb (Maturity_Status (derive current_date r)) "Inactive".
Proof.
  unfold derive, dt_days.
  destruct (Last_Transaction_Date r) as [t|]; simpl; [|reflexivity].
  set (d := (current_date - t) / ns_per_day).
  pose proof (inactive_flag_days d) as Hf. unfold nan_test in Hf.
  rewrite Hf, (maturity_status_days d).
  destruct (Z.leb_spec 1096 d), (Z.leb_spec d 365), (Z.leb_spec d 730),
    (Z.leb_spec d 1095); try reflexivity; lia.
Qed.

End DetailsFacts.

(** X21: with the default selections of the details tab (status "Inactive",
    which must be among the statuses present for the widget to offer it,
    and every branch present) the table shown holds exactly the rows
    counted as inactive fixed deposits on the dashboard, provided no row
    lacks a branch. *)
Theorem account_details_default_shows_inactive
    (parse : string -> option timestamp) (current_date : timestamp)
    (file : list raw_row) (df : list FDTracker.fd_row) :
  FDTracker.calculate_maturity_status parse current_date file
    = Returned df ->
  In "Inactive" (map FDTracker.Maturity_Status df) ->
  Forall (fun r => Branch (FDTracker.base r) <> None) df ->
  FDTracker.account_details df ["Inactive"]
    (unique (map (fun r => Branch (FDTracker.base r)) df))
  = filter (fun r => FDSummary.is_fd r && FDTracker.Inactive_Flag r) df
  /\ Z.of_nat
       (List.length
          (FDTracker.account_details df ["Inactive"]
             (unique (map (fun r => Branch (FDTracker.base r)) df))))
     = FDSummary.inactive_fd (FDSummary.generate_account_summary df).
Proof.
  intros Hcalc _ Hbranch. rewrite Forall_forall in Hbranch.
  assert (Hderived : forall r, In r df ->
            FDTracker.Inactive_Flag r
            = String.eqb (FDTracker.Maturity_Status r) "Inactive").
  { unfold FDTracker.calculate_maturity_status in Hcalc.
    destruct (to_datetime_raise parse file) as [rows|e]; [|discriminate].
    injection Hcalc as <-. intros r Hr. apply in_map_iff in Hr.
    destruct Hr as (a & <- & _). apply derive_flag_status. }
  assert (Heq : FDTracker.account_details df ["Inactive"]
                  (unique (map (fun r => Branch (FDTracker.base r)) df))
                = filter (fun r => FDSummary.is_fd r
                                   && FDTracker.Inactive_Flag r) df).
  { unfold FDTracker.account_details. cbn [truthy].
    assert (Hstatus :
      filter (fun r => isin (Some (FDTracker.Maturity_Status r))
                            ["Inactive"])
             (filter (fun r => cell_eqb (Account_Type (FDTracker.base r))
                                        "Fixed Deposit") df)
      = filter (fun r => FDSummary.is_fd r && FDTracker.Inactive_Flag r)
               df).
    { rewrite filter_filter. apply filter_ext_in. intros r Hr.
      unfold FDSummary.is_fd. f_equal. rewrite (Hderived r Hr). simpl.
      apply orb_false_r. }
    rewrite Hstatus.
    destruct (truthy (unique _)); [|reflexivity].
    apply filter_all. intros r Hr. apply filter_In in Hr.
    destruct Hr as [Hr _]. apply isin_unique; [|apply Hbranch; exact Hr].
    apply (in_map (fun x => Branch (FDTracker.base x))). exact Hr. }
  split; [exact Heq|]. rewrite Heq.
  unfold FDSummary.generate_account_summary.
  cbn [FDSummary.inactive_fd]. rewrite filter_filter. reflexivity.
Qed.

Lemma account_details_default_shows_inactive_witness :
  exists df,
    FDTracker.calculate_maturity_status Sample.iso_parse Sample.now
      Sample.clean_file = Returned df
    /\ List.length df = 6%nat
    /\ Z.of_nat
         (List.length
            (FDTracker.account_details df ["Inactive"]
               (unique (map (fun r => Branch (FDTracker.base r)) df))))
       = FDSummary.inactive_fd (FDSummary.generate_account_summary df).
Proof.
  eexists. split; [vm_compute; reflexivity|]. split; [reflexivity|].
  refine (proj2 (account_details_default_shows_inactive
                   Sample.iso_parse Sample.now Sample.clean_file _ _ _ _)).
  - vm_compute. reflexivity.
  - vm_compute. auto.
  - vm_compute. repeat constructor; discriminate.
Defined.

(** ** The violation bots as a whole *)

Section BotFacts.

Import ViolationBots.





End BotFacts.


(** A table in which no row has an email flag: the bot stops. *)
Example dormant_violations_empty_contact_column :
  ViolationBots.violations Sample.now
    [mkRow (Some "ACC0009") (Some "Investment") (Some "Marina")
           (Some "Individual") (Some "Dormant") 64000
           (Some 1632441600000000000) (Some "Valid")
           None (Some "No") (Some "No")]
  = Raised AttributeError.
Proof. reflexivity. Qed.

(** X23: the bots ignore the letter case of the contact flags: two rows
    that differ only in the case of their three flags are treated alike. *)
Theorem violation_mask_ignores_flag_case
    (now : timestamp) (r r' : dated_row) :
  Unreachable.lower_flags r = Unreachable.lower_flags r' ->
  ViolationBots.violation_mask now r = ViolationBots.violation_mask now r'.
Proof.
  intros H.
  assert (Hmask : forall x : dated_row,
            ViolationBots.violation_mask now x
            = date_ltb (Last_Transaction_Date (Unreachable.lower_flags x))
                       (ViolationBots.threshold_date now)
              && cell_eqb (Email_Contact_Attempt (Unreachable.lower_flags x))
                          "no"
              && cell_eqb (SMS_Contact_Attempt (Unreachable.lower_flags x))
                          "no"
              && cell_eqb (Phone_Call_Attempt (Unreachable.lower_flags x))
                          "no").
  { intros x. unfold ViolationBots.violation_mask, ViolationBots.lower_eqb.
    simpl. destruct (Email_Contact_Attempt x), (SMS_Contact_Attempt x),
      (Phone_Call_Attempt x); reflexivity. }
  rewrite (Hmask r), (Hmask r'), H. reflexivity.
Qed.

Lemma violation_mask_ignores_flag_case_witness :
  ViolationBots.violation_mask Sample.now
    (set_date Sample.A6 (Some 1632441600000000000))
  = ViolationBots.violation_mask Sample.now
      (set_date (Sample.acct "ACC0006" "Investment" "Downtown" 410000
                   None "Dormant" "Valid" "NO" "No" "nO")
                (Some 1632441600000000000)).
Proof.
  apply violation_mask_ignores_flag_case. reflexivity.
Defined.

(** X24: every inactive investment the bot detects is, once its flag
    columns are lower-cased, among the unreachable customers of the same
    script; it is among the unreachable dormant ones exactly when its
    status is "dormant" ignoring case. Every unreachable row has the three
    flags equal to "no". *)
Theorem inactive_investments_are_unreachable
    (now : timestamp) (df rows : list dated_row) :
  ViolationBots.inactive_investments now df = Returned rows ->
  (forall r,
      In r rows ->
      In (Unreachable.lower_flags r) (Unreachable.unreachable df)
      /\ (In (Unreachable.lower_flags r) (Unreachable.unreachable_dormant df)
          <-> ViolationBots.lower_eqb (Account_Status r) "dormant" = true))
  /\ Forall (fun u =>
               Email_Contact_Attempt u = Some "no"
               /\ SMS_Contact_Attempt u = Some "no"
               /\ Phone_Call_Attempt u = Some "no")
            (Unreachable.unreachable df).
Proof.
  intros H.
  pose proof (dormant_violations_known "Investment" now df rows H) as Hk.
  rewrite Forall_forall in Hk.
  assert (Hmask : forall r, In r rows ->
                            ViolationBots.violation_mask now r = true).
  { unfold ViolationBots.inactive_investments in H.
    apply dormant_violations_returned in H.
    destruct H as (typed & _ & ->).
    intros r Hr. apply filter_In in Hr. apply Hr. }
  assert (Hlow : forall c : cell,
            ViolationBots.lower_eqb c "no"
            = cell_eqb (option_map str_lower c) "no").
  { intros [s|]; reflexivity. }
  split.
  - intros r Hr. destruct (Hk r Hr) as [Hin _].
    specialize (Hmask r Hr). unfold ViolationBots.violation_mask in Hmask.
    rewrite !andb_true_iff, !Hlow in Hmask.
    destruct Hmask as [[[_ He] Hs] Hp].
    assert (Hu : In (Unreachable.lower_flags r)
                    (Unreachable.unreachable df)).
    { unfold Unreachable.unreachable. apply filter_In. split.
      - apply in_map. exact Hin.
      - simpl. rewrite He, Hs, Hp. reflexivity. }
    split; [exact Hu|].
    unfold Unreachable.unreachable_dormant. rewrite filter_In. simpl.
    tauto.
  - apply Forall_forall. intros u Hu. unfold Unreachable.unreachable in Hu.
    apply filter_In in Hu. destruct Hu as [_ Hu].
    rewrite !andb_true_iff, !cell_eqb_true in Hu. tauto.
Qed.

Lemma inactive_investments_are_unreachable_witness :
  exists rows,
    ViolationBots.inactive_investments Sample.now
      (to_datetime_coerce Sample.iso_parse Sample.dirty_file)
    = Returned rows
    /\ List.length rows = 1%nat
    /\ Forall (fun u =>
                 Email_Contact_Attempt u = Some "no"
                 /\ SMS_Contact_Attempt u = Some "no"
                 /\ Phone_Call_Attempt u = Some "no")
              (Unreachable.unreachable
                 (to_datetime_coerce Sample.iso_parse Sample.dirty_file)).
Proof.
  eexists. split; [vm_compute; reflexivity|]. split; [reflexivity|].
  refine (proj2 (inactive_investments_are_unreachable
                   Sample.now _ _ _)).
  vm_compute. reflexivity.
Defined.

(** ** The transfer script over a table *)

